(** * Village simulation: needs, inventories, barter, families and metrics

    A shallow embedding of the decision-and-economy core of the village
    simulation (package [village_sim]) together with the properties its
    specification states about it.

    Conventions of the embedding.
    - Python [float] values are exact rationals ([Q]); equality of numeric
      results is [Qeq] ([==]).  Rounding is outside that model, so the
      properties stated over [Q] are those that do not depend on how a
      result is rounded: the branch the code takes on its own comparisons,
      clamps, monotonicity, and the structure of what is stored.  Where
      rounding decides a property, [Binary64] runs the same code over IEEE
      binary64 numbers (Rocq's primitive floats) and the property is
      evaluated there.
    - A Python [dict] whose iteration order the code relies on is an
      association list in insertion order ([dict V]).
    - Methods that mutate [self] return the new object next to their result.
    - Inventories are shared objects (a family inventory is reached from every
      member), so the trade code runs over a store of inventories addressed
      by reference. *)

From Stdlib Require Import QArith Qminmax Qabs List String Bool Lia Lra Lqa ZArith.
From Stdlib Require Import Permutation.
From Stdlib Require PrimFloat Uint63.
Import ListNotations.
Open Scope string_scope.
Open Scope list_scope.
Open Scope Q_scope.

(* ===================================================================== *)
(** ** Numeric comparisons as the code writes them *)

Definition Qlt_bool (x y : Q) : bool := negb (Qle_bool y x).

Definition Qsum (l : list Q) : Q := fold_right Qplus 0 l.

(* ===================================================================== *)
(** ** Insertion-ordered dictionaries with string keys *)

Section Dict.
Context {V : Type}.

Definition dict := list (string * V).

Fixpoint dict_get (d : dict) (k : string) : option V :=
  match d with
  | [] => None
  | (k', v) :: d' => if String.eqb k' k then Some v else dict_get d' k
  end.

Definition dict_mem (d : dict) (k : string) : bool :=
  match dict_get d k with Some _ => true | None => false end.

(** [d[k] = v]: overwrite in place, or append a new key at the end. *)
Fixpoint dict_set (d : dict) (k : string) (v : V) : dict :=
  match d with
  | [] => [(k, v)]
  | (k', v') :: d' =>
      if String.eqb k' k then (k', v) :: d' else (k', v') :: dict_set d' k v
  end.

(** [del d[k]] *)
Fixpoint dict_del (d : dict) (k : string) : dict :=
  match d with
  | [] => []
  | (k', v') :: d' =>
      if String.eqb k' k then d' else (k', v') :: dict_del d' k
  end.

Definition dict_values (d : dict) : list V := map snd d.
Definition dict_keys (d : dict) : list string := map fst d.
End Dict.

Arguments dict V : clear implicits.

(* ===================================================================== *)
(** ** economy/inventory.py *)

Module Inv.

(** One row of [ITEM_CATALOG]; every key of a row is optional. *)
Record CatalogEntry := mkCat {
  cat_weight : option Q;
  cat_perishable : option bool;
  cat_perish_days : option Z;
  cat_food_value : option Q;
  cat_tool_type : option string;
  cat_max_durability : option Q;
  cat_warmth_value : option Q;
  cat_heal_value : option Q
}.

Definition no_entry : CatalogEntry :=
  mkCat None None None None None None None None.

Definition food (w : Q) (days : Z) (fv : Q) : CatalogEntry :=
  mkCat (Some w) (Some true) (Some days) (Some fv) None None None None.
Definition material (w : Q) : CatalogEntry :=
  mkCat (Some w) (Some false) None None None None None None.
Definition tool (w : Q) (ttype : string) (dur : option Q) : CatalogEntry :=
  mkCat (Some w) (Some false) None None (Some ttype) dur None None.

Definition ITEM_CATALOG : dict CatalogEntry :=
  [ ("berries", food 0.5 5 0.5);
    ("raw_meat", food 2.0 3 1.0);
    ("cooked_meat", food 1.5 7 1.5);
    ("dried_meat", food 1.0 60 1.2);
    ("grain", food 1.0 180 0.8);
    ("bread", food 0.5 5 1.0);
    ("fish", food 1.5 2 1.0);
    ("dried_fish", food 0.8 90 1.0);
    ("vegetables", food 1.0 10 0.5);
    ("timber", material 10.0);
    ("stone", material 15.0);
    ("clay", material 5.0);
    ("iron_ore", material 12.0);
    ("plant_fiber", material 0.5);
    ("animal_hide", mkCat (Some 3.0) (Some true) (Some 30%Z) None None None None None);
    ("tanned_leather", material 2.0);
    ("firewood", material 5.0);
    ("stone_axe", tool 2.0 "axe" (Some 50));
    ("stone_knife", tool 0.5 "knife" (Some 40));
    ("wooden_spear", tool 2.0 "spear" (Some 30));
    ("fishing_rod", tool 1.0 "fishing" (Some 40));
    ("bow", tool 1.5 "ranged" (Some 60));
    ("arrows", tool 0.1 "ammo" None);
    ("hoe", tool 2.5 "farming" (Some 50));
    ("hammer", tool 3.0 "construction" (Some 70));
    ("pickaxe", tool 4.0 "mining" (Some 60));
    ("rope", material 1.0);
    ("basket", material 0.5);
    ("clay_pot", material 2.0);
    ("cloth", material 0.5);
    ("clothing", mkCat (Some 1.0) (Some false) None None None None (Some 0.3) None);
    ("medicine", mkCat (Some 0.2) (Some true) (Some 30%Z) None None None None (Some 0.3)) ].

(** [ITEM_CATALOG.get(item_type, {})] *)
Definition catalog (item_type : string) : CatalogEntry :=
  match dict_get ITEM_CATALOG item_type with
  | Some c => c
  | None => no_entry
  end.

Definition get_or {A : Type} (o : option A) (dflt : A) : A :=
  match o with Some a => a | None => dflt end.

Definition has_key {A : Type} (o : option A) : bool :=
  match o with Some _ => true | None => false end.

(** [food_items()]: the catalog keys that carry a [food_value], in
    catalog order. *)
Definition food_items : list string :=
  map fst (filter (fun kv => has_key (cat_food_value (snd kv))) ITEM_CATALOG).

Definition get_tool_type (item_type : string) : option string :=
  cat_tool_type (catalog item_type).

(** A stack of items in an inventory. *)
Record Item := mkItem {
  item_type : string;
  quantity : Q;
  quality : Q;
  days_since_created : Z;
  current_durability : Q;
  max_durability : Q
}.

Definition set_quantity (it : Item) (q : Q) : Item :=
  mkItem (item_type it) q (quality it) (days_since_created it)
         (current_durability it) (max_durability it).

Definition weight_per_unit (it : Item) : Q :=
  get_or (cat_weight (catalog (item_type it))) 1.0.

Definition item_total_weight (it : Item) : Q :=
  quantity it * weight_per_unit it.

Definition food_value (it : Item) : Q :=
  get_or (cat_food_value (catalog (item_type it))) 0.0.

Definition is_tool (it : Item) : bool :=
  has_key (cat_tool_type (catalog (item_type it))).

Definition tool_type (it : Item) : option string :=
  get_tool_type (item_type it).

(** Effective quality of a tool, degraded by durability. *)
Definition tool_quality (it : Item) : Q :=
  if negb (is_tool it) || Qeq_bool (max_durability it) 0
  then quality it
  else quality it * (current_durability it / max_durability it).

(** [Item(item_type=..., quantity=..., quality=...)] with the dataclass
    defaults for the remaining fields. *)
Definition plain_item (t : string) (q ql : Q) : Item :=
  mkItem t q ql 0%Z 0.0 0.0.

Definition create_item (t : string) (q ql : Q) : Item :=
  let max_dur := get_or (cat_max_durability (catalog t)) 0.0 in
  mkItem t q ql 0%Z max_dur max_dur.

(** Container for items with weight capacity. *)
Record Inventory := mkInventory {
  items : dict (list Item);
  capacity : Q;
  owner_type : string
}.

Definition new_inventory (cap : Q) : Inventory := mkInventory [] cap "personal".

Definition set_items (inv : Inventory) (d : dict (list Item)) : Inventory :=
  mkInventory d (capacity inv) (owner_type inv).

Definition stacks_weight (stacks : list Item) : Q :=
  Qsum (map item_total_weight stacks).

Definition stacks_quantity (stacks : list Item) : Q :=
  Qsum (map quantity stacks).

Definition total_weight (inv : Inventory) : Q :=
  Qsum (map (fun kv => stacks_weight (snd kv)) (items inv)).

Definition total_of (inv : Inventory) (t : string) : Q :=
  match dict_get (items inv) t with
  | None => 0.0
  | Some stacks => stacks_quantity stacks
  end.

Definition has (inv : Inventory) (t : string) (min_quantity : Q) : bool :=
  Qle_bool min_quantity (total_of inv t).

(** The merge loop of [add]: the first existing stack of similar quality
    absorbs the quantity of a non-tool item; [None] when no stack does. *)
Fixpoint merge_into (stacks : list Item) (item : Item) : option (list Item) :=
  match stacks with
  | [] => None
  | existing :: rest =>
      if Qlt_bool (Qabs (quality existing - quality item)) 0.05
         && negb (is_tool item)
      then Some (set_quantity existing (quantity existing + quantity item) :: rest)
      else match merge_into rest item with
           | Some rest' => Some (existing :: rest')
           | None => None
           end
  end.

(** The part of [add] after the capacity check. *)
Definition store (inv : Inventory) (item : Item) : Inventory :=
  let stacks := get_or (dict_get (items inv) (item_type item)) [] in
  let stacks' := match merge_into stacks item with
                 | Some merged => merged
                 | None => stacks ++ [item]
                 end in
  set_items inv (dict_set (items inv) (item_type item) stacks').

(** [Inventory.add]: the returned flag and the inventory afterwards. *)
Definition add (inv : Inventory) (item : Item) : bool * Inventory :=
  if Qlt_bool (capacity inv) (total_weight inv + item_total_weight item) then
    let available := capacity inv - total_weight inv in
    if Qle_bool available 0 then (false, inv)
    else
      let addable := available / weight_per_unit item in
      if Qlt_bool addable 0.01 then (false, inv)
      else (true, store inv (set_quantity item addable))
  else (true, store inv item).

(** The [while removed_qty < quantity and stacks] loop of [remove].
    The result is the removed quantity, the running average quality and
    the stacks left. *)
Fixpoint remove_loop (fuel : nat) (qty removed_qty avg_quality : Q)
         (stacks : list Item) : option (Q * Q * list Item) :=
  match fuel with
  | O => None
  | S fuel' =>
      match stacks with
      | [] => Some (removed_qty, avg_quality, [])
      | stack :: rest =>
          if Qlt_bool removed_qty qty then
            let take := Qmin (qty - removed_qty) (quantity stack) in
            let avg' := if Qlt_bool 0 (removed_qty + take)
                        then (avg_quality * removed_qty + quality stack * take)
                             / (removed_qty + take)
                        else 0 in
            let removed' := removed_qty + take in
            let stack' := set_quantity stack (quantity stack - take) in
            if Qle_bool (quantity stack') 0.001
            then remove_loop fuel' qty removed' avg' rest
            else remove_loop fuel' qty removed' avg' (stack' :: rest)
          else Some (removed_qty, avg_quality, stacks)
      end
  end.

(** Iterations the loop can need: one per stack, one for a stack that is
    only partly taken, one for the final test. *)
Definition remove_fuel (stacks : list Item) : nat := (List.length stacks + 2)%nat.

(** [Inventory.remove]: the removed item (or [None]) and the inventory
    afterwards.  The stack list is mutated in place, so the inventory
    changes even on the path that returns [None] after the loop. *)
Definition remove (inv : Inventory) (t : string) (qty : Q)
  : option Item * Inventory :=
  match dict_get (items inv) t with
  | None => (None, inv)
  | Some stacks =>
      match remove_loop (remove_fuel stacks) qty 0.0 0.0 stacks with
      | None => (None, inv)
      | Some (removed_qty, avg_quality, stacks') =>
          if Qle_bool removed_qty 0
          then (None, set_items inv (dict_set (items inv) t stacks'))
          else
            let d := match stacks' with
                     | [] => dict_del (items inv) t
                     | _ => dict_set (items inv) t stacks'
                     end in
            (Some (plain_item t removed_qty avg_quality), set_items inv d)
      end
  end.

(** [get_best_tool]: scan every stack of every item type, keep the first
    functional tool of the type with the strictly best quality. *)
Definition better_tool (ttype : string) (best : option Item) (it : Item) : option Item :=
  match tool_type it with
  | Some ttype' =>
      if String.eqb ttype' ttype && Qlt_bool 0 (current_durability it) then
        match best with
        | None => Some it
        | Some b => if Qlt_bool (tool_quality b) (tool_quality it)
                    then Some it else best
        end
      else best
  | None => best
  end.

Definition get_best_tool (inv : Inventory) (ttype : string) : option Item :=
  fold_left (fun best kv => fold_left (better_tool ttype) (snd kv) best)
            (items inv) None.

Definition has_tool_type (inv : Inventory) (ttype : string) : bool :=
  has_key (get_best_tool inv ttype).

Definition total_food_value (inv : Inventory) : Q :=
  fold_left
    (fun total t =>
       fold_left (fun total it => total + quantity it * food_value it)
                 (get_or (dict_get (items inv) t) []) total)
    food_items 0.0.

End Inv.

(* ===================================================================== *)
(** ** core/config.py: the constants the modelled code reads *)

Module Config.
Definition HUNGER_DECAY_RATE : Q := 0.35.
Definition THIRST_DECAY_RATE : Q := 0.50.
Definition SHELTER_DECAY_RATE : Q := 0.05.
Definition WARMTH_DECAY_RATE : Q := 0.10.
Definition SAFETY_DECAY_RATE : Q := 0.02.
Definition SOCIAL_DECAY_RATE : Q := 0.05.
Definition REST_DECAY_RATE : Q := 0.30.
Definition PURPOSE_DECAY_RATE : Q := 0.01.
Definition COMFORT_DECAY_RATE : Q := 0.03.
Definition SURVIVAL_CRITICAL_THRESHOLD : Q := 0.15.
Definition BASE_DAILY_FOOD_NEED : Q := 1.5.
Definition TRADE_SURPLUS_DAYS_THRESHOLD : Q := 5.
Definition TRADE_DEFICIT_DAYS_THRESHOLD : Q := 3.
Definition TRADE_TRUST_WEIGHT : Q := 0.3.
Definition TRADE_PERSONALITY_MARGIN : Q := 0.15.
Definition TRADE_VALUE_FOOD_HUNGRY_MULTIPLIER : Q := 3.0.
Definition TRADE_DIMINISHING_SURPLUS_FACTOR : Q := 0.5.
Definition SKILL_LEARNING_RATE : Q := 50.0.
Definition NEED_WEIGHTS : dict Q :=
  [ ("hunger", 10.0); ("thirst", 12.0); ("rest", 8.0); ("warmth", 7.0);
    ("shelter", 5.0); ("safety", 6.0); ("health", 9.0); ("social", 3.0);
    ("purpose", 2.0); ("comfort", 1.0) ].
Definition need_weight (name : string) : Q :=
  match dict_get NEED_WEIGHTS name with Some w => w | None => 0 end.
End Config.

(* ===================================================================== *)
(** ** agents/needs.py *)

Module Needs.
Import Config.

(** A single need with satisfaction level and urgency.  The source
    documents [satisfaction] as ranging from 0.0 (desperate) to 1.0
    (fully satisfied). *)
Record Need := mkNeed {
  name : string;
  satisfaction : Q;
  decay_rate : Q;
  weight : Q;
  urgency_curve : string
}.

Definition set_satisfaction (n : Need) (s : Q) : Need :=
  mkNeed (name n) s (decay_rate n) (weight n) (urgency_curve n).

(** [Need.decay]: subtract, then clamp below at 0. *)
Definition decay (n : Need) (modifier : Q) : Need :=
  let n1 := set_satisfaction n (satisfaction n - decay_rate n * modifier) in
  set_satisfaction n1 (Qmax 0.0 (satisfaction n1)).

(** [Need.satisfy]: add, clamp above at 1. *)
Definition satisfy (n : Need) (amount : Q) : Need :=
  set_satisfaction n (Qmin 1.0 (satisfaction n + amount)).

Definition is_critical (n : Need) : bool :=
  Qlt_bool (satisfaction n) SURVIVAL_CRITICAL_THRESHOLD.

(** A call on a need, for sequences of calls. *)
Inductive call :=
| Decay (modifier : Q)
| Satisfy (amount : Q).

Definition apply_call (n : Need) (c : call) : Need :=
  match c with
  | Decay m => decay n m
  | Satisfy a => satisfy n a
  end.

(** The need after each call of the sequence, in order. *)
Fixpoint trace (n : Need) (cs : list call) : list Need :=
  match cs with
  | [] => []
  | c :: cs' => let n' := apply_call n c in n' :: trace n' cs'
  end.

Definition in_unit_range (n : Need) : Prop :=
  0 <= satisfaction n /\ satisfaction n <= 1.

(** Manages all needs for a villager. *)
Record NeedSystem := mkNeedSystem { needs : dict Need }.

Definition new_need_system : NeedSystem :=
  mkNeedSystem
    [ ("hunger", mkNeed "hunger" 1.0 HUNGER_DECAY_RATE (need_weight "hunger") "exponential");
      ("thirst", mkNeed "thirst" 1.0 THIRST_DECAY_RATE (need_weight "thirst") "exponential");
      ("rest", mkNeed "rest" 1.0 REST_DECAY_RATE (need_weight "rest") "exponential");
      ("warmth", mkNeed "warmth" 1.0 WARMTH_DECAY_RATE (need_weight "warmth") "exponential");
      ("shelter", mkNeed "shelter" 1.0 SHELTER_DECAY_RATE (need_weight "shelter") "linear");
      ("safety", mkNeed "safety" 1.0 SAFETY_DECAY_RATE (need_weight "safety") "linear");
      ("health", mkNeed "health" 1.0 0.0 (need_weight "health") "exponential");
      ("social", mkNeed "social" 1.0 SOCIAL_DECAY_RATE (need_weight "social") "linear");
      ("purpose", mkNeed "purpose" 1.0 PURPOSE_DECAY_RATE (need_weight "purpose") "linear");
      ("comfort", mkNeed "comfort" 0.5 COMFORT_DECAY_RATE (need_weight "comfort") "linear") ].

(** [NeedSystem.satisfy]: forwards to the named need when it exists. *)
Definition system_satisfy (ns : NeedSystem) (need_name : string) (amount : Q)
  : NeedSystem :=
  match dict_get (needs ns) need_name with
  | Some n => mkNeedSystem (dict_set (needs ns) need_name (satisfy n amount))
  | None => ns
  end.

(** The modifier [daily_decay] computes for a need; [None] is the
    [continue] taken for health. *)
Definition decay_modifier (nm : string) (warmth_modifier shelter_quality : Q)
           (had_social_interaction was_productive : bool) : option Q :=
  if String.eqb nm "warmth" then
    Some (warmth_modifier * Qmax 0.3 (1.0 - shelter_quality * 0.7))
  else if String.eqb nm "shelter" then
    Some (Qmax 0.1 (1.0 - shelter_quality))
  else if String.eqb nm "social" then
    Some (if had_social_interaction then 0.0 else 1.0)
  else if String.eqb nm "purpose" then
    Some (if was_productive then 0.0 else 1.0)
  else if String.eqb nm "health" then None
  else Some 1.0.

(** [NeedSystem.daily_decay] *)
Definition daily_decay (ns : NeedSystem) (warmth_modifier shelter_quality : Q)
           (had_social_interaction was_productive : bool) : NeedSystem :=
  mkNeedSystem
    (map (fun kv =>
            match decay_modifier (fst kv) warmth_modifier shelter_quality
                                 had_social_interaction was_productive with
            | Some m => (fst kv, decay (snd kv) m)
            | None => kv
            end)
         (needs ns)).

(** Satisfaction of a named need ([needs.needs[name].satisfaction]); the
    ten needs always exist, the default stands for the [KeyError]. *)
Definition satisfaction_of (ns : NeedSystem) (nm : string) : Q :=
  match dict_get (needs ns) nm with
  | Some n => satisfaction n
  | None => 0
  end.

End Needs.

(* ===================================================================== *)
(** ** agents/villager.py, agents/memory.py: the state the barter code reads *)

Module Agent.
Import Config.

(** The personality traits the modelled code consults (each on [1,99]). *)
Record Traits := mkTraits {
  ambition : Q;
  intelligence : Q;
  empathy : Q;
  sociability : Q
}.

Record Memory := mkMemory { skill_experience : dict Q }.

Record Villager := mkVillager {
  id : Z;
  traits : Traits;
  needs : Needs.NeedSystem;
  memory : Memory;
  health : Q;
  family_id : Z;
  current_position : Z * Z;
  personal_inventory : option Inv.Inventory
}.

Definition set_needs (v : Villager) (ns : Needs.NeedSystem) : Villager :=
  mkVillager (id v) (traits v) ns (memory v) (health v) (family_id v)
             (current_position v) (personal_inventory v).

Definition set_family_id (v : Villager) (f : Z) : Villager :=
  mkVillager (id v) (traits v) (needs v) (memory v) (health v) f
             (current_position v) (personal_inventory v).

(** The villager with hunger satisfaction forced to [h], everything else
    as it was. *)
Definition with_hunger (v : Villager) (h : Q) : Villager :=
  let old := match dict_get (Needs.needs (needs v)) "hunger" with
             | Some n => n
             | None => Needs.mkNeed "hunger" 1.0 HUNGER_DECAY_RATE
                                    (need_weight "hunger") "exponential"
             end in
  set_needs v (Needs.mkNeedSystem
                 (dict_set (Needs.needs (needs v)) "hunger"
                           (Needs.set_satisfaction old h))).

Section Skill.
(** [math.exp], which has no rational model, is a parameter. *)
Variable exp : Q -> Q.

(** [Memory.skill_level]: skill (0-100) from XP, diminishing returns. *)
Definition skill_level (m : Memory) (activity : string) (intel : Q) : Q :=
  let xp := match dict_get (skill_experience m) activity with
            | Some x => x
            | None => 0.0
            end in
  let effective_rate := SKILL_LEARNING_RATE * (1.0 + 0.5 * (intel / 100.0)) in
  100.0 * (1.0 - exp (- xp / effective_rate)).
End Skill.
End Agent.

(* ===================================================================== *)
(** ** economy/trade.py *)

Module Trade.
Import Config Inv Agent.

(** A proposed bilateral trade. *)
Record TradeOffer := mkOffer {
  offering : dict Q;
  requesting : dict Q;
  offerer_id : Z;
  target_id : Z
}.

(** Record of a completed trade for metrics. *)
Record TradeRecord := mkRecord {
  day : Z;
  rec_offerer_id : Z;
  rec_target_id : Z;
  items_offered : dict Q;
  items_received : dict Q
}.

(** Truth value of an optional string ([if tool_type:]). *)
Definition truthy (o : option string) : bool :=
  match o with
  | Some s => negb (String.eqb s "")
  | None => false
  end.

Section Valuation.
Variable exp : Q -> Q.

(** -- Food value adjustment -- *)
Definition hunger_mult (hunger_sat : Q) : Q :=
  if Qlt_bool hunger_sat 0.5
  then 1.0 + (0.5 - hunger_sat) * (TRADE_VALUE_FOOD_HUNGRY_MULTIPLIER - 1.0) * 2
  else 1.0.

Definition food_adjust (villager : Villager) (cat : CatalogEntry)
           (base_value : Q) : Q :=
  let food_val := get_or (cat_food_value cat) 0.0 in
  if Qlt_bool 0 food_val then
    let hunger_sat := Needs.satisfaction_of (needs villager) "hunger" in
    let base_value := food_val * hunger_mult hunger_sat * 2.0 in
    let perish_days := get_or (cat_perish_days cat) 999%Z in
    if (perish_days <? 999)%Z then
      let shelf_bonus := Qmin 1.0 (inject_Z perish_days / 60.0) in
      base_value * (0.7 + 0.3 * shelf_bonus)
    else base_value
  else base_value.

(** -- Tool value adjustment -- *)
Definition tool_adjust (villager : Villager) (family_inv : option Inventory)
           (cat : CatalogEntry) (base_value : Q) : Q :=
  if truthy (cat_tool_type cat) then
    let ttype := get_or (cat_tool_type cat) "" in
    let has_tool := match personal_inventory villager with
                    | Some pinv => has_tool_type pinv ttype
                    | None => false
                    end in
    let has_tool := if negb has_tool
                    then match family_inv with
                         | Some finv => has_tool_type finv ttype
                         | None => has_tool
                         end
                    else has_tool in
    let base_value := if negb has_tool then base_value * 3.0
                      else base_value * 0.8 in
    base_value * (0.8 + 0.4 * ambition (traits villager) / 100.0)
  else base_value.

(** -- Warmth value (clothing) -- *)
Definition warmth_adjust (villager : Villager) (cat : CatalogEntry)
           (base_value : Q) : Q :=
  if Qlt_bool 0 (get_or (cat_warmth_value cat) 0.0) then
    if Qlt_bool (Needs.satisfaction_of (needs villager) "warmth") 0.5
    then base_value * 2.0 else base_value
  else base_value.

(** -- Medicine value -- *)
Definition medicine_adjust (villager : Villager) (cat : CatalogEntry)
           (base_value : Q) : Q :=
  if Qlt_bool 0 (get_or (cat_heal_value cat) 0.0) then
    if Qlt_bool (Needs.satisfaction_of (needs villager) "health") 0.7
    then base_value * 2.5 else base_value
  else base_value.

(** -- Diminishing marginal value for items already owned -- *)
Definition owned_quantity (villager : Villager) (family_inv : option Inventory)
           (item_type : string) : Q :=
  let owned := 0.0 in
  let owned := match family_inv with
               | Some finv => owned + total_of finv item_type
               | None => owned
               end in
  match personal_inventory villager with
  | Some pinv => owned + total_of pinv item_type
  | None => owned
  end.

Definition diminish_adjust (villager : Villager) (family_inv : option Inventory)
           (item_type : string) (base_value : Q) : Q :=
  let owned := owned_quantity villager family_inv item_type in
  if Qlt_bool 0 owned
  then base_value * (1.0 / (1.0 + owned * TRADE_DIMINISHING_SURPLUS_FACTOR))
  else base_value.

(** -- Skill-based adjustment -- *)
Definition skill_map : dict string :=
  [ ("raw_meat", "hunting"); ("fish", "fishing");
    ("berries", "gathering"); ("vegetables", "farming") ].

Definition skill_adjust (villager : Villager) (item_type : string)
           (base_value : Q) : Q :=
  match dict_get skill_map item_type with
  | Some skill_name =>
      if negb (String.eqb skill_name "") then
        let skill := skill_level exp (memory villager) skill_name
                                 (intelligence (traits villager)) in
        if Qlt_bool 30 skill
        then base_value * Qmax 0.5 (1.0 - skill / 200.0)
        else base_value
      else base_value
  | None => base_value
  end.

(** How much does this villager value this item right now? *)
Definition subjective_value (villager : Villager) (item_type : string)
           (qty : Q) (family_inv : option Inventory) : Q :=
  let cat := catalog item_type in
  let base_weight := get_or (cat_weight cat) 1.0 in
  let base_value := base_weight * 0.5 in
  let base_value := food_adjust villager cat base_value in
  let base_value := tool_adjust villager family_inv cat base_value in
  let base_value := warmth_adjust villager cat base_value in
  let base_value := medicine_adjust villager cat base_value in
  let base_value := diminish_adjust villager family_inv item_type base_value in
  let base_value := skill_adjust villager item_type base_value in
  Qmax 0.01 (base_value * qty).
End Valuation.

(** Items beyond what this villager needs for the next N days. *)
Fixpoint surplus_loop (its : dict (list Item)) (remaining_food_need : Q)
         (surplus : dict Q) : dict Q :=
  match its with
  | [] => surplus
  | (item_type, stacks) :: rest =>
      let total_qty := stacks_quantity stacks in
      if Qle_bool total_qty 0.01 then
        surplus_loop rest remaining_food_need surplus
      else
        let cat := catalog item_type in
        let food_val := get_or (cat_food_value cat) 0.0 in
        if Qlt_bool 0 food_val then
          let needed_qty := remaining_food_need / Qmax 0.01 food_val in
          let excess := total_qty - needed_qty in
          let surplus' := if Qlt_bool 0.5 excess
                          then dict_set surplus item_type excess
                          else surplus in
          surplus_loop rest
            (remaining_food_need - Qmin total_qty needed_qty * food_val)
            surplus'
        else if truthy (cat_tool_type cat) then
          surplus_loop rest remaining_food_need
            (if Qlt_bool 1 total_qty
             then dict_set surplus item_type (total_qty - 1)
             else surplus)
        else
          surplus_loop rest remaining_food_need
            (if Qlt_bool 5 total_qty
             then dict_set surplus item_type (total_qty - 5)
             else surplus)
  end.

Definition _get_surplus (villager : Villager) (inv : Inventory) : dict Q :=
  let food_need := BASE_DAILY_FOOD_NEED * TRADE_SURPLUS_DAYS_THRESHOLD in
  surplus_loop (items inv) food_need [].

(** The preference tuple of [_get_deficits]; only its head is used
    because the loop breaks after the first pass. *)
Definition food_preference : list string :=
  [ "grain"; "dried_meat"; "dried_fish"; "cooked_meat"; "bread"; "berries" ].

(** The set literal of essential tool categories, in the order written
    (a Python set iterates in hash order; the order only decides the
    insertion order of the deficits). *)
Definition needed_tools : list string :=
  [ "axe"; "knife"; "spear"; "farming"; "fishing" ].

(** First catalog item of a tool type. *)
Definition first_item_of_tool_type (ttype : string) : option string :=
  match filter (fun kv => match cat_tool_type (snd kv) with
                          | Some ttype' => String.eqb ttype' ttype
                          | None => false
                          end) ITEM_CATALOG with
  | kv :: _ => Some (fst kv)
  | [] => None
  end.

(** Items below what this villager needs for the next N days. *)
Definition _get_deficits (villager : Villager) (inv : Inventory) : dict Q :=
  let deficits : dict Q := [] in
  let food_need := BASE_DAILY_FOOD_NEED * TRADE_DEFICIT_DAYS_THRESHOLD in
  let total_food := total_food_value inv in
  let deficits :=
    if Qlt_bool total_food food_need then
      let deficit_food := food_need - total_food in
      match food_preference with
      | ft :: _ =>
          let fv := get_or (cat_food_value (catalog ft)) 0.5 in
          dict_set deficits ft (deficit_food / fv)
      | [] => deficits
      end
    else deficits in
  let deficits :=
    fold_left
      (fun deficits ttype =>
         let has_it := has_tool_type inv ttype in
         let has_it := match personal_inventory villager with
                       | Some pinv => if negb has_it then has_tool_type pinv ttype
                                      else has_it
                       | None => has_it
                       end in
         if negb has_it then
           match first_item_of_tool_type ttype with
           | Some itype => dict_set deficits itype 1.0
           | None => deficits
           end
         else deficits)
      needed_tools deficits in
  let deficits :=
    if Qlt_bool (Needs.satisfaction_of (needs villager) "warmth") 0.4
       && negb (has inv "clothing" 1.0)
    then dict_set deficits "clothing" 1.0 else deficits in
  if Qlt_bool (health villager) 70 && negb (has inv "medicine" 1.0)
  then dict_set deficits "medicine" 1.0 else deficits.

(** Key with the largest value, the first one on ties
    ([max(d.keys(), key=lambda k: d[k])]). *)
Definition max_key (d : dict Q) : option (string * Q) :=
  fold_left (fun best kv =>
               match best with
               | None => Some kv
               | Some b => if Qlt_bool (snd b) (snd kv) then Some kv else best
               end) d None.

(** The state of [generate_offer] just before the personality step. *)
Record Negotiation := mkNegotiation {
  neg_offering : dict Q;
  neg_requesting : dict Q;
  neg_offer_value : Q;
  neg_request_value : Q
}.

Section Offers.
Variable exp : Q -> Q.

(** Offer surplus items that match partner's estimated needs. *)
Definition offer_matching (partner : Villager) (partner_inv_estimate : Inventory)
           (my_surplus partner_deficit_estimate : dict Q) : dict Q * Q :=
  fold_left
    (fun acc kv =>
       match dict_get partner_deficit_estimate (fst kv) with
       | Some wanted =>
           let offer_qty := Qmin (snd kv) wanted in
           if Qlt_bool 0.01 offer_qty then
             (dict_set (fst acc) (fst kv) offer_qty,
              snd acc + subjective_value exp partner (fst kv) offer_qty
                                         (Some partner_inv_estimate))
           else acc
       | None => acc
       end)
    my_surplus ([], 0.0).

(** If no match found, offer most surplus item. *)
Definition offer_largest (partner : Villager) (partner_inv_estimate : Inventory)
           (my_surplus : dict Q) (acc : dict Q * Q) : dict Q * Q :=
  match fst acc, max_key my_surplus with
  | [], Some best =>
      let offer_qty := Qmin (snd best) (snd best * 0.5) in
      if Qlt_bool 0.01 offer_qty then
        (dict_set (fst acc) (fst best) offer_qty,
         snd acc + subjective_value exp partner (fst best) offer_qty
                                    (Some partner_inv_estimate))
      else acc
  | _, _ => acc
  end.

(** Request items I need from what partner might have. *)
Definition request_deficits (villager : Villager) (villager_inv : Inventory)
           (partner_inv_estimate : Inventory) (my_deficits : dict Q)
  : dict Q * Q :=
  fold_left
    (fun acc kv =>
       let est_partner_has := total_of partner_inv_estimate (fst kv) in
       if Qlt_bool 0 est_partner_has then
         let req_qty := Qmin (snd kv) (est_partner_has * 0.5) in
         if Qlt_bool 0.01 req_qty then
           (dict_set (fst acc) (fst kv) req_qty,
            snd acc + subjective_value exp villager (fst kv) req_qty
                                       (Some villager_inv))
         else acc
       else acc)
    my_deficits ([], 0.0).

(** If no specific deficit, request what the partner has in surplus:
    the first eligible item only (the loop breaks). *)
Fixpoint request_surplus (villager : Villager) (villager_inv : Inventory)
         (offering : dict Q) (partner_surplus : dict Q) (acc : dict Q * Q)
  : dict Q * Q :=
  match partner_surplus with
  | [] => acc
  | (item_type, qty) :: rest =>
      if negb (dict_mem offering item_type) then
        let req_qty := Qmin (qty * 0.3) qty in
        if Qlt_bool 0.01 req_qty then
          (dict_set (fst acc) item_type req_qty,
           snd acc + subjective_value exp villager item_type req_qty
                                      (Some villager_inv))
        else request_surplus villager villager_inv offering rest acc
      else request_surplus villager villager_inv offering rest acc
  end.

Definition negotiate (villager partner : Villager)
           (villager_inv partner_inv_estimate : Inventory)
  : option Negotiation :=
  let my_surplus := _get_surplus villager villager_inv in
  let partner_deficit_estimate := _get_deficits partner partner_inv_estimate in
  match my_surplus with
  | [] => None
  | _ =>
      let offered :=
        offer_largest partner partner_inv_estimate my_surplus
          (offer_matching partner partner_inv_estimate my_surplus
                          partner_deficit_estimate) in
      match fst offered with
      | [] => None
      | _ =>
          if Qlt_bool (snd offered) 0.1 then None
          else
            let my_deficits := _get_deficits villager villager_inv in
            let requested :=
              request_deficits villager villager_inv partner_inv_estimate
                               my_deficits in
            let requested :=
              match fst requested with
              | [] => request_surplus villager villager_inv (fst offered)
                        (_get_surplus partner partner_inv_estimate) requested
              | _ => requested
              end in
            match fst requested with
            | [] => None
            | _ => Some (mkNegotiation (fst offered) (fst requested)
                                       (snd offered) (snd requested))
            end
      end
  end.

(** Personality adjusts the deal: scale the request to roughly match
    the offer value. *)
Definition ambition_factor (villager : Villager) : Q :=
  1.0 + (ambition (traits villager) - 50) / 100.0 * TRADE_PERSONALITY_MARGIN.

Definition rescale_requests (villager : Villager) (n : Negotiation) : dict Q :=
  if Qlt_bool 0 (neg_request_value n) && Qlt_bool 0 (neg_offer_value n) then
    let value_ratio :=
      (neg_offer_value n * ambition_factor villager) / neg_request_value n in
    map (fun kv => (fst kv, Qmin (snd kv * value_ratio) (snd kv)))
        (neg_requesting n)
  else neg_requesting n.

(** [TradeSystem.generate_offer] ([relationship_trust] is not read). *)
Definition generate_offer (villager partner : Villager)
           (villager_inv partner_inv_estimate : Inventory)
           (relationship_trust : Q) : option TradeOffer :=
  match negotiate villager partner villager_inv partner_inv_estimate with
  | None => None
  | Some n =>
      Some (mkOffer (neg_offering n) (rescale_requests villager n)
                    (id villager) (id partner))
  end.
End Offers.

(** *** Execution over the shared inventories *)

Definition ref := nat.
Definition Store := ref -> Inventory.

Definition store_set (st : Store) (r : ref) (inv : Inventory) : Store :=
  fun r' => if Nat.eqb r' r then inv else st r'.

Record TradeSystem := mkTradeSystem {
  daily_trades : list TradeRecord;
  total_trades : Z;
  total_items_exchanged : Q
}.

(** Verify one party has the items: every committed quantity is held
    up to the 1% tolerance. *)
Fixpoint holds_all (inv : Inventory) (committed : dict Q) : bool :=
  match committed with
  | [] => true
  | (item_type, qty) :: rest =>
      if Qlt_bool (total_of inv item_type) (qty * 0.99) then false
      else holds_all inv rest
  end.

(** One direction of the exchange: remove from [src], add what was
    removed to [dst]. *)
Definition transfer_one (src dst : ref) (st : Store) (kv : string * Q) : Store :=
  let (removed, src_inv) := remove (st src) (fst kv) (snd kv) in
  let st := store_set st src src_inv in
  match removed with
  | Some it => store_set st dst (snd (add (st dst) it))
  | None => st
  end.

Definition transfer (src dst : ref) (st : Store) (committed : dict Q) : Store :=
  fold_left (transfer_one src dst) committed st.

(** [TradeSystem.execute_trade]: the flag, the inventories and the trade
    system afterwards. *)
Definition execute_trade (sys : TradeSystem) (offer : TradeOffer) (st : Store)
           (offerer_inv target_inv : ref) (day : Z)
  : bool * Store * TradeSystem :=
  if negb (holds_all (st offerer_inv) (offering offer)) then (false, st, sys)
  else if negb (holds_all (st target_inv) (requesting offer)) then (false, st, sys)
  else
    let st := transfer offerer_inv target_inv st (offering offer) in
    let st := transfer target_inv offerer_inv st (requesting offer) in
    let items_exchanged :=
      Qsum (dict_values (offering offer)) + Qsum (dict_values (requesting offer)) in
    let record := mkRecord day (offerer_id offer) (target_id offer)
                           (offering offer) (requesting offer) in
    (true, st,
     mkTradeSystem (daily_trades sys ++ [record])
                   (total_trades sys + 1)%Z
                   (total_items_exchanged sys + items_exchanged)).

End Trade.

(* ===================================================================== *)
(** ** social/family.py *)

Module Families.
Import Agent.

(** Insertion-ordered dictionaries keyed by family id. *)
Section IDict.
Context {V : Type}.

Definition idict := list (Z * V).

Fixpoint idict_get (d : idict) (k : Z) : option V :=
  match d with
  | [] => None
  | (k', v) :: d' => if (k' =? k)%Z then Some v else idict_get d' k
  end.

Fixpoint idict_set (d : idict) (k : Z) (v : V) : idict :=
  match d with
  | [] => [(k, v)]
  | (k', v') :: d' =>
      if (k' =? k)%Z then (k', v) :: d' else (k', v') :: idict_set d' k v
  end.

Fixpoint idict_del (d : idict) (k : Z) : idict :=
  match d with
  | [] => []
  | (k', v') :: d' =>
      if (k' =? k)%Z then d' else (k', v') :: idict_del d' k
  end.
End IDict.

Arguments idict V : clear implicits.

(** A family unit -- the basic economic and social group. *)
Record Family := mkFamily {
  fam_id : Z;
  member_ids : list Z;
  head_of_household : Z;
  home_position : Z * Z;
  inventory : Inv.Inventory;
  shelter_id : option Z
}.

Definition new_family_inventory : Inv.Inventory :=
  Inv.mkInventory [] 200.0 "family".

Definition is_member (vid : Z) (ids : list Z) : bool :=
  existsb (Z.eqb vid) ids.

(** [list.remove]: drop the first occurrence. *)
Fixpoint remove_first (vid : Z) (ids : list Z) : list Z :=
  match ids with
  | [] => []
  | x :: rest => if (x =? vid)%Z then rest else x :: remove_first vid rest
  end.

Definition add_member (f : Family) (vid : Z) : Family :=
  if negb (is_member vid (member_ids f))
  then mkFamily (fam_id f) (member_ids f ++ [vid]) (head_of_household f)
                (home_position f) (inventory f) (shelter_id f)
  else f.

Definition remove_member (f : Family) (vid : Z) : Family :=
  let ids := if is_member vid (member_ids f)
             then remove_first vid (member_ids f)
             else member_ids f in
  let head := match ids with
              | first :: _ =>
                  if (head_of_household f =? vid)%Z then first
                  else head_of_household f
              | [] => head_of_household f
              end in
  mkFamily (fam_id f) ids head (home_position f) (inventory f) (shelter_id f).

(** Manages all family units. *)
Record FamilyManager := mkManager {
  families : idict Family;
  _next_id : Z
}.

Definition create_family (fm : FamilyManager) (founding_members : list Z)
           (home : Z * Z) : Family * FamilyManager :=
  let fam := mkFamily (_next_id fm) founding_members
                      (match founding_members with
                       | first :: _ => first
                       | [] => (-1)%Z
                       end)
                      home new_family_inventory None in
  (fam, mkManager (idict_set (families fm) (fam_id fam) fam) (_next_id fm + 1)%Z).

(** [FamilyManager.form_marriage]: the returned family, the manager and
    villager B afterwards.  The two family objects stay in the dictionary
    under the keys they were looked up with. *)
Definition form_marriage (fm : FamilyManager) (villager_a villager_b : Villager)
  : Family * FamilyManager * Villager :=
  let key_a := family_id villager_a in
  let key_b := family_id villager_b in
  match idict_get (families fm) key_a, idict_get (families fm) key_b with
  | Some fam_a, Some fam_b =>
      if negb (fam_id fam_a =? fam_id fam_b)%Z then
        (* Move B into A's family *)
        let fam_b' := remove_member fam_b (id villager_b) in
        let fam_a' := add_member fam_a (id villager_b) in
        let d := idict_set (idict_set (families fm) key_b fam_b') key_a fam_a' in
        (* If B's family is now empty, remove it *)
        let d := match member_ids fam_b' with
                 | [] => idict_del d (fam_id fam_b')
                 | _ => d
                 end in
        (fam_a', mkManager d (_next_id fm), set_family_id villager_b (fam_id fam_a'))
      else
        let fam_a' := add_member fam_a (id villager_b) in
        (fam_a', mkManager (idict_set (families fm) key_a fam_a') (_next_id fm),
         set_family_id villager_b (fam_id fam_a'))
  | Some fam_a, None =>
      let fam_a' := add_member fam_a (id villager_b) in
      (fam_a', mkManager (idict_set (families fm) key_a fam_a') (_next_id fm),
       set_family_id villager_b (fam_id fam_a'))
  | None, _ =>
      let (fam, fm') := create_family fm [id villager_a; id villager_b] (40, 40)%Z in
      (fam, fm', villager_b)
  end.

End Families.

(* ===================================================================== *)
(** ** simulation/metrics.py *)

Module Metrics.

(** [sorted(values)]: ascending and stable. *)
Fixpoint insert_sorted (x : Q) (l : list Q) : list Q :=
  match l with
  | [] => [x]
  | y :: l' => if Qle_bool x y then x :: l else y :: insert_sorted x l'
  end.

Definition sorted (values : list Q) : list Q :=
  fold_right insert_sorted [] values.

(** [sum((i + 1) * v for i, v in enumerate(l))] with the enumeration
    starting at [i]. *)
Fixpoint weighted_from (i : nat) (l : list Q) : Q :=
  match l with
  | [] => 0
  | v :: l' => (inject_Z (Z.of_nat i) + 1) * v + weighted_from (S i) l'
  end.

(** [MetricsCollector.gini_coefficient]; the [cumulative] accumulator of
    the source is never read and is left out. *)
Definition gini_coefficient (values : list Q) : Q :=
  if match values with [] => true | _ => false end
     || forallb (fun v => Qeq_bool v 0) values
  then 0.0
  else
    let sorted_vals := sorted values in
    let n := inject_Z (Z.of_nat (List.length sorted_vals)) in
    let total := Qsum sorted_vals in
    if Qeq_bool total 0 then 0.0
    else
      let weighted_sum := weighted_from 0 sorted_vals in
      (2 * weighted_sum) / (n * total) - (n + 1) / n.

(** The rank-weighted formula of the specification, over values already
    in ascending order: [G = 2*Sum_i (i*x_i) / (n*Sum_i x_i) - (n+1)/n]
    with ranks [i = 1..n]. *)
Definition rank_sum (xs : list Q) : Q :=
  Qsum (map (fun i => inject_Z (Z.of_nat i) * nth (i - 1) xs 0)
            (seq 1 (List.length xs))).

Definition rank_weighted_formula (xs : list Q) : Q :=
  let n := inject_Z (Z.of_nat (List.length xs)) in
  2 * rank_sum xs / (n * Qsum xs) - (n + 1) / n.

Inductive ascending : list Q -> Prop :=
| asc_nil : ascending []
| asc_one : forall x, ascending [x]
| asc_cons : forall x y l, x <= y -> ascending (y :: l) -> ascending (x :: y :: l).

End Metrics.

(* ===================================================================== *)
(** ** agents/decision.py, economy/activities.py: the feasibility gates *)

Module Decision.
Import Inv Agent.

(** The fields of an [Activity] the feasibility gates read. *)
Record Activity := mkActivity {
  name : string;
  base_hours : Q;
  required_tools : list string;
  required_season : option (list string);
  resource_type : option string
}.

Definition ACTIVITIES : dict Activity :=
  [ ("gather_berries", mkActivity "gather_berries" 3 [] None (Some "wild_plants"));
    ("hunt_small_game", mkActivity "hunt_small_game" 4 ["spear"] None (Some "game_small"));
    ("hunt_large_game", mkActivity "hunt_large_game" 8 ["spear"] None (Some "game_large"));
    ("fishing", mkActivity "fishing" 4 ["fishing"] None (Some "fish"));
    ("chop_wood", mkActivity "chop_wood" 4 ["axe"] None (Some "timber"));
    ("mine_stone", mkActivity "mine_stone" 6 ["mining"] None (Some "stone"));
    ("mine_ore", mkActivity "mine_ore" 7 ["mining"] None (Some "iron_ore"));
    ("farm_plant", mkActivity "farm_plant" 6 ["farming"] (Some ["spring"; "summer"]) (Some "farmland"));
    ("farm_tend", mkActivity "farm_tend" 4 ["farming"] (Some ["spring"; "summer"]) None);
    ("farm_harvest", mkActivity "farm_harvest" 8 ["farming"] (Some ["summer"; "autumn"]) None);
    ("cook_food", mkActivity "cook_food" 2 ["knife"] None None);
    ("preserve_food", mkActivity "preserve_food" 4 ["knife"] None None);
    ("craft_tools", mkActivity "craft_tools" 5 [] None None);
    ("build_shelter", mkActivity "build_shelter" 8 ["axe"; "construction"] None None);
    ("build_road", mkActivity "build_road" 6 ["construction"] None None);
    ("gather_herbs", mkActivity "gather_herbs" 4 [] None (Some "medicinal_herbs"));
    ("heal_villager", mkActivity "heal_villager" 3 [] None None);
    ("rest", mkActivity "rest" 0 [] None None);
    ("socialize", mkActivity "socialize" 4 [] None None);
    ("explore", mkActivity "explore" 8 [] None None) ].

Record ResourceNode := mkNode {
  node_id : Z;
  position : Z * Z;
  current_abundance : Q
}.

(** The read-only world view handed to the decision engine. *)
Record WorldState := mkWorld {
  season : string;
  get_family_inventory : Z -> option Inventory;
  find_resource : Z * Z -> string -> option ResourceNode;
  estimate_travel : Z * Z -> Z * Z -> Q
}.

(** The tool loop of [_evaluate_activity]: walk the required tool types,
    look in the personal then the family inventory, stop at the first
    tool found. *)
Fixpoint find_tool (inv family_inv : option Inventory) (required : list string)
  : option Item :=
  match required with
  | [] => None
  | ttype :: rest =>
      let tool := match inv with
                  | Some i => get_best_tool i ttype
                  | None => None
                  end in
      let tool := match tool, family_inv with
                  | None, Some f => get_best_tool f ttype
                  | _, _ => tool
                  end in
      match tool with
      | Some t => Some t
      | None => find_tool inv family_inv rest
      end
  end.

(** What the gates hand to the scoring part. *)
Record Feasible := mkFeasible {
  feas_tool_quality : Q;
  feas_target_resource_id : option Z;
  feas_travel_hours : Q
}.

(** [DecisionEngine._evaluate_activity] up to the start of scoring:
    [None] is the source's [return None] (infeasible).  Past these gates
    the source always returns a (score, plan) pair. *)
Definition evaluate_gates (villager : Villager) (activity : Activity)
           (world_state : WorldState) (remaining_hours : Q) : option Feasible :=
  (* Check time feasibility *)
  if Qlt_bool remaining_hours (base_hours activity)
     && Qlt_bool 0 (base_hours activity) then None
  else
    (* Check season *)
    if match required_season activity with
       | Some seasons => negb (existsb (String.eqb (season world_state)) seasons)
       | None => false
       end then None
    else
      (* Check tools -- search both personal and family inventory *)
      let inv := personal_inventory villager in
      let family_inv := get_family_inventory world_state (family_id villager) in
      let tool_check :=
        match required_tools activity with
        | [] => Some 1.0
        | _ => match find_tool inv family_inv (required_tools activity) with
               | Some t => Some (tool_quality t)
               | None => None
               end
        end in
      match tool_check with
      | None => None
      | Some tq =>
          (* Find resource node *)
          match resource_type activity with
          | None => Some (mkFeasible tq None 0.0)
          | Some rt =>
              match find_resource world_state (current_position villager) rt with
              | None => None
              | Some node =>
                  if Qle_bool (current_abundance node) 0 then None
                  else
                    let travel_hours :=
                      estimate_travel world_state (current_position villager)
                                      (position node) in
                    if Qlt_bool remaining_hours
                                (travel_hours * 2 + base_hours activity)
                    then None
                    else Some (mkFeasible tq (Some (node_id node)) travel_hours)
              end
          end
      end.

(** A functional tool of the category is held in either inventory. *)
Definition tool_available (inv family_inv : option Inventory) (ttype : string) : bool :=
  match inv with Some i => has_tool_type i ttype | None => false end
  || match family_inv with Some f => has_tool_type f ttype | None => false end.

End Decision.

(* ===================================================================== *)
(** ** The same code over IEEE binary64 *)

(** Python's [float] is IEEE binary64 and so is Rocq's primitive [float]:
    [+], [-], [*], [/] round to nearest, ties to even, exactly as the
    interpreter does.  The functions below are the source functions again,
    with that arithmetic.  A decimal literal of the source is the nearest
    binary64 number; the catalog and the configuration constants are
    converted from their decimal form by one correctly rounded division
    ([of_Q]), which gives the same number.  The builtin [sum] adds from 0,
    left to right ([fsum]). *)
Module Binary64.
Import PrimFloat.
Local Open Scope float_scope.
#[local] Set Warnings "-inexact-float".

Definition of_Z (z : Z) : float :=
  match z with
  | Z0 => 0
  | Zpos _ => of_uint63 (Uint63.of_Z z)
  | Zneg p => - of_uint63 (Uint63.of_Z (Zpos p))
  end.

(** The binary64 number a decimal literal denotes. *)
Definition of_Q (q : Q) : float := of_Z (Qnum q) / of_Z (Zpos (Qden q)).

(** [sum(...)] *)
Definition fsum (l : list float) : float := fold_left add l 0.

(** [max(a, b)] and [min(a, b)] as Python evaluates them: the first
    argument unless the second is strictly larger (smaller). *)
Definition fmax (a b : float) : float := if a <? b then b else a.
Definition fmin (a b : float) : float := if b <? a then b else a.

(** A stack of items in an inventory. *)
Record Item := mkItem {
  item_type : string;
  quantity : float;
  quality : float;
  days_since_created : Z;
  current_durability : float;
  max_durability : float
}.

Definition set_quantity (it : Item) (q : float) : Item :=
  mkItem (item_type it) q (quality it) (days_since_created it)
         (current_durability it) (max_durability it).

Definition weight_per_unit (it : Item) : float :=
  of_Q (Inv.get_or (Inv.cat_weight (Inv.catalog (item_type it))) 1.0%Q).

Definition item_total_weight (it : Item) : float :=
  quantity it * weight_per_unit it.

Definition is_tool (it : Item) : bool :=
  Inv.has_key (Inv.cat_tool_type (Inv.catalog (item_type it))).

Definition create_item (t : string) (q ql : float) : Item :=
  let max_dur :=
    of_Q (Inv.get_or (Inv.cat_max_durability (Inv.catalog t)) 0.0%Q) in
  mkItem t q ql 0%Z max_dur max_dur.

(** Container for items with weight capacity. *)
Record Inventory := mkInventory {
  items : dict (list Item);
  capacity : float;
  owner_type : string
}.

Definition new_inventory (cap : float) : Inventory :=
  mkInventory [] cap "personal".

Definition total_of (inv : Inventory) (t : string) : float :=
  match dict_get (items inv) t with
  | None => 0
  | Some stacks => fsum (map quantity stacks)
  end.

Definition total_weight (inv : Inventory) : float :=
  fsum (map item_total_weight (flat_map snd (items inv))).

Fixpoint merge_into (stacks : list Item) (item : Item) : option (list Item) :=
  match stacks with
  | [] => None
  | existing :: rest =>
      if (abs (quality existing - quality item) <? 0.05) && negb (is_tool item)
      then Some (set_quantity existing (quantity existing + quantity item) :: rest)
      else match merge_into rest item with
           | Some rest' => Some (existing :: rest')
           | None => None
           end
  end.

Definition store (inv : Inventory) (item : Item) : Inventory :=
  let stacks := Inv.get_or (dict_get (items inv) (item_type item)) [] in
  let stacks' := match merge_into stacks item with
                 | Some merged => merged
                 | None => (stacks ++ [item])%list
                 end in
  mkInventory (dict_set (items inv) (item_type item) stacks')
              (capacity inv) (owner_type inv).

(** [Inventory.add] *)
Definition add (inv : Inventory) (item : Item) : bool * Inventory :=
  if capacity inv <? total_weight inv + item_total_weight item then
    let available := capacity inv - total_weight inv in
    if available <=? 0 then (false, inv)
    else
      let addable := available / weight_per_unit item in
      if addable <? 0.01 then (false, inv)
      else (true, store inv (set_quantity item addable))
  else (true, store inv item).

(** [sorted(values)] *)
Fixpoint insert_sorted (x : float) (l : list float) : list float :=
  match l with
  | [] => [x]
  | y :: l' => if y <? x then y :: insert_sorted x l' else x :: l
  end.

Definition sorted (values : list float) : list float :=
  fold_right insert_sorted [] values.

(** [(i + 1) * v for i, v in enumerate(l)], the enumeration starting at
    [i]. *)
Fixpoint weighted_from (i : Z) (l : list float) : list float :=
  match l with
  | [] => []
  | v :: l' => (of_Z (i + 1) * v) :: weighted_from (i + 1) l'
  end.

(** [MetricsCollector.gini_coefficient] *)
Definition gini_coefficient (values : list float) : float :=
  if match values with [] => true | _ => false end
     || forallb (fun v => v =? 0) values
  then 0
  else
    let sorted_vals := sorted values in
    let n := Z.of_nat (List.length sorted_vals) in
    let total := fsum sorted_vals in
    if total =? 0 then 0
    else
      let weighted_sum := fsum (weighted_from 0 sorted_vals) in
      (of_Z 2 * weighted_sum) / (of_Z n * total) - of_Z (n + 1) / of_Z n.

(** What [subjective_value] reads of the villager and of the two
    inventories: three need satisfactions, whether a tool of the item's
    category is at hand, the ambition trait, the quantity already owned
    and the skill level for the item. *)
Record Appraiser := mkAppraiser {
  hunger_sat : float;
  warmth_sat : float;
  health_sat : float;
  has_tool : bool;
  ambition : float;
  owned : float;
  skill : float
}.

(** [subjective_value] *)
Definition subjective_value (a : Appraiser) (t : string) (qty : float) : float :=
  let cat := Inv.catalog t in
  let base_weight := of_Q (Inv.get_or (Inv.cat_weight cat) 1.0%Q) in
  let base_value := base_weight * 0.5 in
  let food_val := of_Q (Inv.get_or (Inv.cat_food_value cat) 0.0%Q) in
  let base_value :=
    if 0 <? food_val then
      let hunger_mult :=
        if hunger_sat a <? 0.5
        then 1.0 + (0.5 - hunger_sat a)
                   * (of_Q Config.TRADE_VALUE_FOOD_HUNGRY_MULTIPLIER - 1.0) * 2
        else 1.0 in
      let base_value := food_val * hunger_mult * 2.0 in
      let perish_days := Inv.get_or (Inv.cat_perish_days cat) 999%Z in
      if (perish_days <? 999)%Z then
        let shelf_bonus := fmin 1.0 (of_Z perish_days / 60.0) in
        base_value * (0.7 + 0.3 * shelf_bonus)
      else base_value
    else base_value in
  let base_value :=
    if Trade.truthy (Inv.cat_tool_type cat) then
      let base_value := if has_tool a then base_value * 0.8
                        else base_value * 3.0 in
      base_value * (0.8 + 0.4 * ambition a / 100.0)
    else base_value in
  let warmth_val := of_Q (Inv.get_or (Inv.cat_warmth_value cat) 0.0%Q) in
  let base_value :=
    if (0 <? warmth_val) && (warmth_sat a <? 0.5) then base_value * 2.0
    else base_value in
  let heal_val := of_Q (Inv.get_or (Inv.cat_heal_value cat) 0.0%Q) in
  let base_value :=
    if (0 <? heal_val) && (health_sat a <? 0.7) then base_value * 2.5
    else base_value in
  let base_value :=
    if 0 <? owned a then
      let diminish :=
        1.0 / (1.0 + owned a * of_Q Config.TRADE_DIMINISHING_SURPLUS_FACTOR) in
      base_value * diminish
    else base_value in
  let base_value :=
    match dict_get Trade.skill_map t with
    | Some _ =>
        if 30 <? skill a
        then base_value * fmax 0.5 (1.0 - skill a / 200.0)
        else base_value
    | None => base_value
    end in
  fmax 0.01 (base_value * qty).

End Binary64.

(* ===================================================================== *)
(** * Properties *)

(** ** Comparisons and sums *)

Lemma Qlt_bool_true (x y : Q) : Qlt_bool x y = true <-> x < y.
Proof.
  unfold Qlt_bool. rewrite negb_true_iff.
  destruct (Qle_bool y x) eqn:E.
  - apply Qle_bool_iff in E. split; [discriminate | intro H; exfalso; lra].
  - split; [intros _ | reflexivity].
    apply Qnot_le_lt. intro H. apply Qle_bool_iff in H. congruence.
Qed.

Lemma Qlt_bool_false (x y : Q) : Qlt_bool x y = false <-> y <= x.
Proof.
  unfold Qlt_bool. rewrite negb_false_iff. apply Qle_bool_iff.
Qed.

Lemma Qle_bool_false (x y : Q) : Qle_bool x y = false <-> y < x.
Proof.
  destruct (Qle_bool x y) eqn:E.
  - apply Qle_bool_iff in E. split; [discriminate | intro H; exfalso; lra].
  - split; [intros _ | reflexivity].
    apply Qnot_le_lt. intro H. apply Qle_bool_iff in H. congruence.
Qed.

Ltac qbool :=
  repeat match goal with
         | H : Qlt_bool _ _ = true |- _ => apply Qlt_bool_true in H
         | H : Qlt_bool _ _ = false |- _ => apply Qlt_bool_false in H
         | H : Qle_bool _ _ = true |- _ => apply Qle_bool_iff in H
         | H : Qle_bool _ _ = false |- _ => apply Qle_bool_false in H
         end.

Lemma Qsum_cons (x : Q) (l : list Q) : Qsum (x :: l) = x + Qsum l.
Proof. reflexivity. Qed.

Lemma Qsum_app (l1 l2 : list Q) : Qsum (l1 ++ l2) == Qsum l1 + Qsum l2.
Proof.
  induction l1 as [|x l1 IH]; simpl.
  - ring.
  - rewrite IH. ring.
Qed.

Lemma Qmax_lower (a x : Q) : a <= Qmax a x.
Proof. apply Q.le_max_l. Qed.

Lemma Qmin_upper (a x : Q) : Qmin a x <= a.
Proof. apply Q.le_min_l. Qed.

(* ===================================================================== *)
(** ** Needs: the satisfaction range *)

Module NeedFacts.
Import Needs.

(** A call whose effect stays on the documented side: decay takes away a
    non-negative amount, satisfy adds a non-negative amount. *)
Definition well_signed (n : Need) (c : call) : Prop :=
  match c with
  | Decay m => 0 <= decay_rate n * m
  | Satisfy a => 0 <= a
  end.

Lemma decay_lower (n : Need) (m : Q) : 0 <= satisfaction (decay n m).
Proof.
  unfold decay; simpl.
  apply Qle_trans with 0.0; [vm_compute; discriminate | apply Qmax_lower].
Qed.

Lemma satisfy_upper (n : Need) (a : Q) : satisfaction (satisfy n a) <= 1.
Proof.
  unfold satisfy; simpl.
  apply Qle_trans with 1.0; [apply Qmin_upper | vm_compute; discriminate].
Qed.

Lemma apply_call_keeps_rate (n : Need) (c : call) :
  decay_rate (apply_call n c) = decay_rate n.
Proof. destruct c; reflexivity. Qed.

(** With calls on the documented side the range is kept: this is the
    part of the invariant the two clamps do enforce. *)
Lemma well_signed_call_keeps_range (n : Need) (c : call) :
  in_unit_range n -> well_signed n c -> in_unit_range (apply_call n c).
Proof.
  intros [Hlo Hhi] Hc. destruct c as [m|a]; simpl in *.
  - split; [apply decay_lower|].
    unfold decay; simpl.
    apply Q.max_lub; lra.
  - split; [|apply satisfy_upper].
    unfold satisfy; simpl.
    apply Q.min_glb; lra.
Qed.

Lemma well_signed_trace_keeps_range (cs : list call) :
  forall n, in_unit_range n ->
            (forall c, In c cs -> 0 <= decay_rate n /\
                                  match c with
                                  | Decay m => 0 <= m
                                  | Satisfy a => 0 <= a
                                  end) ->
            Forall in_unit_range (trace n cs).
Proof.
  induction cs as [|c cs IH]; intros n Hn Hcs; simpl.
  - constructor.
  - assert (Hstep : in_unit_range (apply_call n c)).
    { apply well_signed_call_keeps_range; [exact Hn|].
      destruct (Hcs c (or_introl eq_refl)) as [Hr Hc].
      destruct c; simpl; [nra | exact Hc]. }
    constructor; [exact Hstep|].
    apply IH; [exact Hstep|].
    intros c' Hin. rewrite apply_call_keeps_rate.
    apply Hcs. right. exact Hin.
Qed.

(** The modifiers [daily_decay] computes are non-negative whenever the
    ambient warmth modifier is (the climate hands out 0.3 to 2.5). *)
Lemma decay_modifier_nonneg (nm : string) (warmth_modifier shelter_quality : Q)
      (had_social was_productive : bool) (m : Q) :
  0 <= warmth_modifier ->
  decay_modifier nm warmth_modifier shelter_quality had_social was_productive
  = Some m ->
  0 <= m.
Proof.
  intros Hw. unfold decay_modifier.
  destruct (String.eqb nm "warmth").
  - intros H. inversion H; subst.
    apply Qmult_le_0_compat; [exact Hw|].
    apply Qle_trans with 0.3; [vm_compute; discriminate | apply Q.le_max_l].
  - destruct (String.eqb nm "shelter").
    + intros H. inversion H; subst.
      apply Qle_trans with 0.1; [vm_compute; discriminate | apply Q.le_max_l].
    + destruct (String.eqb nm "social").
      * intros H. inversion H; subst.
        destruct had_social; vm_compute; discriminate.
      * destruct (String.eqb nm "purpose").
        -- intros H. inversion H; subst.
           destruct was_productive; vm_compute; discriminate.
        -- destruct (String.eqb nm "health"); [discriminate|].
           intros H. inversion H; subst. vm_compute. discriminate.
Qed.

(** The nightly decay keeps every need of a need system in range. *)
Lemma daily_decay_keeps_range (ns : NeedSystem)
      (warmth_modifier shelter_quality : Q) (had_social was_productive : bool) :
  0 <= warmth_modifier ->
  Forall (fun kv => in_unit_range (snd kv) /\ 0 <= decay_rate (snd kv)) (needs ns) ->
  Forall (fun kv => in_unit_range (snd kv))
         (needs (daily_decay ns warmth_modifier shelter_quality
                             had_social was_productive)).
Proof.
  intros Hw Hall. unfold daily_decay. cbn [needs].
  induction Hall as [|[nm n] rest [Hrange Hrate] _ IH]; cbn [map fst snd].
  - constructor.
  - constructor; [|exact IH].
    destruct (decay_modifier nm warmth_modifier shelter_quality
                             had_social was_productive) as [m|] eqn:E;
      cbn [snd]; [|exact Hrange].
    apply (well_signed_call_keeps_range n (Decay m) Hrange).
    cbn [well_signed]. cbn [snd] in Hrate.
    apply Qmult_le_0_compat; [exact Hrate|].
    exact (decay_modifier_nonneg _ _ _ _ _ _ Hw E).
Qed.

(** The health need of a fresh villager. *)
Definition health_need : Need :=
  mkNeed "health" 1.0 0.0 (Config.need_weight "health") "exponential".

(** The call the disease event makes on every affected villager:
    [v.needs.satisfy("health", -health_damage / 100.0)], here with a
    health damage of 25 (the event draws it from 10 to 30). *)
Definition disease_call : call := Satisfy (- (25 / 100.0)).

Definition disease_strikes (ns : NeedSystem) : NeedSystem :=
  system_satisfy ns "health" (- (25 / 100.0)).

(** C3 (the code departs from it).  Claim: after any sequence of decay
    and satisfy calls the satisfaction stays within [0, 1].  [satisfy]
    only clamps from above, and the disease event passes it a negative
    amount: five outbreaks take the health need of a fresh villager from
    1.0 to -0.25, below the documented range. *)
Theorem satisfy_negative_amount_leaves_range :
  dict_get (needs new_need_system) "health" = Some health_need
  /\ in_unit_range health_need
  /\ satisfaction
       (fold_left apply_call (repeat disease_call 5) health_need) == - (1 # 4)
  /\ ~ Forall in_unit_range (trace health_need (repeat disease_call 5))
  /\ satisfaction_of (Nat.iter 5 disease_strikes new_need_system) "health"
     == - (1 # 4).
Proof.
  split; [reflexivity|]. split; [|split; [|split]].
  - split; vm_compute; discriminate.
  - vm_compute. reflexivity.
  - intro H.
    cbn [repeat trace] in H.
    do 4 (apply Forall_inv_tail in H).
    apply Forall_inv in H. destruct H as [Hlo _].
    vm_compute in Hlo. apply Hlo. reflexivity.
  - vm_compute. reflexivity.
Qed.

End NeedFacts.

(* ===================================================================== *)
(** ** Inventories: capacity *)

Module InvFacts.
Import Inv.

(** Representation invariant: the stacks filed under a key are of that
    item type.  [add] is the only way stacks enter an inventory and it
    files an item under its own type. *)
Definition well_formed (inv : Inventory) : Prop :=
  Forall (fun kv => Forall (fun it => item_type it = fst kv) (snd kv))
         (items inv).

Lemma catalog_weight_positive (t : string) :
  0 < get_or (cat_weight (catalog t)) 1.0.
Proof.
  unfold catalog, ITEM_CATALOG. cbn [dict_get].
  repeat match goal with
         | |- context [String.eqb ?a t] => destruct (String.eqb a t)
         end; vm_compute; reflexivity.
Qed.

Lemma weight_per_unit_positive (it : Item) : 0 < weight_per_unit it.
Proof. apply catalog_weight_positive. Qed.

Lemma weight_per_unit_same_type (a b : Item) :
  item_type a = item_type b -> weight_per_unit a = weight_per_unit b.
Proof. unfold weight_per_unit. intros ->. reflexivity. Qed.

Lemma stacks_weight_snoc (stacks : list Item) (it : Item) :
  stacks_weight (stacks ++ [it]) == stacks_weight stacks + item_total_weight it.
Proof.
  unfold stacks_weight. rewrite map_app, Qsum_app. simpl. ring.
Qed.

Lemma weight_per_unit_set_quantity (it : Item) (q : Q) :
  weight_per_unit (set_quantity it q) = weight_per_unit it.
Proof. reflexivity. Qed.

Lemma stacks_weight_cons (it : Item) (stacks : list Item) :
  stacks_weight (it :: stacks) = item_total_weight it + stacks_weight stacks.
Proof. reflexivity. Qed.

Lemma merge_into_weight (item : Item) (stacks merged : list Item) :
  Forall (fun it => item_type it = item_type item) stacks ->
  merge_into stacks item = Some merged ->
  stacks_weight merged == stacks_weight stacks + item_total_weight item.
Proof.
  revert merged. induction stacks as [|e rest IH]; intros merged Hty Hm.
  - discriminate.
  - cbn [merge_into] in Hm. inversion Hty as [|? ? He Hrest]; subst.
    destruct (Qlt_bool (Qabs (quality e - quality item)) 0.05
              && negb (is_tool item)).
    + inversion Hm; subst merged. rewrite !stacks_weight_cons.
      unfold item_total_weight.
      rewrite weight_per_unit_set_quantity.
      rewrite (weight_per_unit_same_type e item He).
      cbn [set_quantity quantity]. ring.
    + destruct (merge_into rest item) as [rest'|] eqn:E; [|discriminate].
      inversion Hm; subst merged.
      specialize (IH rest' Hrest eq_refl).
      rewrite !stacks_weight_cons. rewrite IH. ring.
Qed.

Definition dict_weight (d : dict (list Item)) : Q :=
  Qsum (map (fun kv => stacks_weight (snd kv)) d).

Lemma dict_weight_set (d : dict (list Item)) (k : string) (stacks' : list Item) :
  dict_weight (dict_set d k stacks')
  == dict_weight d - stacks_weight (get_or (dict_get d k) []) + stacks_weight stacks'.
Proof.
  unfold dict_weight.
  induction d as [|[k' v] d IH]; cbn [dict_set dict_get map get_or snd].
  - rewrite Qsum_cons. change (stacks_weight []) with 0.
    change (Qsum []) with 0. ring.
  - destruct (String.eqb k' k); cbn [dict_set dict_get map get_or snd];
      rewrite !Qsum_cons.
    + ring.
    + rewrite IH. ring.
Qed.

Lemma well_formed_get (d : dict (list Item)) (k : string) (stacks : list Item) :
  Forall (fun kv => Forall (fun it => item_type it = fst kv) (snd kv)) d ->
  dict_get d k = Some stacks ->
  Forall (fun it => item_type it = k) stacks.
Proof.
  induction d as [|[k' v] d IH]; intros Hwf Hget; simpl in *.
  - discriminate.
  - inversion Hwf as [|? ? Hhd Htl]; subst.
    destruct (String.eqb_spec k' k) as [->|Hne].
    + inversion Hget; subst. exact Hhd.
    + apply IH; assumption.
Qed.

Lemma well_formed_set (d : dict (list Item)) (k : string) (stacks : list Item) :
  Forall (fun kv => Forall (fun it => item_type it = fst kv) (snd kv)) d ->
  Forall (fun it => item_type it = k) stacks ->
  Forall (fun kv => Forall (fun it => item_type it = fst kv) (snd kv))
         (dict_set d k stacks).
Proof.
  induction d as [|[k' v] d IH]; intros Hwf Hs; simpl.
  - constructor; [exact Hs | constructor].
  - inversion Hwf as [|? ? Hhd Htl]; subst.
    destruct (String.eqb_spec k' k) as [->|Hne].
    + constructor; [exact Hs | exact Htl].
    + constructor; [exact Hhd | apply IH; assumption].
Qed.

(** Filing an item adds exactly its weight. *)
Lemma store_weight (inv : Inventory) (item : Item) :
  well_formed inv ->
  total_weight (store inv item) == total_weight inv + item_total_weight item.
Proof.
  intros Hwf. unfold store, total_weight. simpl.
  fold (dict_weight (items inv)).
  match goal with
  | |- Qsum (map _ (dict_set ?d ?k ?s)) == _ =>
      change (dict_weight (dict_set d k s)
              == dict_weight d + item_total_weight item)
  end.
  rewrite dict_weight_set.
  assert (Hty : Forall (fun it => item_type it = item_type item)
                       (get_or (dict_get (items inv) (item_type item)) [])).
  { destruct (dict_get (items inv) (item_type item)) as [stacks|] eqn:E; simpl.
    - eapply well_formed_get; eassumption.
    - constructor. }
  destruct (merge_into _ item) as [merged|] eqn:E.
  - rewrite (merge_into_weight item _ merged Hty E). ring.
  - rewrite stacks_weight_snoc. ring.
Qed.

Lemma merge_into_types (item : Item) (stacks merged : list Item) :
  Forall (fun it => item_type it = item_type item) stacks ->
  merge_into stacks item = Some merged ->
  Forall (fun it => item_type it = item_type item) merged.
Proof.
  revert merged. induction stacks as [|e rest IH]; intros merged Hty Hm.
  - discriminate.
  - cbn [merge_into] in Hm. inversion Hty as [|? ? He Hrest]; subst.
    destruct (Qlt_bool (Qabs (quality e - quality item)) 0.05
              && negb (is_tool item)).
    + inversion Hm; subst. constructor; [exact He | exact Hrest].
    + destruct (merge_into rest item) as [rest'|] eqn:E; [|discriminate].
      inversion Hm; subst. constructor; [exact He | apply IH; auto].
Qed.

Lemma store_well_formed (inv : Inventory) (item : Item) :
  well_formed inv -> well_formed (store inv item).
Proof.
  intros Hwf. unfold well_formed, store. simpl.
  apply well_formed_set; [exact Hwf|].
  assert (Hty : Forall (fun it => item_type it = item_type item)
                       (get_or (dict_get (items inv) (item_type item)) [])).
  { destruct (dict_get (items inv) (item_type item)) as [stacks|] eqn:E; simpl.
    - eapply well_formed_get; eassumption.
    - constructor. }
  destruct (merge_into _ item) as [merged|] eqn:E.
  - eapply merge_into_types; eassumption.
  - apply Forall_app. split; [exact Hty | constructor; [reflexivity | constructor]].
Qed.

(** [add] keeps the representation invariant. *)
Lemma add_well_formed (inv : Inventory) (item : Item) :
  well_formed inv -> well_formed (snd (add inv item)).
Proof.
  intros Hwf. unfold add.
  destruct (Qlt_bool _ _); [|apply store_well_formed; exact Hwf].
  destruct (Qle_bool _ _); [exact Hwf|].
  destruct (Qlt_bool _ _); [exact Hwf|].
  apply (store_well_formed inv (set_quantity item _)). exact Hwf.
Qed.

Lemma new_inventory_well_formed (cap : Q) : well_formed (new_inventory cap).
Proof. constructor. Qed.


(** Over exact rationals the clipped quantity fills the remaining
    capacity exactly, so that an inventory within its capacity stays
    within it, and with it every inventory filled through [add] from an
    empty one.  This is what the clipping aims at; in binary64 it holds
    only up to rounding. *)
Lemma add_keeps_within_capacity (inv : Inventory) (item : Item) :
  well_formed inv ->
  total_weight inv <= capacity inv ->
  total_weight (snd (add inv item)) <= capacity (snd (add inv item)).
Proof.
  intros Hwf Hcap. unfold add.
  pose proof (weight_per_unit_positive item) as Hw.
  destruct (Qlt_bool (capacity inv) (total_weight inv + item_total_weight item))
    eqn:Hover; qbool.
  - destruct (Qle_bool (capacity inv - total_weight inv) 0); [exact Hcap|].
    destruct (Qlt_bool _ 0.01); [exact Hcap|].
    cbn [snd]. rewrite store_weight by exact Hwf.
    unfold item_total_weight. rewrite weight_per_unit_set_quantity.
    cbn [set_quantity quantity].
    apply Qle_lteq. right.
    change (capacity (store inv _)) with (capacity inv). field. lra.
  - cbn [snd]. rewrite store_weight by exact Hwf. exact Hover.
Qed.

Lemma filled_inventory_invariants (cap : Q) (its : list Item) :
  0 <= cap ->
  let inv := fold_left (fun inv it => snd (add inv it)) its (new_inventory cap) in
  well_formed inv /\ total_weight inv <= capacity inv.
Proof.
  intros Hcap. cbv zeta.
  assert (Hstart : well_formed (new_inventory cap)
                   /\ total_weight (new_inventory cap) <= capacity (new_inventory cap)).
  { split; [apply new_inventory_well_formed | exact Hcap]. }
  revert Hstart. generalize (new_inventory cap).
  induction its as [|it rest IH]; intros inv [Hwf Hin]; cbn [fold_left].
  - split; assumption.
  - apply IH. split.
    + apply add_well_formed. exact Hwf.
    + apply add_keeps_within_capacity; assumption.
Qed.

(** A personal inventory of 30 kg holding one unit of stone (15 kg),
    offered two units of timber (20 kg): one and a half fit. *)
Definition stone_carrier : Inventory :=
  snd (add (new_inventory 30.0) (create_item "stone" 1 0.5)).

End InvFacts.

(* ===================================================================== *)
(** ** Inventories: removal *)

Module RemoveFacts.
Import Inv.

Lemma quantity_set_quantity (it : Item) (q : Q) : quantity (set_quantity it q) = q.
Proof. reflexivity. Qed.

Lemma stacks_quantity_cons (it : Item) (stacks : list Item) :
  stacks_quantity (it :: stacks) = quantity it + stacks_quantity stacks.
Proof. reflexivity. Qed.

Lemma stacks_quantity_nonneg (stacks : list Item) :
  Forall (fun s => 0 <= quantity s) stacks -> 0 <= stacks_quantity stacks.
Proof.
  induction 1 as [|s rest Hs _ IH].
  - apply Qle_refl.
  - rewrite stacks_quantity_cons. lra.
Qed.

(** Once the requested quantity is reached the loop stops at its test. *)
Lemma remove_loop_done (fuel : nat) (qty removed avg : Q) (stacks : list Item) :
  qty <= removed ->
  remove_loop (S fuel) qty removed avg stacks = Some (removed, avg, stacks).
Proof.
  intros Hdone. cbn [remove_loop]. destruct stacks as [|s rest]; [reflexivity|].
  destruct (Qlt_bool removed qty) eqn:E; [|reflexivity].
  qbool. exfalso. lra.
Qed.

(** The loop of [remove] always ends within the fuel [remove] gives it:
    an iteration either drops the front stack or reaches the requested
    quantity. *)
Lemma remove_loop_terminates (stacks : list Item) :
  forall (fuel : nat) (qty removed avg : Q),
    (List.length stacks + 2 <= fuel)%nat ->
    exists res, remove_loop fuel qty removed avg stacks = Some res.
Proof.
  induction stacks as [|s rest IH]; intros fuel qty removed avg Hfuel.
  - destruct fuel as [|fuel]; [simpl in Hfuel; lia|].
    eexists. reflexivity.
  - destruct fuel as [|fuel]; [simpl in Hfuel; lia|].
    cbn [remove_loop]. cbn [List.length] in Hfuel.
    destruct (Qlt_bool removed qty) eqn:Elt; [|eexists; reflexivity].
    set (take := Qmin (qty - removed) (quantity s)).
    rewrite quantity_set_quantity.
    destruct (Qle_bool (quantity s - take) 0.001) eqn:Epop.
    + apply IH. lia.
    + destruct fuel as [|fuel]; [lia|].
      rewrite remove_loop_done; [eexists; reflexivity|].
      qbool.
      destruct (Q.min_spec (qty - removed) (quantity s)) as [[_ Hm]|[_ Hm]];
        fold take in Hm; lra.
Qed.

(** [remove] never runs out of fuel. *)
Lemma remove_total (inv : Inventory) (t : string) (qty : Q) (stacks : list Item) :
  dict_get (items inv) t = Some stacks ->
  exists res, remove_loop (remove_fuel stacks) qty 0.0 0.0 stacks = Some res.
Proof.
  intros _. apply remove_loop_terminates. unfold remove_fuel. lia.
Qed.

(** When the stacks together hold less than what is asked for, the loop
    takes every stack whole. *)
Lemma remove_loop_takes_all (stacks : list Item) :
  forall (fuel : nat) (qty removed avg : Q),
    (List.length stacks + 1 <= fuel)%nat ->
    Forall (fun s => 0 <= quantity s) stacks ->
    removed + stacks_quantity stacks < qty ->
    exists removed' avg',
      remove_loop fuel qty removed avg stacks = Some (removed', avg', [])
      /\ removed' == removed + stacks_quantity stacks.
Proof.
  induction stacks as [|s rest IH]; intros fuel qty removed avg Hfuel Hpos Hshort.
  - destruct fuel as [|fuel]; [simpl in Hfuel; lia|].
    exists removed, avg. split; [reflexivity|].
    change (stacks_quantity []) with 0. ring.
  - destruct fuel as [|fuel]; [simpl in Hfuel; lia|].
    cbn [List.length] in Hfuel.
    inversion Hpos as [|? ? Hs Hrest]; subst.
    pose proof (stacks_quantity_nonneg rest Hrest) as Hsum.
    rewrite stacks_quantity_cons in Hshort.
    cbn [remove_loop].
    assert (Elt : Qlt_bool removed qty = true) by (apply Qlt_bool_true; lra).
    rewrite Elt.
    set (take := Qmin (qty - removed) (quantity s)).
    assert (Htake : take == quantity s).
    { destruct (Q.min_spec (qty - removed) (quantity s)) as [[Hlt _]|[_ Hm]];
        [exfalso; lra | exact Hm]. }
    rewrite quantity_set_quantity.
    assert (Epop : Qle_bool (quantity s - take) 0.001 = true)
      by (apply Qle_bool_iff; lra).
    rewrite Epop.
    destruct (IH fuel qty (removed + take)
                 (if Qlt_bool 0 (removed + take)
                  then (avg * removed + quality s * take) / (removed + take)
                  else 0)) as (r' & a' & Hrun & Hr').
    + lia.
    + exact Hrest.
    + lra.
    + exists r', a'. split; [exact Hrun|].
      rewrite stacks_quantity_cons. lra.
Qed.

(** Asking for more than the inventory holds hands over all it holds. *)
Lemma remove_short_supply (inv : Inventory) (t : string) (qty : Q)
      (stacks : list Item) :
  dict_get (items inv) t = Some stacks ->
  Forall (fun s => 0 <= quantity s) stacks ->
  0 < stacks_quantity stacks ->
  stacks_quantity stacks < qty ->
  exists moved inv',
    remove inv t qty = (Some moved, inv')
    /\ quantity moved == stacks_quantity stacks
    /\ item_type moved = t.
Proof.
  intros Hget Hpos Hsome Hshort. unfold remove. rewrite Hget.
  destruct (remove_loop_takes_all stacks (remove_fuel stacks) qty 0.0 0.0)
    as (r & a & Hrun & Hr).
  - unfold remove_fuel. lia.
  - exact Hpos.
  - lra.
  - rewrite Hrun.
    assert (E : Qle_bool r 0 = false) by (apply Qle_bool_false; lra).
    rewrite E.
    eexists; eexists. split; [reflexivity|]. split.
    + cbn [plain_item quantity]. lra.
    + reflexivity.
Qed.

End RemoveFacts.

(* ===================================================================== *)
(** ** Barter: execution *)

Module ExecutionFacts.
Import Inv Trade.

(** Verification fails exactly when some committed item is held below
    99% of its committed quantity. *)
Lemma holds_all_false (inv : Inventory) (committed : dict Q) :
  holds_all inv committed = false <->
  exists t q, In (t, q) committed /\ total_of inv t < q * 0.99.
Proof.
  induction committed as [|[t q] rest IH]; cbn [holds_all].
  - split; [discriminate | intros (t & q & [] & _)].
  - destruct (Qlt_bool (total_of inv t) (q * 0.99)) eqn:E.
    + split; [intros _ | reflexivity].
      exists t, q. split; [left; reflexivity | apply Qlt_bool_true; exact E].
    + rewrite IH. split.
      * intros (t' & q' & Hin & Hlt). exists t', q'. split; [right|]; assumption.
      * intros (t' & q' & [Heq|Hin] & Hlt).
        -- inversion Heq; subst. qbool. exfalso. lra.
        -- exists t', q'. split; assumption.
Qed.

(** C2.  When [execute_trade] returns False, which it only does because
    one side holds less than a committed quantity (up to the tolerance),
    the inventories and the trade system are exactly as before the call. *)
Theorem execute_trade_failure_changes_nothing
        (sys : TradeSystem) (offer : TradeOffer) (st : Store)
        (offerer_inv target_inv : ref) (day : Z) :
  fst (fst (execute_trade sys offer st offerer_inv target_inv day)) = false ->
  ((exists t q, In (t, q) (offering offer)
                /\ total_of (st offerer_inv) t < q * 0.99)
   \/ (exists t q, In (t, q) (requesting offer)
                   /\ total_of (st target_inv) t < q * 0.99))
  /\ execute_trade sys offer st offerer_inv target_inv day = (false, st, sys).
Proof.
  unfold execute_trade.
  destruct (holds_all (st offerer_inv) (offering offer)) eqn:Hoff; cbn [negb].
  - destruct (holds_all (st target_inv) (requesting offer)) eqn:Hreq; cbn [negb].
    + cbn [fst]. discriminate.
    + intros _. split; [|reflexivity].
      right. apply holds_all_false. exact Hreq.
  - intros _. split; [|reflexivity].
    left. apply holds_all_false. exact Hoff.
Qed.

(** The converse: a shortfall beyond the tolerance on either side makes
    the call fail. *)
Lemma execute_trade_shortfall_fails
      (sys : TradeSystem) (offer : TradeOffer) (st : Store)
      (offerer_inv target_inv : ref) (day : Z) :
  holds_all (st offerer_inv) (offering offer) = false
  \/ holds_all (st target_inv) (requesting offer) = false ->
  execute_trade sys offer st offerer_inv target_inv day = (false, st, sys).
Proof.
  unfold execute_trade. intros [H|H].
  - rewrite H. reflexivity.
  - rewrite H. destruct (holds_all _ (offering offer)); reflexivity.
Qed.

(** A trade that passes verification is recorded with the committed
    quantities of the offer, whatever the inventories could supply. *)
Lemma execute_trade_records_offer
      (sys : TradeSystem) (offer : TradeOffer) (st : Store)
      (offerer_inv target_inv : ref) (day : Z) :
  holds_all (st offerer_inv) (offering offer) = true ->
  holds_all (st target_inv) (requesting offer) = true ->
  let result := execute_trade sys offer st offerer_inv target_inv day in
  fst (fst result) = true
  /\ daily_trades (snd result)
     = daily_trades sys
       ++ [mkRecord day (offerer_id offer) (target_id offer)
                    (offering offer) (requesting offer)]
  /\ total_trades (snd result) = (total_trades sys + 1)%Z
  /\ total_items_exchanged (snd result)
     == total_items_exchanged sys
        + (Qsum (dict_values (offering offer))
           + Qsum (dict_values (requesting offer))).
Proof.
  intros Hoff Hreq. unfold execute_trade. rewrite Hoff, Hreq. cbn.
  repeat split; reflexivity.
Qed.

(** Two family stores: the first holds 0.995 units of grain, the second
    is empty. *)
Definition short_of_grain : Inventory :=
  snd (add (mkInventory [] 200.0 "family") (create_item "grain" 0.995 0.5)).

Definition two_stores : Store :=
  fun r => match r with
           | O => short_of_grain
           | _ => mkInventory [] 200.0 "family"
           end.

Definition no_trades : TradeSystem := mkTradeSystem [] 0 0.

Lemma execute_trade_failure_changes_nothing_witness :
  fst (fst (execute_trade no_trades (mkOffer [("grain", 2)] [] 1 2)
                          two_stores 0%nat 1%nat 7)) = false
  /\ execute_trade no_trades (mkOffer [("grain", 2)] [] 1 2)
                   two_stores 0%nat 1%nat 7
     = (false, two_stores, no_trades).
Proof.
  assert (Hfail : fst (fst (execute_trade no_trades (mkOffer [("grain", 2)] [] 1 2)
                                          two_stores 0%nat 1%nat 7)) = false)
    by reflexivity.
  split; [exact Hfail|].
  apply (execute_trade_failure_changes_nothing _ _ _ _ _ _ Hfail).
Defined.

End ExecutionFacts.

(* ===================================================================== *)
(** ** Barter: valuation of food against hunger *)

Module ValuationFacts.
Import Config Inv Agent Trade.




















(** A villager as the engine creates one: fresh needs, no experience,
    an empty personal inventory. *)
Definition sample_villager : Villager :=
  mkVillager 1 (mkTraits 50 50 50 50) Needs.new_need_system (mkMemory [])
             100 0 (40, 40)%Z (Some (new_inventory 30.0)).

(** A stand-in for [math.exp] where a concrete function is needed. *)
Definition sample_exp : Q -> Q := fun _ => 1.




End ValuationFacts.

(* ===================================================================== *)
(** ** Barter: the ambition step of offer generation *)

Module OfferFacts.
Import Config Inv Agent Trade.

(** Entry by entry: same item type, quantity not above. *)
Definition not_raised (after before : string * Q) : Prop :=
  fst after = fst before /\ snd after <= snd before.

Lemma rescale_requests_not_raised (villager : Villager) (n : Negotiation) :
  Forall2 not_raised (rescale_requests villager n) (neg_requesting n).
Proof.
  unfold rescale_requests.
  destruct (Qlt_bool 0 (neg_request_value n) && Qlt_bool 0 (neg_offer_value n)).
  - induction (neg_requesting n) as [|kv rest IH]; cbn [map].
    + constructor.
    + constructor; [|exact IH].
      split; [reflexivity | apply Q.le_min_r].
  - induction (neg_requesting n) as [|kv rest IH].
    + constructor.
    + constructor; [|exact IH].
      split; [reflexivity | apply Qle_refl].
Qed.

Lemma not_raised_lookup (after before : dict Q) (t : string) (q : Q) :
  Forall2 not_raised after before ->
  dict_get after t = Some q ->
  exists q0, dict_get before t = Some q0 /\ q <= q0.
Proof.
  induction 1 as [|[ka qa] [kb qb] after before [Hk Hq] _ IH];
    cbn [dict_get]; intros Hget.
  - discriminate.
  - cbn [fst snd] in Hk, Hq. subst kb.
    destruct (String.eqb ka t).
    + inversion Hget; subst. exists qb. split; [reflexivity | exact Hq].
    + apply IH. exact Hget.
Qed.

(** C7.  In every offer [generate_offer] returns, each requested
    quantity after the ambition-driven rescaling is at most the quantity
    requested before that step, whatever the ambition of the proposer:
    the step only ever clamps downward. *)
Theorem ambition_rescaling_never_raises
        (exp : Q -> Q) (villager partner : Villager)
        (villager_inv partner_inv_estimate : Inventory)
        (relationship_trust : Q) (offer : TradeOffer) :
  generate_offer exp villager partner villager_inv partner_inv_estimate
                 relationship_trust = Some offer ->
  exists n,
    negotiate exp villager partner villager_inv partner_inv_estimate = Some n
    /\ offering offer = neg_offering n
    /\ Forall2 not_raised (requesting offer) (neg_requesting n)
    /\ forall t q,
        dict_get (requesting offer) t = Some q ->
        exists q0, dict_get (neg_requesting n) t = Some q0 /\ q <= q0.
Proof.
  unfold generate_offer. intros Hgen.
  destruct (negotiate exp villager partner villager_inv partner_inv_estimate)
    as [n|]; [|discriminate].
  inversion Hgen; subst offer. cbn [offering requesting].
  exists n. split; [reflexivity|]. split; [reflexivity|].
  pose proof (rescale_requests_not_raised villager n) as Hall.
  split; [exact Hall|].
  intros t q. apply not_raised_lookup. exact Hall.
Qed.

(** A proposer rich in timber, with the highest ambition, facing a
    partner believed to be rich in stone. *)
Definition timber_owner : Villager :=
  mkVillager 1 (mkTraits 99 50 50 50) Needs.new_need_system (mkMemory [])
             100 0 (40, 40)%Z (Some (new_inventory 30.0)).

Definition stone_owner : Villager :=
  mkVillager 2 (mkTraits 50 50 50 50) Needs.new_need_system (mkMemory [])
             100 1 (40, 40)%Z (Some (new_inventory 30.0)).

Definition timber_stock : Inventory :=
  snd (add (mkInventory [] 200.0 "family") (create_item "timber" 10 0.5)).

Definition stone_estimate : Inventory :=
  snd (add (new_inventory 999.0) (create_item "stone" 10 0.5)).

Lemma ambition_rescaling_never_raises_witness :
  exists offer n,
    generate_offer ValuationFacts.sample_exp timber_owner stone_owner
                   timber_stock stone_estimate 0 = Some offer
    /\ negotiate ValuationFacts.sample_exp timber_owner stone_owner
                 timber_stock stone_estimate = Some n
    /\ Forall2 not_raised (requesting offer) (neg_requesting n).
Proof.
  destruct (generate_offer ValuationFacts.sample_exp timber_owner stone_owner
                           timber_stock stone_estimate 0) as [offer|] eqn:E.
  - destruct (ambition_rescaling_never_raises _ _ _ _ _ _ _ E)
      as (n & Hneg & _ & Hall & _).
    exists offer, n. split; [reflexivity|]. split; [exact Hneg | exact Hall].
  - vm_compute in E. discriminate.
Defined.

End OfferFacts.

(* ===================================================================== *)
(** ** Families: marriage *)

Module FamilyFacts.
Import Agent Families.

Lemma idict_get_set_same {V : Type} (d : idict V) (k : Z) (x : V) :
  idict_get (idict_set d k x) k = Some x.
Proof.
  induction d as [|[k' v] d IH]; cbn [idict_set idict_get].
  - rewrite Z.eqb_refl. reflexivity.
  - destruct (k' =? k)%Z eqn:E; cbn [idict_get]; rewrite E.
    + reflexivity.
    + exact IH.
Qed.

Lemma idict_get_set_other {V : Type} (d : idict V) (k k0 : Z) (x : V) :
  k <> k0 -> idict_get (idict_set d k x) k0 = idict_get d k0.
Proof.
  intros Hne. induction d as [|[k' v] d IH]; cbn [idict_set idict_get].
  - destruct (Z.eqb_spec k k0); [contradiction | reflexivity].
  - destruct (Z.eqb_spec k' k) as [->|Hk]; cbn [idict_get].
    + destruct (Z.eqb_spec k k0); [contradiction | reflexivity].
    + rewrite IH. reflexivity.
Qed.

Lemma idict_get_del_other {V : Type} (d : idict V) (k k0 : Z) :
  k <> k0 -> idict_get (idict_del d k) k0 = idict_get d k0.
Proof.
  intros Hne. induction d as [|[k' v] d IH]; cbn [idict_del idict_get].
  - reflexivity.
  - destruct (Z.eqb_spec k' k) as [->|Hk]; cbn [idict_get].
    + destruct (Z.eqb_spec k k0); [contradiction | reflexivity].
    + rewrite IH. reflexivity.
Qed.

Lemma idict_get_absent {V : Type} (d : idict V) (k : Z) :
  ~ In k (map fst d) -> idict_get d k = None.
Proof.
  induction d as [|[k' v] d IH]; cbn [idict_get map fst]; intros Hnin.
  - reflexivity.
  - destruct (Z.eqb_spec k' k) as [->|Hk].
    + exfalso. apply Hnin. left. reflexivity.
    + apply IH. intro Hin. apply Hnin. right. exact Hin.
Qed.

(** Keys are unique, as in any dictionary. *)
Lemma idict_get_del_same {V : Type} (d : idict V) (k : Z) :
  NoDup (map fst d) -> idict_get (idict_del d k) k = None.
Proof.
  induction d as [|[k' v] d IH]; cbn [idict_del idict_get map fst]; intros Hnd.
  - reflexivity.
  - inversion Hnd as [|? ? Hnin Hrest]; subst.
    destruct (Z.eqb_spec k' k) as [->|Hk].
    + apply idict_get_absent. exact Hnin.
    + cbn [idict_get]. destruct (Z.eqb_spec k' k); [contradiction|].
      apply IH. exact Hrest.
Qed.

Lemma idict_set_keys {V : Type} (d : idict V) (k : Z) (x y : V) :
  idict_get d k = Some y -> map fst (idict_set d k x) = map fst d.
Proof.
  induction d as [|[k' v] d IH]; cbn [idict_set idict_get map fst]; intros Hget.
  - discriminate.
  - destruct (k' =? k)%Z; cbn [map fst].
    + reflexivity.
    + rewrite IH by exact Hget. reflexivity.
Qed.

Lemma is_member_In (vid : Z) (ids : list Z) :
  is_member vid ids = true <-> In vid ids.
Proof.
  unfold is_member. rewrite existsb_exists. split.
  - intros (x & Hin & Heq). apply Z.eqb_eq in Heq. subst. exact Hin.
  - intros Hin. exists vid. split; [exact Hin | apply Z.eqb_refl].
Qed.

Lemma remove_first_absent (vid : Z) (ids : list Z) :
  is_member vid ids = false -> remove_first vid ids = ids.
Proof.
  induction ids as [|x rest IH]; cbn [remove_first is_member existsb]; intros H.
  - reflexivity.
  - apply orb_false_iff in H. destruct H as [Hx Hrest].
    rewrite Z.eqb_sym in Hx. rewrite Hx. rewrite IH by exact Hrest. reflexivity.
Qed.

Lemma remove_member_ids (f : Family) (vid : Z) :
  member_ids (remove_member f vid) = remove_first vid (member_ids f).
Proof.
  unfold remove_member. cbn [member_ids].
  destruct (is_member vid (member_ids f)) eqn:E; [reflexivity|].
  symmetry. apply remove_first_absent. exact E.
Qed.

Lemma add_member_ids (f : Family) (vid m : Z) :
  In m (member_ids (add_member f vid)) <-> In m (member_ids f) \/ m = vid.
Proof.
  unfold add_member.
  destruct (is_member vid (member_ids f)) eqn:E; cbn [negb member_ids].
  - apply is_member_In in E. split; [intros H; left; exact H|].
    intros [H| ->]; assumption.
  - rewrite in_app_iff. cbn [In]. split.
    + intros [H|[H|[]]]; [left; exact H | right; symmetry; exact H].
    + intros [H| ->]; [left; exact H | right; left; reflexivity].
Qed.

(** Two families: villager 1 alone, villagers 2 and 3 together. *)
Definition groom : Villager :=
  mkVillager 1 (mkTraits 50 50 50 50) Needs.new_need_system (mkMemory [])
             100 0 (40, 40)%Z None.

Definition bride : Villager :=
  mkVillager 2 (mkTraits 50 50 50 50) Needs.new_need_system (mkMemory [])
             100 1 (40, 40)%Z None.

Definition grooms_family : Family :=
  mkFamily 0 [1%Z] 1 (40, 40)%Z new_family_inventory None.

Definition brides_family : Family :=
  mkFamily 1 [2%Z; 3%Z] 2 (40, 40)%Z new_family_inventory None.

Definition two_families : FamilyManager :=
  mkManager [(0%Z, grooms_family); (1%Z, brides_family)] 2.

(** C8 (as stated, refuted).  Claim: on marriage every member of the
    absorbed family belongs to the surviving family and the absorbed
    family is gone from the manager.  When the bride's family has
    another member (villager 3), that member is not moved and the
    family stays. *)
Lemma form_marriage_leaves_relatives_behind :
  let result := form_marriage two_families groom bride in
  ~ ((forall m, In m (member_ids brides_family) ->
                In m (member_ids (fst (fst result))))
     /\ idict_get (families (snd (fst result))) (fam_id brides_family) = None).
Proof.
  cbv zeta. intros [_ Hgone]. vm_compute in Hgone. discriminate.
Qed.

(** C8 (amended).  When [form_marriage] is called for villagers A and B
    of two distinct existing families, B alone moves: B joins A's
    family, which keeps its members and stays in the manager, and B's
    [family_id] becomes A's; the other members of B's family stay in
    it, and that family is removed from the manager exactly when B was
    its only member. *)
Theorem form_marriage_moves_spouse_only
        (fm : FamilyManager) (villager_a villager_b : Villager)
        (fam_a fam_b : Family) :
  NoDup (map fst (families fm)) ->
  idict_get (families fm) (family_id villager_a) = Some fam_a ->
  idict_get (families fm) (family_id villager_b) = Some fam_b ->
  fam_id fam_a = family_id villager_a ->
  fam_id fam_b = family_id villager_b ->
  fam_id fam_a <> fam_id fam_b ->
  let result := form_marriage fm villager_a villager_b in
  let surviving := fst (fst result) in
  let fm' := snd (fst result) in
  let staying := remove_first (id villager_b) (member_ids fam_b) in
  idict_get (families fm') (fam_id fam_a) = Some surviving
  /\ (forall m, In m (member_ids surviving)
                <-> In m (member_ids fam_a) \/ m = id villager_b)
  /\ family_id (snd result) = fam_id fam_a
  /\ match staying with
     | [] => idict_get (families fm') (fam_id fam_b) = None
     | _ :: _ =>
         exists fam_b',
           idict_get (families fm') (fam_id fam_b) = Some fam_b'
           /\ member_ids fam_b' = staying
     end.
Proof.
  intros Hnd Hga Hgb Hka Hkb Hne. cbv zeta.
  unfold form_marriage. rewrite Hga, Hgb.
  assert (E : negb (fam_id fam_a =? fam_id fam_b)%Z = true).
  { apply negb_true_iff. apply Z.eqb_neq. exact Hne. }
  rewrite E.
  assert (Hkeys : family_id villager_b <> family_id villager_a)
    by (rewrite <- Hka, <- Hkb; intro H; apply Hne; symmetry; exact H).
  set (fam_a' := add_member fam_a (id villager_b)).
  set (fam_b' := remove_member fam_b (id villager_b)).
  set (d := idict_set (idict_set (families fm) (family_id villager_b) fam_b')
                      (family_id villager_a) fam_a').
  assert (Hda : idict_get d (fam_id fam_a) = Some fam_a').
  { rewrite Hka. apply idict_get_set_same. }
  assert (Hdb : idict_get d (fam_id fam_b) = Some fam_b').
  { rewrite Hkb. unfold d.
    rewrite idict_get_set_other by (intro H; apply Hkeys; symmetry; exact H).
    apply idict_get_set_same. }
  assert (Hdnd : NoDup (map fst d)).
  { unfold d.
    rewrite (idict_set_keys _ _ _ fam_a).
    - rewrite (idict_set_keys _ _ _ fam_b); assumption.
    - rewrite idict_get_set_other by exact Hkeys. exact Hga. }
  assert (Hfa' : fam_id fam_a' = fam_id fam_a).
  { unfold fam_a', add_member.
    destruct (negb (is_member (id villager_b) (member_ids fam_a)));
      reflexivity. }
  assert (Hstay : member_ids fam_b' = remove_first (id villager_b) (member_ids fam_b))
    by apply remove_member_ids.
  assert (Hfb' : fam_id fam_b' = fam_id fam_b) by reflexivity.
  rewrite <- Hstay.
  destruct (member_ids fam_b') as [|m0 rest] eqn:Hm;
    cbn [fst snd families family_id set_family_id].
  - rewrite Hfb'.
    split; [rewrite idict_get_del_other by (intro H; apply Hne; symmetry; exact H);
            exact Hda|].
    split; [intros m; apply add_member_ids|].
    split; [exact Hfa'|].
    apply idict_get_del_same. exact Hdnd.
  - split; [exact Hda|].
    split; [intros m; apply add_member_ids|].
    split; [exact Hfa'|].
    exists fam_b'. split; [exact Hdb | exact Hm].
Qed.

Lemma form_marriage_moves_spouse_only_witness :
  let result := form_marriage two_families groom bride in
  idict_get (families (snd (fst result))) 0%Z = Some (fst (fst result))
  /\ In 2%Z (member_ids (fst (fst result)))
  /\ exists fam_b',
       idict_get (families (snd (fst result))) 1%Z = Some fam_b'
       /\ member_ids fam_b' = [3%Z].
Proof.
  cbv zeta.
  assert (Hnd : NoDup (map fst (families two_families))).
  { repeat constructor; cbn; intuition discriminate. }
  assert (Hne : fam_id grooms_family <> fam_id brides_family)
    by (cbn; discriminate).
  destruct (form_marriage_moves_spouse_only
              two_families groom bride grooms_family brides_family
              Hnd eq_refl eq_refl eq_refl eq_refl Hne)
    as (Hsurv & Hmem & _ & Hstay).
  split; [exact Hsurv|]. split.
  - apply Hmem. right. reflexivity.
  - exact Hstay.
Defined.

End FamilyFacts.

(* ===================================================================== *)
(** ** Metrics: the Gini coefficient *)

Module MetricsFacts.
Import Metrics.

Local Abbreviation qn n := (inject_Z (Z.of_nat n)).

Lemma qn_succ (n : nat) : qn (S n) == qn n + 1.
Proof. rewrite Nat2Z.inj_succ. unfold Z.succ. rewrite inject_Z_plus. reflexivity. Qed.

Lemma qn_succ_nonzero (n : nat) : ~ qn (S n) == 0.
Proof.
  unfold Qeq. cbn [Qnum Qden inject_Z]. lia.
Qed.

(** *** Sorting *)

Lemma insert_sorted_perm (x : Q) (l : list Q) :
  Permutation (insert_sorted x l) (x :: l).
Proof.
  induction l as [|y l IH]; cbn [insert_sorted].
  - apply Permutation_refl.
  - destruct (Qle_bool x y).
    + apply Permutation_refl.
    + apply perm_trans with (y :: x :: l).
      * apply perm_skip. exact IH.
      * apply perm_swap.
Qed.

Lemma sorted_perm (l : list Q) : Permutation (sorted l) l.
Proof.
  induction l as [|x l IH]; cbn [sorted fold_right].
  - apply perm_nil.
  - apply perm_trans with (x :: sorted l).
    + apply insert_sorted_perm.
    + apply perm_skip. exact IH.
Qed.

Lemma insert_sorted_ascending (x : Q) (l : list Q) :
  ascending l -> ascending (insert_sorted x l).
Proof.
  induction 1 as [|y|y z l Hyz Hasc IH]; cbn [insert_sorted].
  - constructor.
  - destruct (Qle_bool x y) eqn:E; qbool.
    + constructor; [exact E | constructor].
    + constructor; [apply Qlt_le_weak; exact E | constructor].
  - destruct (Qle_bool x y) eqn:E; qbool.
    + constructor; [exact E|]. constructor; assumption.
    + cbn [insert_sorted] in IH.
      destruct (Qle_bool x z) eqn:E'; qbool.
      * constructor; [apply Qlt_le_weak; exact E | exact IH].
      * constructor; [exact Hyz | exact IH].
Qed.

Lemma sorted_ascending (l : list Q) : ascending (sorted l).
Proof.
  induction l as [|x l IH]; cbn [sorted fold_right].
  - constructor.
  - apply insert_sorted_ascending. exact IH.
Qed.

Lemma Qsum_perm (l l' : list Q) : Permutation l l' -> Qsum l == Qsum l'.
Proof.
  induction 1 as [|x l l' _ IH|x y l|l l' l'' _ IH1 _ IH2].
  - reflexivity.
  - rewrite !Qsum_cons, IH. reflexivity.
  - rewrite !Qsum_cons. ring.
  - rewrite IH1. exact IH2.
Qed.

(** *** The enumerate-based sum is the rank-weighted sum *)

Lemma weighted_from_ranks (xs : list Q) :
  forall i : nat,
    weighted_from i xs
    == Qsum (map (fun j => qn (i + j) * nth (j - 1) xs 0)
                 (seq 1 (List.length xs))).
Proof.
  induction xs as [|x xs IH]; intros i; cbn [weighted_from List.length].
  - reflexivity.
  - rewrite <- cons_seq, <- seq_shift. cbn [map]. rewrite Qsum_cons.
    rewrite map_map. rewrite IH.
    replace (i + 1)%nat with (S i) by lia. rewrite qn_succ.
    cbn [Nat.sub nth].
    apply Qplus_comp; [reflexivity|].
    apply Qsum_perm. apply Permutation_refl'.
    apply map_ext_in. intros j Hj. apply in_seq in Hj.
    replace (i + S j)%nat with (S i + j)%nat by lia.
    destruct j as [|j]; [lia|].
    cbn [Nat.sub nth]. rewrite Nat.sub_0_r. reflexivity.
Qed.

Lemma weighted_is_rank_sum (xs : list Q) : weighted_from 0 xs == rank_sum xs.
Proof. apply weighted_from_ranks. Qed.

(** *** Guards *)

Lemma Qeq_bool_congr (a b : Q) : (a == 0 <-> b == 0) -> Qeq_bool a 0 = Qeq_bool b 0.
Proof.
  intros Hiff.
  destruct (Qeq_bool a 0) eqn:Ea; destruct (Qeq_bool b 0) eqn:Eb; try reflexivity.
  - apply Qeq_bool_iff in Ea. apply Hiff in Ea. apply Qeq_bool_iff in Ea. congruence.
  - apply Qeq_bool_iff in Eb. apply Hiff in Eb. apply Qeq_bool_iff in Eb. congruence.
Qed.

Lemma all_zero_forallb (values : list Q) :
  Forall (fun v => v == 0) values ->
  forallb (fun v => Qeq_bool v 0) values = true.
Proof.
  induction 1 as [|v l Hv _ IH]; cbn [forallb].
  - reflexivity.
  - rewrite IH. apply Qeq_bool_iff in Hv. rewrite Hv. reflexivity.
Qed.

Lemma forallb_zero_sum (values : list Q) :
  forallb (fun v => Qeq_bool v 0) values = true -> Qsum values == 0.
Proof.
  induction values as [|v l IH]; cbn [forallb]; intros H.
  - reflexivity.
  - apply andb_true_iff in H. destruct H as [Hv Hl].
    apply Qeq_bool_iff in Hv. rewrite Qsum_cons, Hv, (IH Hl). ring.
Qed.

Lemma sorted_length (l : list Q) : List.length (sorted l) = List.length l.
Proof. apply Permutation_length. apply sorted_perm. Qed.

(** *** Equal values, over exact rationals

    Without rounding the formula gives 0 on equal values and is unchanged
    by scaling; this is what the formula aims at.  In binary64 both hold
    only up to rounding ([Binary64Facts.gini_of_equal_values_not_zero]). *)

Lemma insert_sorted_repeat (x : Q) (n : nat) :
  insert_sorted x (repeat x n) = x :: repeat x n.
Proof.
  destruct n as [|n]; cbn [repeat insert_sorted]; [reflexivity|].
  assert (E : Qle_bool x x = true) by (apply Qle_bool_iff; apply Qle_refl).
  rewrite E. reflexivity.
Qed.

Lemma sorted_repeat (x : Q) (n : nat) : sorted (repeat x n) = repeat x n.
Proof.
  induction n as [|n IH]; cbn [repeat sorted fold_right]; [reflexivity|].
  fold (sorted (repeat x n)). rewrite IH. apply insert_sorted_repeat.
Qed.

Lemma Qsum_repeat (x : Q) (n : nat) : Qsum (repeat x n) == qn n * x.
Proof.
  induction n as [|n IH].
  - cbn. ring.
  - cbn [repeat]. rewrite Qsum_cons, IH, qn_succ. ring.
Qed.

Lemma weighted_from_repeat (x : Q) (n : nat) :
  forall i : nat,
    weighted_from i (repeat x n)
    == x * (qn n * qn i + qn n * (qn n + 1) / 2).
Proof.
  induction n as [|n IH]; intros i.
  - cbn [repeat weighted_from]. change (qn 0) with 0. field.
  - cbn [repeat weighted_from]. rewrite IH, !qn_succ. field.
Qed.

Lemma gini_equal_values (x : Q) (n : nat) : gini_coefficient (repeat x n) == 0.
Proof.
  destruct n as [|n]; [reflexivity|].
  unfold gini_coefficient. cbn [repeat orb].
  destruct (forallb _ (x :: repeat x n)) eqn:Eall; [reflexivity|].
  change (x :: repeat x n) with (repeat x (S n)).
  rewrite sorted_repeat, repeat_length.
  destruct (Qeq_bool (Qsum (repeat x (S n))) 0) eqn:Etot; [reflexivity|].
  assert (Hx : ~ x == 0).
  { intro Hx. apply Qeq_bool_neq in Etot. apply Etot.
    rewrite Qsum_repeat, Hx. ring. }
  pose proof (qn_succ_nonzero n) as Hn.
  rewrite weighted_from_repeat, Qsum_repeat.
  change (qn 0) with 0. field. split; assumption.
Qed.

(** *** Scaling, over exact rationals *)

Lemma Qle_bool_scale (c x y : Q) :
  0 < c -> Qle_bool (c * x) (c * y) = Qle_bool x y.
Proof.
  intros Hc.
  destruct (Qle_bool x y) eqn:E.
  - apply Qle_bool_iff. apply Qle_bool_iff in E. apply Qmult_le_l; assumption.
  - apply Qle_bool_false. apply Qle_bool_false in E.
    apply Qmult_lt_l; assumption.
Qed.

Lemma insert_sorted_scale (c x : Q) (l : list Q) :
  0 < c ->
  insert_sorted (c * x) (map (Qmult c) l) = map (Qmult c) (insert_sorted x l).
Proof.
  intros Hc. induction l as [|y l IH]; cbn [map insert_sorted].
  - reflexivity.
  - rewrite Qle_bool_scale by exact Hc.
    destruct (Qle_bool x y); cbn [map]; [reflexivity|].
    rewrite IH. reflexivity.
Qed.

Lemma sorted_scale (c : Q) (l : list Q) :
  0 < c -> sorted (map (Qmult c) l) = map (Qmult c) (sorted l).
Proof.
  intros Hc. induction l as [|x l IH]; cbn [map sorted fold_right].
  - reflexivity.
  - fold (sorted (map (Qmult c) l)). fold (sorted l).
    rewrite IH. apply insert_sorted_scale. exact Hc.
Qed.

Lemma scale_zero_iff (c v : Q) : 0 < c -> (c * v == 0 <-> v == 0).
Proof.
  intros Hc. split.
  - intros H. destruct (Qmult_integral _ _ H) as [H0|H0]; [exfalso; lra | exact H0].
  - intros H. rewrite H. ring.
Qed.

Lemma forallb_zero_scale (c : Q) (l : list Q) :
  0 < c ->
  forallb (fun v => Qeq_bool v 0) (map (Qmult c) l)
  = forallb (fun v => Qeq_bool v 0) l.
Proof.
  intros Hc. induction l as [|v l IH]; cbn [map forallb].
  - reflexivity.
  - rewrite IH. rewrite (Qeq_bool_congr (c * v) v (scale_zero_iff c v Hc)).
    reflexivity.
Qed.

Lemma Qsum_scale (c : Q) (l : list Q) : Qsum (map (Qmult c) l) == c * Qsum l.
Proof.
  induction l as [|v l IH]; cbn [map].
  - cbn. ring.
  - rewrite !Qsum_cons, IH. ring.
Qed.

Lemma weighted_from_scale (c : Q) (l : list Q) :
  forall i : nat,
    weighted_from i (map (Qmult c) l) == c * weighted_from i l.
Proof.
  induction l as [|v l IH]; intros i; cbn [map weighted_from].
  - ring.
  - rewrite IH. ring.
Qed.

Lemma gini_scale_invariant (c : Q) (values : list Q) :
  0 < c -> gini_coefficient (map (Qmult c) values) == gini_coefficient values.
Proof.
  intros Hc. unfold gini_coefficient.
  rewrite forallb_zero_scale by exact Hc.
  destruct values as [|v l]; [reflexivity|].
  cbn [map orb].
  destruct (forallb _ (v :: l)); [reflexivity|].
  change (c * v :: map (Qmult c) l) with (map (Qmult c) (v :: l)).
  rewrite sorted_scale by exact Hc.
  rewrite length_map.
  set (xs := sorted (v :: l)).
  assert (Hlen : List.length xs = S (List.length l))
    by (unfold xs; rewrite sorted_length; reflexivity).
  rewrite Hlen.
  pose proof (qn_succ_nonzero (List.length l)) as Hn.
  rewrite (Qeq_bool_congr (Qsum (map (Qmult c) xs)) (Qsum xs)).
  - destruct (Qeq_bool (Qsum xs) 0) eqn:Etot; [reflexivity|].
    apply Qeq_bool_neq in Etot.
    rewrite Qsum_scale, weighted_from_scale.
    field. repeat split; try assumption. lra.
  - rewrite Qsum_scale. apply scale_zero_iff. exact Hc.
Qed.

(** *** The formula *)

Lemma gini_is_rank_weighted (values : list Q) :
  values <> [] ->
  ~ Qsum values == 0 ->
  gini_coefficient values == rank_weighted_formula (sorted values).
Proof.
  intros Hne Hsum. unfold gini_coefficient, rank_weighted_formula.
  destruct values as [|v l]; [contradiction|]. cbn [orb].
  destruct (forallb _ (v :: l)) eqn:Eall.
  - exfalso. apply Hsum. apply forallb_zero_sum. exact Eall.
  - assert (Hs : Qsum (sorted (v :: l)) == Qsum (v :: l))
      by (apply Qsum_perm; apply sorted_perm).
    destruct (Qeq_bool (Qsum (sorted (v :: l))) 0) eqn:Etot.
    + exfalso. apply Hsum. rewrite <- Hs. apply Qeq_bool_iff. exact Etot.
    + rewrite weighted_is_rank_sum. reflexivity.
Qed.

(** Wealth values are inventory weights, hence non-negative: there the
    sum vanishes only on all-zero input. *)
Lemma nonneg_sum_zero (values : list Q) :
  Forall (fun v => 0 <= v) values ->
  Qsum values == 0 ->
  Forall (fun v => v == 0) values.
Proof.
  induction 1 as [|v l Hv Hl IH]; intros Hsum.
  - constructor.
  - rewrite Qsum_cons in Hsum.
    assert (Hl0 : 0 <= Qsum l).
    { clear IH Hsum. induction Hl as [|w l' Hw _ IH']; [apply Qle_refl|].
      rewrite Qsum_cons. lra. }
    constructor; [lra | apply IH; lra].
Qed.

(** C9 (amended).  [gini_coefficient] is 0 on the empty list and on
    all-zero input, and otherwise (wherever the values do not sum to zero,
    so that the formula is defined) equals the rank-weighted formula over
    the values in ascending order; for non-negative values, as family
    wealths are, that is every input that is not all zero. *)
Theorem gini_coefficient_rank_formula :
  gini_coefficient [] == 0
  /\ (forall values : list Q,
         Forall (fun v => v == 0) values -> gini_coefficient values == 0)
  /\ (forall values : list Q,
         values <> [] ->
         ~ Qsum values == 0 ->
         ascending (sorted values)
         /\ Permutation (sorted values) values
         /\ gini_coefficient values == rank_weighted_formula (sorted values))
  /\ (forall values : list Q,
         Forall (fun v => 0 <= v) values ->
         ~ Forall (fun v => v == 0) values ->
         gini_coefficient values == rank_weighted_formula (sorted values)).
Proof.
  split; [reflexivity|].
  split.
  - intros values Hzero. unfold gini_coefficient.
    rewrite (all_zero_forallb values Hzero). rewrite orb_true_r. reflexivity.
  - split.
    + intros values Hne Hsum.
      split; [apply sorted_ascending|].
      split; [apply sorted_perm|].
      apply gini_is_rank_weighted; assumption.
    + intros values Hpos Hnz.
      apply gini_is_rank_weighted.
      * intros ->. apply Hnz. constructor.
      * intros Hsum. apply Hnz. apply nonneg_sum_zero; assumption.
Qed.

End MetricsFacts.

(* ===================================================================== *)
(** ** Decision engine: the tool gate *)

Module DecisionFacts.
Import Inv Agent Decision.

(** The tool loop finds a tool exactly when a functional tool of at least
    one required category is held, in the personal or the family
    inventory. *)
Lemma find_tool_none (inv family_inv : option Inventory) (required : list string) :
  find_tool inv family_inv required = None <->
  forall ttype, In ttype required -> tool_available inv family_inv ttype = false.
Proof.
  induction required as [|ttype rest IH]; cbn [find_tool].
  - split; [intros _ t [] | intros _; reflexivity].
  - unfold tool_available, has_tool_type in *.
    destruct inv as [i|]; destruct family_inv as [f|];
      try destruct (get_best_tool i ttype) as [ti|] eqn:Ei;
      try destruct (get_best_tool f ttype) as [tf|] eqn:Ef;
      cbn [has_key orb].
    all: try (split; [discriminate|];
              intros H; specialize (H ttype (or_introl eq_refl));
              rewrite ?Ei, ?Ef in H; cbn in H; discriminate).
    all: split;
      [ intros Hn t [<-|Hin];
        [rewrite ?Ei, ?Ef; reflexivity | exact (proj1 IH Hn t Hin)]
      | intros H; apply (proj2 IH); intros t Hin; exact (H t (or_intror Hin)) ].
Qed.

(** A villager who carries a stone axe and nothing else; the family store
    is empty. *)
Definition axe_only : Inventory :=
  snd (add (new_inventory 30.0) (create_item "stone_axe" 1 0.5)).

Definition builder : Villager :=
  mkVillager 1 (mkTraits 50 50 50 50) Needs.new_need_system (mkMemory [])
             100 0 (40, 40)%Z (Some axe_only).

Definition empty_family_store : Inventory := mkInventory [] 200.0 "family".

Definition summer_world : WorldState :=
  mkWorld "summer" (fun _ => Some empty_family_store)
          (fun _ _ => None) (fun _ _ => 0).

Definition build_shelter : Activity :=
  mkActivity "build_shelter" 8 ["axe"; "construction"] None None.

(** C5 (as stated, refuted).  Claim: an activity with required tool
    categories is admitted only if a functional tool of every required
    category is found.  [build_shelter] requires an axe and a construction
    tool; a villager holding only a stone axe, with no construction tool
    in either inventory, passes the gate. *)
Lemma build_shelter_admitted_with_axe_only :
  dict_get ACTIVITIES "build_shelter" = Some build_shelter
  /\ ~ (forall feasible,
          evaluate_gates builder build_shelter summer_world 10 = Some feasible ->
          forall ttype,
            In ttype (required_tools build_shelter) ->
            tool_available (personal_inventory builder)
                           (get_family_inventory summer_world (family_id builder))
                           ttype = true).
Proof.
  split; [reflexivity|].
  intros Hall.
  specialize (Hall (mkFeasible (0.5 * (50 / 50)) None 0.0) eq_refl
                   "construction" (or_intror (or_introl eq_refl))).
  vm_compute in Hall. discriminate.
Qed.

Lemma find_tool_some (inv family_inv : option Inventory) (required : list string)
      (t : Item) :
  find_tool inv family_inv required = Some t ->
  exists ttype, In ttype required /\ tool_available inv family_inv ttype = true.
Proof.
  intros Hfind.
  induction required as [|ttype rest IH]; [discriminate|].
  destruct (tool_available inv family_inv ttype) eqn:Eav.
  - exists ttype. split; [left; reflexivity | exact Eav].
  - destruct (find_tool inv family_inv rest) as [t'|] eqn:Erest.
    + destruct (IH) as (tt' & Hin & Hav).
      * revert Hfind. cbn [find_tool].
        unfold tool_available, has_tool_type in Eav.
        destruct inv as [i|]; destruct family_inv as [f|];
          try destruct (get_best_tool i ttype) eqn:Ei;
          try destruct (get_best_tool f ttype) eqn:Ef;
          cbn in Eav; try discriminate; rewrite Erest; intros; congruence.
      * exists tt'. split; [right; exact Hin | exact Hav].
    + exfalso.
      assert (Hnone : find_tool inv family_inv (ttype :: rest) = None).
      { apply find_tool_none. intros t0 [<-|Hin]; [exact Eav|].
        apply (proj1 (find_tool_none inv family_inv rest) Erest). exact Hin. }
      congruence.
Qed.

Lemma gates_need_found_tool (villager : Villager) (activity : Activity)
      (world_state : WorldState) (remaining_hours : Q) :
  required_tools activity <> [] ->
  find_tool (personal_inventory villager)
            (get_family_inventory world_state (family_id villager))
            (required_tools activity) = None ->
  evaluate_gates villager activity world_state remaining_hours = None.
Proof.
  intros Hreq Hfind. unfold evaluate_gates.
  destruct (Qlt_bool remaining_hours (base_hours activity)
            && Qlt_bool 0 (base_hours activity)); [reflexivity|].
  destruct (match required_season activity with
            | Some seasons =>
                negb (existsb (String.eqb (season world_state)) seasons)
            | None => false
            end); [reflexivity|].
  rewrite Hfind.
  destruct (required_tools activity); [contradiction | reflexivity].
Qed.

(** C5 (amended).  For an activity with a non-empty list of required
    tool categories, the feasibility gate admits the activity only if a
    functional tool of at least one required category is found in the
    personal or the family inventory; when no required category has a
    tool the activity is infeasible. *)
Theorem tool_gate_needs_one_required_category
        (villager : Villager) (activity : Activity)
        (world_state : WorldState) (remaining_hours : Q) :
  required_tools activity <> [] ->
  (forall feasible,
      evaluate_gates villager activity world_state remaining_hours = Some feasible ->
      exists ttype,
        In ttype (required_tools activity)
        /\ tool_available (personal_inventory villager)
                          (get_family_inventory world_state (family_id villager))
                          ttype = true)
  /\ ((forall ttype,
         In ttype (required_tools activity) ->
         tool_available (personal_inventory villager)
                        (get_family_inventory world_state (family_id villager))
                        ttype = false) ->
      evaluate_gates villager activity world_state remaining_hours = None).
Proof.
  intros Hreq. split.
  - intros feasible Hfeas.
    destruct (find_tool (personal_inventory villager)
                        (get_family_inventory world_state (family_id villager))
                        (required_tools activity)) as [t|] eqn:Efind.
    + eapply find_tool_some. exact Efind.
    + rewrite (gates_need_found_tool _ _ _ _ Hreq Efind) in Hfeas. discriminate.
  - intros Hnone. apply gates_need_found_tool; [exact Hreq|].
    apply find_tool_none. exact Hnone.
Qed.

Lemma tool_gate_needs_one_required_category_witness :
  required_tools build_shelter <> []
  /\ exists ttype,
       In ttype (required_tools build_shelter)
       /\ tool_available (personal_inventory builder)
                         (get_family_inventory summer_world (family_id builder))
                         ttype = true.
Proof.
  assert (Hreq : required_tools build_shelter <> []) by discriminate.
  split; [exact Hreq|].
  apply (proj1 (tool_gate_needs_one_required_category
                  builder build_shelter summer_world 10 Hreq)
               (mkFeasible (0.5 * (50 / 50)) None 0.0)).
  vm_compute. reflexivity.
Defined.

End DecisionFacts.

(* ===================================================================== *)
(** ** Where rounding decides: evaluations in binary64 *)

Module Binary64Facts.
Import PrimFloat Binary64.
Local Open Scope float_scope.
#[local] Set Warnings "-inexact-float".



(** C9 (as stated, refuted).  Claim: [gini_coefficient] is 0 on any list
    of equal values and unchanged by scaling every value by the same
    positive constant.  On two values of 0.1 the weighted sum is
    0.1 + 0.2 = 0.30000000000000004 and the result is 2.2e-16, not 0;
    scaling 1 and 2 by 0.1 changes the result in its last digits. *)
Lemma gini_of_equal_values_not_zero :
  gini_coefficient [0.1; 0.1] = 2.2204460492503131e-16
  /\ (gini_coefficient [0.1; 0.1] =? 0) = false
  /\ (0 <? 0.1) = true
  /\ map (mul 0.1) [1.0; 2.0] = [0.1; 0.2]
  /\ (gini_coefficient (map (mul 0.1) [1.0; 2.0]) =? gini_coefficient [1.0; 2.0])
     = false.
Proof.
  split; [vm_compute; reflexivity|].
  split; [vm_compute; reflexivity|].
  split; [vm_compute; reflexivity|].
  split; vm_compute; reflexivity.
Qed.

(** A villager with nothing stored, no skill and hunger satisfaction
    [h]. *)
Definition hungry (h : float) : Appraiser :=
  mkAppraiser h 1.0 1.0 false 50.0 0.0 0.0.

(** Below 0.5 a lower hunger satisfaction need not give a larger value:
    0.3 and the next binary64 number above it value one loaf of bread the
    same.  Far enough apart the values do differ. *)
Lemma food_value_tie_below_half :
  (0.3 <? 0.30000000000000004) = true
  /\ (0.30000000000000004 <? 0.5) = true
  /\ subjective_value (hungry 0.3) "bread" 1.0
     = subjective_value (hungry 0.30000000000000004) "bread" 1.0
  /\ (subjective_value (hungry 0.9) "bread" 1.0
      <? subjective_value (hungry 0.1) "bread" 1.0) = true.
Proof.
  split; [vm_compute; reflexivity|].
  split; [vm_compute; reflexivity|].
  split; vm_compute; reflexivity.
Qed.

End Binary64Facts.

(* ===================================================================== *)
(** * Further coverage of the economy, the agents and the world clock *)

(** ** economy/inventory.py: spoilage *)

Module Perish.
Import Inv.

Definition is_perishable (it : Item) : bool :=
  get_or (cat_perishable (catalog (item_type it))) false.

Definition perish_days (it : Item) : Z :=
  get_or (cat_perish_days (catalog (item_type it))) 9999%Z.

Definition is_spoiled (it : Item) : bool :=
  is_perishable it && (perish_days it <=? days_since_created it)%Z.

Definition age_one_day (it : Item) : Item :=
  mkItem (item_type it) (quantity it) (quality it)
         (days_since_created it + 1)%Z
         (current_durability it) (max_durability it).

(** The body of [daily_perish] over the entries of the dictionary: every
    stack is aged, spoiled stacks are collected, an entry keeps its place
    with the surviving stacks or is deleted when none survives. *)
Fixpoint perish_entries (d : dict (list Item)) : list Item * dict (list Item) :=
  match d with
  | [] => ([], [])
  | (item_type, stacks) :: rest =>
      let aged := map age_one_day stacks in
      let spoiled := filter is_spoiled aged in
      let surviving := filter (fun it => negb (is_spoiled it)) aged in
      let (spoiled_rest, rest') := perish_entries rest in
      (spoiled ++ spoiled_rest,
       match surviving with
       | [] => rest'
       | _ => (item_type, surviving) :: rest'
       end)
  end.

(** [Inventory.daily_perish]: the spoiled items and the inventory
    afterwards. *)
Definition daily_perish (inv : Inventory) : list Item * Inventory :=
  let (spoiled, d) := perish_entries (items inv) in
  (spoiled, set_items inv d).

(** Every stack of the inventory, in dictionary order. *)
Definition all_stacks (inv : Inventory) : list Item :=
  flat_map snd (items inv).

(** A tool of the given type that still works. *)
Definition functional_tool (ttype : string) (it : Item) : Prop :=
  tool_type it = Some ttype /\ 0 < current_durability it.

End Perish.

(* ===================================================================== *)
(** ** Inventories: bookkeeping of quantities *)

Module StockFacts.
Import Inv Perish.

Lemma dict_get_set_other {V : Type} (d : dict V) (k k0 : string) (x : V) :
  k <> k0 -> dict_get (dict_set d k x) k0 = dict_get d k0.
Proof.
  intros Hne. induction d as [|[k' v] d IH]; cbn [dict_set dict_get].
  - destruct (String.eqb_spec k k0); [contradiction | reflexivity].
  - destruct (String.eqb_spec k' k) as [->|Hk]; cbn [dict_get].
    + destruct (String.eqb_spec k k0); [contradiction | reflexivity].
    + rewrite IH. reflexivity.
Qed.

Lemma dict_get_set_eq {V : Type} (d : dict V) (k : string) (x : V) :
  dict_get (dict_set d k x) k = Some x.
Proof.
  induction d as [|[k' v] d IH]; cbn [dict_set dict_get].
  - rewrite String.eqb_refl. reflexivity.
  - destruct (String.eqb k' k) eqn:E; cbn [dict_get]; rewrite E;
      [reflexivity | exact IH].
Qed.

Lemma dict_set_same_value {V : Type} (d : dict V) (k : string) (x : V) :
  dict_get d k = Some x -> dict_set d k x = d.
Proof.
  induction d as [|[k' v] d IH]; cbn [dict_set dict_get]; intros Hget.
  - discriminate.
  - destruct (String.eqb k' k).
    + inversion Hget; subst. reflexivity.
    + rewrite IH by exact Hget. reflexivity.
Qed.

Lemma dict_get_absent {V : Type} (d : dict V) (k : string) :
  ~ In k (dict_keys d) -> dict_get d k = None.
Proof.
  induction d as [|[k' v] d IH]; cbn [dict_get dict_keys map fst]; intros Hnin.
  - reflexivity.
  - destruct (String.eqb_spec k' k) as [->|Hk].
    + exfalso. apply Hnin. left. reflexivity.
    + apply IH. intro Hin. apply Hnin. right. exact Hin.
Qed.

Lemma dict_get_del_eq {V : Type} (d : dict V) (k : string) :
  NoDup (dict_keys d) -> dict_get (dict_del d k) k = None.
Proof.
  induction d as [|[k' v] d IH]; cbn [dict_del dict_get dict_keys map fst];
    intros Hnd.
  - reflexivity.
  - inversion Hnd as [|? ? Hnin Hrest]; subst.
    destruct (String.eqb_spec k' k) as [->|Hk].
    + apply dict_get_absent. exact Hnin.
    + cbn [dict_get]. destruct (String.eqb_spec k' k); [contradiction|].
      apply IH. exact Hrest.
Qed.

Lemma merge_into_nonempty (item : Item) (stacks merged : list Item) :
  merge_into stacks item = Some merged -> merged <> [].
Proof.
  destruct stacks as [|existing rest]; cbn [merge_into]; [discriminate|].
  destruct (Qlt_bool (Qabs (quality existing - quality item)) 0.05
            && negb (is_tool item)).
  - intros H. inversion H. discriminate.
  - destruct (merge_into rest item); [|discriminate].
    intros H. inversion H. discriminate.
Qed.

Lemma store_holds_type (inv : Inventory) (item : Item) :
  exists stacks,
    dict_get (items (store inv item)) (item_type item) = Some stacks
    /\ stacks <> [].
Proof.
  unfold store. cbn [set_items items]. rewrite dict_get_set_eq.
  eexists. split; [reflexivity|].
  destruct (merge_into (get_or (dict_get (items inv) (item_type item)) []) item)
    as [merged|] eqn:E.
  - exact (merge_into_nonempty item _ merged E).
  - intros H. apply app_eq_nil in H. destruct H as [_ H]. discriminate H.
Qed.

Lemma store_entry_other (inv : Inventory) (item : Item) (t : string) :
  t <> item_type item ->
  dict_get (items (store inv item)) t = dict_get (items inv) t.
Proof.
  intros Hne. unfold store. cbn [set_items items].
  apply dict_get_set_other. intros E. apply Hne. symmetry. exact E.
Qed.

(** X1.  [add] touches the item's own type only: a rejected item changes
    nothing, an accepted item leaves stacks under its type, and in every
    case the stacks of all other item types, the capacity and the owner
    are as before. *)
Theorem add_touches_only_own_type (inv : Inventory) (item : Item) :
  (fst (add inv item) = false -> snd (add inv item) = inv)
  /\ (fst (add inv item) = true ->
      exists stacks,
        dict_get (items (snd (add inv item))) (item_type item) = Some stacks
        /\ stacks <> [])
  /\ (forall t, t <> item_type item ->
                dict_get (items (snd (add inv item))) t = dict_get (items inv) t)
  /\ capacity (snd (add inv item)) = capacity inv
  /\ owner_type (snd (add inv item)) = owner_type inv.
Proof.
  unfold add.
  destruct (Qlt_bool (capacity inv) (total_weight inv + item_total_weight item)).
  - destruct (Qle_bool (capacity inv - total_weight inv) 0).
    + cbn [fst snd]. split; [reflexivity|]. split; [discriminate|].
      split; [reflexivity|]. split; reflexivity.
    + destruct (Qlt_bool _ 0.01); cbn [fst snd].
      * split; [reflexivity|]. split; [discriminate|].
        split; [reflexivity|]. split; reflexivity.
      * split; [discriminate|].
        split; [intros _; apply (store_holds_type inv (set_quantity item _))|].
        split; [|split; reflexivity].
        intros t Hne. apply (store_entry_other inv (set_quantity item _) t Hne).
  - cbn [fst snd]. split; [discriminate|].
    split; [intros _; apply store_holds_type|].
    split; [|split; reflexivity].
    intros t Hne. apply store_entry_other. exact Hne.
Qed.

(** *** Removal *)

(** What the loop of [remove] does to non-negative stacks: it never takes
    more than asked, leaves non-negative stacks, and accounts for every
    unit but a remainder of at most 0.001 dropped with a nearly empty
    stack. *)
Lemma remove_loop_accounts (fuel : nat) :
  forall (qty removed avg : Q) (stacks : list Item) (r a : Q) (stacks' : list Item),
    Forall (fun s => 0 <= quantity s) stacks ->
    removed <= qty ->
    remove_loop fuel qty removed avg stacks = Some (r, a, stacks') ->
    removed <= r /\ r <= qty
    /\ Forall (fun s => 0 <= quantity s) stacks'
    /\ exists loss,
        0 <= loss /\ loss <= 0.001
        /\ (r - removed) + stacks_quantity stacks' + loss == stacks_quantity stacks.
Proof.
  induction fuel as [|fuel IH]; intros qty removed avg stacks r a stacks' Hpos Hle Hrun.
  - discriminate.
  - cbn [remove_loop] in Hrun. destruct stacks as [|s rest].
    + inversion Hrun; subst.
      split; [lra|]. split; [lra|]. split; [constructor|].
      exists 0. split; [lra|]. split; [lra|]. ring.
    + destruct (Qlt_bool removed qty) eqn:Elt; qbool.
      * inversion Hpos as [|? ? Hs Hrest]; subst.
        set (take := Qmin (qty - removed) (quantity s)) in *.
        rewrite RemoveFacts.quantity_set_quantity in Hrun.
        assert (Htake : 0 <= take /\ take <= qty - removed /\ take <= quantity s).
        { destruct (Q.min_spec (qty - removed) (quantity s)) as [[H1 H2]|[H1 H2]];
            fold take in H2; repeat split; lra. }
        destruct Htake as (Ht0 & Htq & Hts).
        destruct (Qle_bool (quantity s - take) 0.001) eqn:Epop; qbool.
        -- assert (Hle' : removed + take <= qty) by lra.
           destruct (IH _ _ _ _ _ _ _ Hrest Hle' Hrun)
             as (H1 & H2 & H3 & loss & Hl0 & Hl1 & Hsum).
           split; [lra|]. split; [exact H2|]. split; [exact H3|].
           destruct (Qlt_le_dec take (quantity s)) as [Hpart|Hfull].
           ++ (* a partly taken stack is dropped: the request is met *)
              assert (Hmet : qty <= removed + take).
              { destruct (Q.min_spec (qty - removed) (quantity s)) as [[_ H5]|[H4 H5]];
                  fold take in H5; lra. }
              destruct fuel as [|fuel']; [discriminate|].
              rewrite RemoveFacts.remove_loop_done in Hrun by exact Hmet.
              inversion Hrun; subst.
              exists (quantity s - take). split; [lra|]. split; [exact Epop|].
              rewrite RemoveFacts.stacks_quantity_cons. ring.
           ++ exists loss. split; [exact Hl0|]. split; [exact Hl1|].
              rewrite RemoveFacts.stacks_quantity_cons.
              assert (Heq : take == quantity s) by lra.
              rewrite <- Hsum. rewrite <- Heq. ring.
        -- assert (Hmet : qty <= removed + take).
           { destruct (Q.min_spec (qty - removed) (quantity s)) as [[_ H5]|[H4 H5]];
               fold take in H5; lra. }
           destruct fuel as [|fuel']; [discriminate|].
           rewrite RemoveFacts.remove_loop_done in Hrun by exact Hmet.
           inversion Hrun; subst.
           split; [lra|]. split; [lra|]. split.
           ++ constructor; [cbn [set_quantity quantity]; lra | exact Hrest].
           ++ exists 0. split; [lra|]. split; [lra|].
              rewrite !RemoveFacts.stacks_quantity_cons.
              cbn [set_quantity quantity]. ring.
      * inversion Hrun; subst. split; [lra|]. split; [lra|].
        split; [exact Hpos|]. exists 0. split; [lra|]. split; [lra|]. ring.
Qed.

Lemma dict_get_del_other {V : Type} (d : dict V) (k k0 : string) :
  k <> k0 -> dict_get (dict_del d k) k0 = dict_get d k0.
Proof.
  intros Hne. induction d as [|[k' v] d IH]; cbn [dict_del dict_get].
  - reflexivity.
  - destruct (String.eqb_spec k' k) as [->|Hk]; cbn [dict_get].
    + destruct (String.eqb_spec k k0); [contradiction | reflexivity].
    + rewrite IH. reflexivity.
Qed.

Lemma set_items_same (inv : Inventory) : set_items inv (items inv) = inv.
Proof. destruct inv; reflexivity. Qed.

(** What a successful [remove] returns and leaves behind. *)
Lemma remove_some_accounts (inv inv' : Inventory) (t : string) (qty : Q)
      (stacks : list Item) (moved : Item) :
  NoDup (dict_keys (items inv)) ->
  dict_get (items inv) t = Some stacks ->
  Forall (fun s => 0 <= quantity s) stacks ->
  remove inv t qty = (Some moved, inv') ->
  exists stacks' loss,
    item_type moved = t
    /\ 0 < quantity moved /\ quantity moved <= qty
    /\ Forall (fun s => 0 <= quantity s) stacks'
    /\ get_or (dict_get (items inv') t) [] = stacks'
    /\ 0 <= loss /\ loss <= 0.001
    /\ quantity moved + stacks_quantity stacks' + loss == stacks_quantity stacks
    /\ forall t', t' <> t -> dict_get (items inv') t' = dict_get (items inv) t'.
Proof.
  intros Hnd Hget Hpos Hrem. unfold remove in Hrem. rewrite Hget in Hrem.
  destruct (remove_loop (remove_fuel stacks) qty 0.0 0.0 stacks)
    as [[[r a] stacks']|] eqn:Hrun; [|discriminate].
  destruct (Qle_bool r 0) eqn:Er; [discriminate|]. qbool.
  assert (Hq : 0.0 <= qty).
  { destruct (Qlt_le_dec qty 0.0) as [Hneg|Hok]; [|exact Hok]. exfalso.
    unfold remove_fuel in Hrun.
    replace (List.length stacks + 2)%nat with (S (List.length stacks + 1)) in Hrun by lia.
    rewrite RemoveFacts.remove_loop_done in Hrun by lra.
    inversion Hrun; subst. lra. }
  destruct (remove_loop_accounts _ _ _ _ _ _ _ _ Hpos Hq Hrun)
    as (_ & Hle & Hpos' & loss & Hl0 & Hl1 & Hsum).
  inversion Hrem; subst moved inv'. clear Hrem.
  exists stacks', loss. cbn [plain_item item_type quantity].
  split; [reflexivity|]. split; [exact Er|]. split; [exact Hle|].
  split; [exact Hpos'|].
  split.
  { destruct stacks' as [|s0 rest0]; cbn [items set_items].
    - rewrite dict_get_del_eq by exact Hnd. reflexivity.
    - rewrite dict_get_set_eq. reflexivity. }
  split; [exact Hl0|]. split; [exact Hl1|]. split.
  { rewrite <- Hsum. ring. }
  intros t' Hne.
  destruct stacks' as [|s0 rest0]; cbn [items set_items].
  - apply dict_get_del_other. intro H. apply Hne. symmetry. exact H.
  - apply dict_get_set_other. intro H. apply Hne. symmetry. exact H.
Qed.

(** X2.  What [remove] hands over is an item of the requested type with
    a positive quantity; it leaves no stack of that type with a negative
    quantity and touches no other item type. *)
Theorem remove_hands_over_own_type (inv inv' : Inventory) (t : string) (qty : Q)
        (stacks : list Item) (moved : Item) :
  NoDup (dict_keys (items inv)) ->
  dict_get (items inv) t = Some stacks ->
  Forall (fun s => 0 <= quantity s) stacks ->
  remove inv t qty = (Some moved, inv') ->
  item_type moved = t
  /\ 0 < quantity moved
  /\ Forall (fun s => 0 <= quantity s) (get_or (dict_get (items inv') t) [])
  /\ forall t', t' <> t -> dict_get (items inv') t' = dict_get (items inv) t'.
Proof.
  intros Hnd Hget Hpos Hrem.
  destruct (remove_some_accounts _ _ _ _ _ _ Hnd Hget Hpos Hrem)
    as (stacks' & loss & Hty & Hq0 & _ & Hpos' & Hleft & _ & _ & _ & Hother).
  split; [exact Hty|]. split; [exact Hq0|].
  split; [rewrite Hleft; exact Hpos'|].
  exact Hother.
Qed.

(** X4.  Asking [remove] for an item type that is not held, or for a
    quantity that is not positive, returns nothing and leaves the
    inventory as it was. *)
Theorem remove_nothing (inv : Inventory) (t : string) (qty : Q) :
  dict_get (items inv) t = None \/ qty <= 0 ->
  remove inv t qty = (None, inv).
Proof.
  intros [Habsent|Hq]; unfold remove.
  - rewrite Habsent. reflexivity.
  - destruct (dict_get (items inv) t) as [stacks|] eqn:Hget; [|reflexivity].
    unfold remove_fuel.
    replace (List.length stacks + 2)%nat with (S (List.length stacks + 1)) by lia.
    rewrite RemoveFacts.remove_loop_done by lra.
    change (Qle_bool 0.0 0) with true. cbv iota.
    rewrite (dict_set_same_value _ _ _ Hget), set_items_same. reflexivity.
Qed.


Lemma remove_hands_over_own_type_witness :
  exists moved inv',
    remove InvFacts.stone_carrier "stone" 0.5 = (Some moved, inv')
    /\ item_type moved = "stone" /\ 0 < quantity moved.
Proof.
  destruct (remove InvFacts.stone_carrier "stone" 0.5) as [[moved|] inv'] eqn:E.
  - assert (Hk : NoDup (dict_keys (items InvFacts.stone_carrier))).
    { vm_compute. constructor; [intros [] | constructor]. }
    assert (Hq : Forall (fun s => 0 <= quantity s) [create_item "stone" 1 0.5]).
    { constructor; [vm_compute; discriminate | constructor]. }
    destruct (remove_hands_over_own_type InvFacts.stone_carrier inv' "stone" 0.5
                [create_item "stone" 1 0.5] moved Hk eq_refl Hq E)
      as (H1 & H2 & _).
    exists moved, inv'. split; [reflexivity|]. split; [exact H1 | exact H2].
  - vm_compute in E. discriminate.
Defined.

Lemma remove_nothing_witness :
  remove InvFacts.stone_carrier "grain" 1 = (None, InvFacts.stone_carrier)
  /\ remove InvFacts.stone_carrier "stone" 0 = (None, InvFacts.stone_carrier).
Proof.
  split.
  - apply remove_nothing. left. vm_compute. reflexivity.
  - apply remove_nothing. right. vm_compute. discriminate.
Defined.

End StockFacts.

(* ===================================================================== *)
(** ** Inventories: tools and spoilage *)

Module ToolFacts.
Import Inv Perish.

Definition functionalb (ttype : string) (it : Item) : bool :=
  match tool_type it with
  | Some ttype' => String.eqb ttype' ttype && Qlt_bool 0 (current_durability it)
  | None => false
  end.

Lemma functionalb_spec (ttype : string) (it : Item) :
  functionalb ttype it = true <-> functional_tool ttype it.
Proof.
  unfold functionalb, functional_tool.
  destruct (tool_type it) as [ttype'|].
  - rewrite andb_true_iff, Qlt_bool_true. split.
    + intros [He Hd]. apply String.eqb_eq in He. subst. split; [reflexivity | exact Hd].
    + intros [He Hd]. inversion He; subst. split; [apply String.eqb_refl | exact Hd].
  - split; [discriminate | intros [He _]; discriminate].
Qed.

Lemma better_tool_unfold (ttype : string) (best : option Item) (it : Item) :
  better_tool ttype best it
  = if functionalb ttype it then
      match best with
      | None => Some it
      | Some b => if Qlt_bool (tool_quality b) (tool_quality it)
                  then Some it else best
      end
    else best.
Proof.
  unfold better_tool, functionalb. destruct (tool_type it); reflexivity.
Qed.

(** The nested loops of [get_best_tool] walk every stack once. *)
Lemma get_best_tool_flat (inv : Inventory) (ttype : string) :
  get_best_tool inv ttype = fold_left (better_tool ttype) (all_stacks inv) None.
Proof.
  unfold get_best_tool, all_stacks. generalize (@None Item).
  induction (items inv) as [|[k stacks] d IH]; intros best; cbn [fold_left flat_map snd].
  - reflexivity.
  - rewrite fold_left_app. apply IH.
Qed.

(** The invariant of the scan: [best] is a functional tool among the
    stacks seen so far, at least as good as every functional tool seen. *)
Definition best_so_far (ttype : string) (seen : list Item) (best : option Item) : Prop :=
  match best with
  | None => forall it, In it seen -> functionalb ttype it = false
  | Some b =>
      In b seen /\ functionalb ttype b = true
      /\ forall it, In it seen -> functionalb ttype it = true ->
                    tool_quality it <= tool_quality b
  end.

Lemma better_tool_keeps (ttype : string) (l : list Item) :
  forall (seen : list Item) (best : option Item),
    best_so_far ttype seen best ->
    best_so_far ttype (seen ++ l) (fold_left (better_tool ttype) l best).
Proof.
  induction l as [|it l IH]; intros seen best Hinv; cbn [fold_left].
  - rewrite app_nil_r. exact Hinv.
  - replace (seen ++ it :: l) with ((seen ++ [it]) ++ l)
      by (rewrite <- app_assoc; reflexivity).
    apply IH. rewrite better_tool_unfold.
    destruct (functionalb ttype it) eqn:Ef.
    + destruct best as [b|].
      * destruct Hinv as (Hin & Hb & Hmax).
        destruct (Qlt_bool (tool_quality b) (tool_quality it)) eqn:Eq; qbool.
        -- split; [apply in_or_app; right; left; reflexivity|].
           split; [exact Ef|].
           intros x Hx Hfx. apply in_app_or in Hx. destruct Hx as [Hx|[<-|[]]].
           ++ apply Qle_trans with (tool_quality b);
                [apply Hmax; assumption | apply Qlt_le_weak; exact Eq].
           ++ apply Qle_refl.
        -- split; [apply in_or_app; left; exact Hin|].
           split; [exact Hb|].
           intros x Hx Hfx. apply in_app_or in Hx. destruct Hx as [Hx|[<-|[]]].
           ++ apply Hmax; assumption.
           ++ exact Eq.
      * cbn [best_so_far] in *.
        split; [apply in_or_app; right; left; reflexivity|].
        split; [exact Ef|].
        intros x Hx Hfx. apply in_app_or in Hx. destruct Hx as [Hx|[<-|[]]].
        -- rewrite (Hinv x Hx) in Hfx. discriminate.
        -- apply Qle_refl.
    + destruct best as [b|].
      * destruct Hinv as (Hin & Hb & Hmax).
        split; [apply in_or_app; left; exact Hin|].
        split; [exact Hb|].
        intros x Hx Hfx. apply in_app_or in Hx. destruct Hx as [Hx|[<-|[]]].
        -- apply Hmax; assumption.
        -- rewrite Ef in Hfx. discriminate.
      * cbn [best_so_far] in *.
        intros x Hx. apply in_app_or in Hx. destruct Hx as [Hx|[<-|[]]].
        -- apply Hinv. exact Hx.
        -- exact Ef.
Qed.

Lemma get_best_tool_invariant (inv : Inventory) (ttype : string) :
  best_so_far ttype (all_stacks inv) (get_best_tool inv ttype).
Proof.
  rewrite get_best_tool_flat.
  apply (better_tool_keeps ttype (all_stacks inv) [] None).
  intros it [].
Qed.

(** X5.  [get_best_tool] returns a stack of the inventory that is a
    working tool of the requested type and whose effective quality no
    other working tool of that type exceeds; it returns nothing exactly
    when the inventory holds no working tool of that type. *)
Theorem get_best_tool_is_best (inv : Inventory) (ttype : string) :
  (forall b, get_best_tool inv ttype = Some b ->
             In b (all_stacks inv) /\ functional_tool ttype b
             /\ forall it, In it (all_stacks inv) -> functional_tool ttype it ->
                           tool_quality it <= tool_quality b)
  /\ (get_best_tool inv ttype = None <->
      forall it, In it (all_stacks inv) -> ~ functional_tool ttype it).
Proof.
  pose proof (get_best_tool_invariant inv ttype) as Hinv.
  split.
  - intros b Hb. rewrite Hb in Hinv. destruct Hinv as (Hin & Hf & Hmax).
    split; [exact Hin|]. split; [apply functionalb_spec; exact Hf|].
    intros it Hit Hfit. apply Hmax; [exact Hit | apply functionalb_spec; exact Hfit].
  - destruct (get_best_tool inv ttype) as [b|].
    + destruct Hinv as (Hin & Hf & _). split; [discriminate|].
      intros Hnone. exfalso. apply (Hnone b Hin). apply functionalb_spec. exact Hf.
    + split; [|reflexivity]. intros _ it Hit Hf.
      apply functionalb_spec in Hf. rewrite (Hinv it Hit) in Hf. discriminate.
Qed.

(** A tool is never merged into another stack: it ends up as a stack of
    its own. *)
Lemma merge_into_tool (stacks : list Item) (item : Item) :
  is_tool item = true -> merge_into stacks item = None.
Proof.
  intros Htool. induction stacks as [|e rest IH]; cbn [merge_into]; [reflexivity|].
  rewrite Htool. cbn [negb]. rewrite andb_false_r, IH. reflexivity.
Qed.

Lemma in_all_stacks (d : dict (list Item)) (k : string) (stacks : list Item) (it : Item) :
  dict_get d k = Some stacks -> In it stacks -> In it (flat_map snd d).
Proof.
  induction d as [|[k' v] d IH]; cbn [dict_get flat_map snd]; intros Hget Hin.
  - discriminate.
  - apply in_or_app. destruct (String.eqb k' k).
    + inversion Hget; subst. left. exact Hin.
    + right. apply IH; assumption.
Qed.

Lemma store_tool_present (inv : Inventory) (item : Item) :
  is_tool item = true -> In item (all_stacks (store inv item)).
Proof.
  intros Htool. unfold all_stacks, store. cbn [items set_items].
  rewrite merge_into_tool by exact Htool.
  eapply in_all_stacks.
  - apply StockFacts.dict_get_set_eq.
  - apply in_or_app. right. left. reflexivity.
Qed.

(** X6.  A working tool that [add] accepts can be found afterwards:
    [has_tool_type] answers True for its type. *)
Theorem added_tool_is_found (inv : Inventory) (item : Item) (ttype : string) :
  functional_tool ttype item ->
  fst (add inv item) = true ->
  has_tool_type (snd (add inv item)) ttype = true.
Proof.
  intros Hf Hadd.
  assert (Htool : is_tool item = true).
  { destruct Hf as [Hty _]. unfold is_tool, tool_type, get_tool_type in *.
    rewrite Hty. reflexivity. }
  assert (Hfound : forall q,
             has_tool_type (store inv (set_quantity item q)) ttype = true).
  { intros q. unfold has_tool_type.
    pose proof (get_best_tool_invariant (store inv (set_quantity item q)) ttype) as Hinv.
    destruct (get_best_tool _ ttype) as [b|]; [reflexivity|].
    exfalso. cbn [best_so_far] in Hinv.
    assert (Hin : In (set_quantity item q)
                     (all_stacks (store inv (set_quantity item q))))
      by (apply store_tool_present; exact Htool).
    specialize (Hinv _ Hin).
    assert (Hfq : functionalb ttype (set_quantity item q) = true)
      by (apply functionalb_spec; exact Hf).
    congruence. }
  unfold add in *.
  destruct (Qlt_bool (capacity inv) (total_weight inv + item_total_weight item)).
  - destruct (Qle_bool (capacity inv - total_weight inv) 0); [discriminate|].
    destruct (Qlt_bool _ 0.01); [discriminate|].
    cbn [snd]. apply Hfound.
  - cbn [snd].
    replace item with (set_quantity item (quantity item)) at 1
      by (destruct item; reflexivity).
    apply Hfound.
Qed.

(** *** Spoilage *)

Lemma filter_split_perm {A : Type} (p : A -> bool) (l : list A) :
  Permutation (filter p l ++ filter (fun x => negb (p x)) l) l.
Proof.
  induction l as [|x l IH]; cbn [filter]; [apply perm_nil|].
  destruct (p x); cbn [negb app].
  - apply perm_skip. exact IH.
  - apply Permutation_sym. apply Permutation_cons_app.
    apply Permutation_sym. exact IH.
Qed.

Lemma perish_entries_stacks (d : dict (list Item)) :
  Permutation (fst (perish_entries d) ++ flat_map snd (snd (perish_entries d)))
              (map age_one_day (flat_map snd d)).
Proof.
  induction d as [|[k stacks] d IH]; cbn [perish_entries flat_map snd].
  - apply perm_nil.
  - destruct (perish_entries d) as [spoiled_rest rest'] eqn:E.
    cbn [fst snd] in *. rewrite map_app.
    set (aged := map age_one_day stacks).
    pose proof (filter_split_perm is_spoiled aged) as Hsplit.
    remember (filter (fun it => negb (is_spoiled it)) aged) as surv eqn:Es.
    assert (Hgoal : Permutation
                      ((filter is_spoiled aged ++ spoiled_rest)
                       ++ (surv ++ flat_map snd rest'))
                      (aged ++ map age_one_day (flat_map snd d))).
    { apply perm_trans with
        ((filter is_spoiled aged ++ surv) ++ (spoiled_rest ++ flat_map snd rest')).
      - rewrite <- !app_assoc. apply Permutation_app_head.
        rewrite !app_assoc. apply Permutation_app_tail. apply Permutation_app_comm.
      - apply Permutation_app; [exact Hsplit | exact IH]. }
    destruct surv; exact Hgoal.
Qed.

Lemma perish_entries_sorted_out (d : dict (list Item)) :
  Forall (fun it => is_spoiled it = true) (fst (perish_entries d))
  /\ Forall (fun it => is_spoiled it = false) (flat_map snd (snd (perish_entries d)))
  /\ Forall (fun kv => snd kv <> []) (snd (perish_entries d)).
Proof.
  induction d as [|[k stacks] d IH]; cbn [perish_entries flat_map snd].
  - repeat split; constructor.
  - destruct (perish_entries d) as [spoiled_rest rest'] eqn:E.
    cbn [fst snd] in *. destruct IH as (Hsp & Hsurv & Hne).
    set (aged := map age_one_day stacks).
    split; [|split].
    + apply Forall_app. split; [|exact Hsp].
      apply Forall_forall. intros it Hit. apply filter_In in Hit. apply Hit.
    + assert (Hkeep : Forall (fun it => is_spoiled it = false)
                             (filter (fun it => negb (is_spoiled it)) aged)).
      { apply Forall_forall. intros it Hit. apply filter_In in Hit.
        destruct Hit as [_ Hit]. apply negb_true_iff. exact Hit. }
      destruct (filter (fun it => negb (is_spoiled it)) aged) as [|s0 more] eqn:Ef.
      * exact Hsurv.
      * cbn [flat_map snd]. apply Forall_app. split; assumption.
    + destruct (filter (fun it => negb (is_spoiled it)) aged) as [|s0 more] eqn:Ef.
      * exact Hne.
      * constructor; [cbn [snd]; discriminate | exact Hne].
Qed.

Lemma is_spoiled_spec (it : Item) :
  (is_spoiled it = true <->
   is_perishable it = true /\ (perish_days it <= days_since_created it)%Z)
  /\ (is_spoiled it = false <->
      is_perishable it = false \/ (days_since_created it < perish_days it)%Z).
Proof.
  unfold is_spoiled. split.
  - rewrite andb_true_iff, Z.leb_le. reflexivity.
  - rewrite andb_false_iff, Z.leb_gt. reflexivity.
Qed.

(** X7.  [daily_perish] ages every stack by one day and sorts the aged
    stacks into two piles, losing none: the two piles together are
    exactly the stacks of before with their age raised by one and nothing
    else changed; every returned item is perishable and has reached its
    shelf life, no stack left in the inventory has; and no item type is
    left with an empty stack list. *)
Theorem daily_perish_partitions (inv : Inventory) :
  Permutation (fst (daily_perish inv) ++ all_stacks (snd (daily_perish inv)))
              (map (fun it => mkItem (item_type it) (quantity it) (quality it)
                                     (days_since_created it + 1)%Z
                                     (current_durability it) (max_durability it))
                   (all_stacks inv))
  /\ Forall (fun it => is_perishable it = true
                       /\ (perish_days it <= days_since_created it)%Z)
            (fst (daily_perish inv))
  /\ Forall (fun it => is_perishable it = false
                       \/ (days_since_created it < perish_days it)%Z)
            (all_stacks (snd (daily_perish inv)))
  /\ Forall (fun kv => snd kv <> []) (items (snd (daily_perish inv)))
  /\ capacity (snd (daily_perish inv)) = capacity inv.
Proof.
  pose proof (perish_entries_sorted_out (items inv)) as (Hsp & Hsurv & Hne).
  pose proof (perish_entries_stacks (items inv)) as Hperm.
  unfold daily_perish.
  destruct (perish_entries (items inv)) as [spoiled d] eqn:E.
  cbn [fst snd] in *. unfold all_stacks in *. cbn [items set_items capacity].
  split; [exact Hperm|].
  split.
  { revert Hsp. apply Forall_impl. intros it H.
    apply (proj1 (proj1 (is_spoiled_spec it)) H). }
  split.
  { revert Hsurv. apply Forall_impl. intros it H.
    apply (proj1 (proj2 (is_spoiled_spec it)) H). }
  split; [exact Hne | reflexivity].
Qed.


Lemma added_tool_is_found_witness :
  has_tool_type DecisionFacts.axe_only "axe" = true.
Proof.
  apply (added_tool_is_found (new_inventory 30.0)
                             (create_item "stone_axe" 1 0.5) "axe").
  - split; vm_compute; reflexivity.
  - vm_compute. reflexivity.
Defined.

End ToolFacts.

(* ===================================================================== *)
(** ** Trade execution: what a short side hands over *)

Module TransferFacts.
Import Inv Trade.

(** What the transfer of [q] units of [t] from [src] to [dst] does when
    [src] holds less than [q]: [st] is the store before the trade,
    [st_at] the store when the transfer of [t] starts and [st'] the store
    after the trade.  The item handed over carries all that [src] held,
    which is less than [q]; [src] is left with no entry for [t]; [dst]
    ends with what [add] makes of that item, which is the item alone when
    [dst] held no [t] and the code's capacity test lets it in whole. *)
Definition handed_over (src dst : ref) (st st_at st' : Store)
           (t : string) (q : Q) : Prop :=
  exists moved : Item,
    fst (remove (st src) t q) = Some moved
    /\ item_type moved = t
    /\ quantity moved == total_of (st src) t
    /\ quantity moved < q
    /\ dict_get (items (st' src)) t = None
    /\ dict_get (items (st_at dst)) t = dict_get (items (st dst)) t
    /\ capacity (st_at dst) = capacity (st dst)
    /\ dict_get (items (st' dst)) t
       = dict_get (items (snd (add (st_at dst) moved))) t
    /\ (dict_get (items (st dst)) t = None ->
        Qlt_bool (capacity (st_at dst))
                 (total_weight (st_at dst) + item_total_weight moved) = false ->
        dict_get (items (st' dst)) t = Some [moved]).

(** *** Keys of a dictionary under [dict_set] and [dict_del] *)

Lemma dict_set_keys_in {V : Type} (d : dict V) (k x : string) (v : V) :
  In x (dict_keys (dict_set d k v)) -> x = k \/ In x (dict_keys d).
Proof.
  induction d as [|[k' v'] d IH]; cbn [dict_set dict_keys map fst].
  - intros [<-|[]]. left. reflexivity.
  - destruct (String.eqb k' k); cbn [map fst].
    + intros H. right. exact H.
    + intros [<-|H]; [right; left; reflexivity|].
      destruct (IH H) as [->|Hin]; [left; reflexivity | right; right; exact Hin].
Qed.

Lemma dict_set_keys_NoDup {V : Type} (d : dict V) (k : string) (v : V) :
  NoDup (dict_keys d) -> NoDup (dict_keys (dict_set d k v)).
Proof.
  induction d as [|[k' v'] d IH]; cbn [dict_set dict_keys map fst]; intros Hnd.
  - constructor; [intros [] | constructor].
  - inversion Hnd as [|? ? Hnin Hnd']; subst.
    destruct (String.eqb_spec k' k) as [->|Hne]; cbn [map fst].
    + constructor; assumption.
    + constructor; [|apply IH; exact Hnd'].
      intros Hin. destruct (dict_set_keys_in d k k' v Hin) as [->|Hin'];
        [apply Hne; reflexivity | exact (Hnin Hin')].
Qed.

Lemma dict_del_keys_in {V : Type} (d : dict V) (k x : string) :
  In x (dict_keys (dict_del d k)) -> In x (dict_keys d).
Proof.
  induction d as [|[k' v'] d IH]; cbn [dict_del dict_keys map fst].
  - intros [].
  - destruct (String.eqb k' k); cbn [map fst].
    + intros H. right. exact H.
    + intros [<-|H]; [left; reflexivity | right; exact (IH H)].
Qed.

Lemma dict_del_keys_NoDup {V : Type} (d : dict V) (k : string) :
  NoDup (dict_keys d) -> NoDup (dict_keys (dict_del d k)).
Proof.
  induction d as [|[k' v'] d IH]; cbn [dict_del dict_keys map fst]; intros Hnd.
  - constructor.
  - inversion Hnd as [|? ? Hnin Hnd']; subst.
    destruct (String.eqb k' k); cbn [map fst]; [exact Hnd'|].
    constructor; [|apply IH; exact Hnd'].
    intros Hin. exact (Hnin (dict_del_keys_in d k k' Hin)).
Qed.

(** *** [remove] and [add] on the entries of other item types *)

Lemma remove_keeps_other (inv : Inventory) (t t' : string) (q : Q) :
  t' <> t ->
  dict_get (items (snd (remove inv t q))) t' = dict_get (items inv) t'.
Proof.
  intros Hne.
  assert (Hne' : t <> t') by (intros E; apply Hne; symmetry; exact E).
  unfold remove.
  destruct (dict_get (items inv) t) as [stacks|]; [|reflexivity].
  destruct (remove_loop (remove_fuel stacks) q 0.0 0.0 stacks)
    as [[[r a] stacks']|]; [|reflexivity].
  destruct (Qle_bool r 0); cbn [snd set_items items].
  - apply StockFacts.dict_get_set_other. exact Hne'.
  - destruct stacks'.
    + apply StockFacts.dict_get_del_other. exact Hne'.
    + apply StockFacts.dict_get_set_other. exact Hne'.
Qed.

Lemma remove_keeps_NoDup (inv : Inventory) (t : string) (q : Q) :
  NoDup (dict_keys (items inv)) ->
  NoDup (dict_keys (items (snd (remove inv t q)))).
Proof.
  intros Hnd. unfold remove.
  destruct (dict_get (items inv) t) as [stacks|]; [|exact Hnd].
  destruct (remove_loop (remove_fuel stacks) q 0.0 0.0 stacks)
    as [[[r a] stacks']|]; [|exact Hnd].
  destruct (Qle_bool r 0); cbn [snd set_items items].
  - apply dict_set_keys_NoDup. exact Hnd.
  - destruct stacks'.
    + apply dict_del_keys_NoDup. exact Hnd.
    + apply dict_set_keys_NoDup. exact Hnd.
Qed.

Lemma remove_keeps_capacity (inv : Inventory) (t : string) (q : Q) :
  capacity (snd (remove inv t q)) = capacity inv.
Proof.
  unfold remove.
  destruct (dict_get (items inv) t) as [stacks|]; [|reflexivity].
  destruct (remove_loop (remove_fuel stacks) q 0.0 0.0 stacks)
    as [[[r a] stacks']|]; [|reflexivity].
  destruct (Qle_bool r 0); [reflexivity|].
  destruct stacks'; reflexivity.
Qed.

(** The item [remove] returns depends on the stacks of its type only. *)
Lemma remove_result_from_stacks (inv1 inv2 : Inventory) (t : string) (q : Q) :
  dict_get (items inv1) t = dict_get (items inv2) t ->
  fst (remove inv1 t q) = fst (remove inv2 t q).
Proof.
  intros E. unfold remove. rewrite E.
  destruct (dict_get (items inv2) t) as [stacks|]; [|reflexivity].
  destruct (remove_loop (remove_fuel stacks) q 0.0 0.0 stacks)
    as [[[r a] stacks']|]; [|reflexivity].
  destruct (Qle_bool r 0); [reflexivity|].
  destruct stacks'; reflexivity.
Qed.

Lemma remove_item_type (inv : Inventory) (t : string) (q : Q) (it : Item) :
  fst (remove inv t q) = Some it -> item_type it = t.
Proof.
  unfold remove.
  destruct (dict_get (items inv) t) as [stacks|]; [|discriminate].
  destruct (remove_loop (remove_fuel stacks) q 0.0 0.0 stacks)
    as [[[r a] stacks']|]; [|discriminate].
  destruct (Qle_bool r 0); [discriminate|].
  cbn [fst]. intros H. inversion H. reflexivity.
Qed.

Lemma add_keeps_other (inv : Inventory) (it : Item) (t' : string) :
  t' <> item_type it ->
  dict_get (items (snd (add inv it))) t' = dict_get (items inv) t'.
Proof.
  intros Hne. unfold add.
  destruct (Qlt_bool (capacity inv) (total_weight inv + item_total_weight it)).
  - destruct (Qle_bool (capacity inv - total_weight inv) 0); [reflexivity|].
    destruct (Qlt_bool _ 0.01); [reflexivity|].
    cbn [snd]. apply StockFacts.store_entry_other. exact Hne.
  - cbn [snd]. apply StockFacts.store_entry_other. exact Hne.
Qed.

Lemma add_keeps_NoDup (inv : Inventory) (it : Item) :
  NoDup (dict_keys (items inv)) ->
  NoDup (dict_keys (items (snd (add inv it)))).
Proof.
  intros Hnd. unfold add.
  destruct (Qlt_bool (capacity inv) (total_weight inv + item_total_weight it)).
  - destruct (Qle_bool (capacity inv - total_weight inv) 0); [exact Hnd|].
    destruct (Qlt_bool _ 0.01); [exact Hnd|].
    cbn [snd]. unfold store. cbn [set_items items].
    apply dict_set_keys_NoDup. exact Hnd.
  - cbn [snd]. unfold store. cbn [set_items items].
    apply dict_set_keys_NoDup. exact Hnd.
Qed.

Lemma add_keeps_capacity (inv : Inventory) (it : Item) :
  capacity (snd (add inv it)) = capacity inv.
Proof.
  unfold add.
  destruct (Qlt_bool (capacity inv) (total_weight inv + item_total_weight it)).
  - destruct (Qle_bool (capacity inv - total_weight inv) 0); [reflexivity|].
    destruct (Qlt_bool _ 0.01); reflexivity.
  - reflexivity.
Qed.

(** *** The store *)

Lemma store_set_same (st : Store) (r : ref) (inv : Inventory) :
  store_set st r inv r = inv.
Proof. unfold store_set. rewrite Nat.eqb_refl. reflexivity. Qed.

Lemma store_set_other (st : Store) (r r' : ref) (inv : Inventory) :
  r' <> r -> store_set st r inv r' = st r'.
Proof.
  intros Hne. unfold store_set.
  destruct (Nat.eqb_spec r' r); [contradiction | reflexivity].
Qed.


(** *** One transfer and a whole direction, inventory by inventory *)

(** Whatever relation between an inventory before and after is kept by
    [remove] and by [add] of the item types concerned is kept by a
    transfer, for every inventory of the store. *)
Lemma transfer_one_rel (R : Inventory -> Inventory -> Prop)
      (src dst : ref) (st : Store) (kv : string * Q) :
  (forall inv, R inv inv) ->
  (forall a b c, R a b -> R b c -> R a c) ->
  (forall inv, R inv (snd (remove inv (fst kv) (snd kv)))) ->
  (forall inv it, item_type it = fst kv -> R inv (snd (add inv it))) ->
  forall r, R (st r) (transfer_one src dst st kv r).
Proof.
  intros Hrefl Htrans Hrem Hadd r. unfold transfer_one.
  pose proof (Hrem (st src)) as Hsrc.
  pose proof (remove_item_type (st src) (fst kv) (snd kv)) as Htype.
  destruct (remove (st src) (fst kv) (snd kv)) as [removed src_inv].
  cbn [fst snd] in Hsrc, Htype.
  assert (Hmid : R (st r) (store_set st src src_inv r)).
  { unfold store_set. destruct (Nat.eqb_spec r src) as [->|Hne];
      [exact Hsrc | apply Hrefl]. }
  destruct removed as [it|]; [|exact Hmid].
  unfold store_set at 1.
  destruct (Nat.eqb_spec r dst) as [->|Hne]; [|exact Hmid].
  apply (Htrans _ _ _ Hmid). apply Hadd. apply Htype. reflexivity.
Qed.

Lemma transfer_rel (R : Inventory -> Inventory -> Prop)
      (src dst : ref) (committed : dict Q) :
  (forall inv, R inv inv) ->
  (forall a b c, R a b -> R b c -> R a c) ->
  (forall kv, In kv committed ->
              forall inv, R inv (snd (remove inv (fst kv) (snd kv)))) ->
  (forall kv, In kv committed ->
              forall inv it, item_type it = fst kv -> R inv (snd (add inv it))) ->
  forall st r, R (st r) (transfer src dst st committed r).
Proof.
  intros Hrefl Htrans. unfold transfer.
  induction committed as [|kv rest IH]; intros Hrem Hadd st r; cbn [fold_left].
  - apply Hrefl.
  - apply (Htrans _ (transfer_one src dst st kv r)).
    + apply transfer_one_rel; try assumption.
      * apply Hrem. left. reflexivity.
      * apply Hadd. left. reflexivity.
    + apply IH.
      * intros kv' Hin. apply Hrem. right. exact Hin.
      * intros kv' Hin. apply Hadd. right. exact Hin.
Qed.

(** A direction that does not commit [t] leaves every entry for [t]. *)
Lemma transfer_keeps_entry (src dst : ref) (committed : dict Q) (t : string) :
  ~ In t (dict_keys committed) ->
  forall st r,
    dict_get (items (transfer src dst st committed r)) t
    = dict_get (items (st r)) t.
Proof.
  intros Hnin.
  assert (Hkey : forall kv, In kv committed -> t <> fst kv).
  { intros kv Hin E. apply Hnin. rewrite E. unfold dict_keys.
    apply in_map. exact Hin. }
  apply (transfer_rel
           (fun a b => dict_get (items b) t = dict_get (items a) t)).
  - reflexivity.
  - intros a b c Hab Hbc. rewrite Hbc. exact Hab.
  - intros kv Hin inv. apply remove_keeps_other. apply Hkey. exact Hin.
  - intros kv Hin inv it Hit. apply add_keeps_other. rewrite Hit.
    apply Hkey. exact Hin.
Qed.

Lemma transfer_keeps_NoDup (src dst : ref) (committed : dict Q) :
  forall st r,
    NoDup (dict_keys (items (st r))) ->
    NoDup (dict_keys (items (transfer src dst st committed r))).
Proof.
  apply (transfer_rel
           (fun a b => NoDup (dict_keys (items a)) ->
                       NoDup (dict_keys (items b)))).
  - intros inv H. exact H.
  - intros a b c Hab Hbc H. apply Hbc, Hab, H.
  - intros kv _ inv. apply remove_keeps_NoDup.
  - intros kv _ inv it _. apply add_keeps_NoDup.
Qed.

Lemma transfer_keeps_capacity (src dst : ref) (committed : dict Q) :
  forall st r, capacity (transfer src dst st committed r) = capacity (st r).
Proof.
  apply (transfer_rel (fun a b => capacity b = capacity a)).
  - reflexivity.
  - intros a b c Hab Hbc. rewrite Hbc. exact Hab.
  - intros kv _ inv. apply remove_keeps_capacity.
  - intros kv _ inv it _. apply add_keeps_capacity.
Qed.

(** *** A side that holds less than it committed *)

(** Asked for more than it holds of [t], [remove] hands over all of it
    and deletes the entry. *)
Lemma remove_all_of_it (inv : Inventory) (t : string) (q : Q)
      (stacks : list Item) :
  NoDup (dict_keys (items inv)) ->
  dict_get (items inv) t = Some stacks ->
  Forall (fun s => 0 <= quantity s) stacks ->
  0 < stacks_quantity stacks ->
  stacks_quantity stacks < q ->
  exists moved,
    fst (remove inv t q) = Some moved
    /\ item_type moved = t
    /\ quantity moved == stacks_quantity stacks
    /\ dict_get (items (snd (remove inv t q))) t = None.
Proof.
  intros Hnd Hget Hpos Hsome Hshort. unfold remove. rewrite Hget.
  destruct (RemoveFacts.remove_loop_takes_all
              stacks (remove_fuel stacks) q 0.0 0.0)
    as (r & a & Hrun & Hr).
  - unfold remove_fuel. lia.
  - exact Hpos.
  - lra.
  - rewrite Hrun.
    assert (E : Qle_bool r 0 = false) by (apply Qle_bool_false; lra).
    rewrite E. cbn [fst snd set_items items].
    exists (plain_item t r a).
    split; [reflexivity|]. split; [reflexivity|].
    split; [cbn [plain_item quantity]; lra|].
    apply StockFacts.dict_get_del_eq. exact Hnd.
Qed.

Lemma holds_all_in (inv : Inventory) (committed : dict Q) (t : string) (q : Q) :
  holds_all inv committed = true ->
  In (t, q) committed ->
  q * 0.99 <= total_of inv t.
Proof.
  intros Hall Hin.
  destruct (Qlt_le_dec (total_of inv t) (q * 0.99)) as [Hlt|Hle]; [|exact Hle].
  assert (Hfalse : holds_all inv committed = false).
  { apply ExecutionFacts.holds_all_false. exists t, q. split; assumption. }
  rewrite Hall in Hfalse. discriminate.
Qed.

(** A side within the tolerance but short of the committed quantity holds
    a positive amount, in stacks listed under the item type. *)
Lemma short_side_holds_some (inv : Inventory) (t : string) (q : Q) :
  q * 0.99 <= total_of inv t ->
  total_of inv t < q ->
  exists stacks,
    dict_get (items inv) t = Some stacks
    /\ total_of inv t = stacks_quantity stacks
    /\ 0 < stacks_quantity stacks.
Proof.
  intros Hlo Hhi.
  assert (Hq : 0 < q) by lra.
  assert (Hpos : 0 < total_of inv t) by lra.
  unfold total_of in *.
  destruct (dict_get (items inv) t) as [stacks|].
  - exists stacks. split; [reflexivity|]. split; [reflexivity | exact Hpos].
  - exfalso. revert Hpos. apply Qle_not_lt. discriminate.
Qed.


Lemma keys_split_absent (pre post : dict Q) (t : string) (q : Q) :
  NoDup (dict_keys (pre ++ (t, q) :: post)) ->
  ~ In t (dict_keys pre) /\ ~ In t (dict_keys post).
Proof.
  unfold dict_keys. rewrite map_app. cbn [map fst]. intros Hnd.
  apply NoDup_remove_2 in Hnd. split; intros Hin; apply Hnd; apply in_or_app.
  - left. exact Hin.
  - right. exact Hin.
Qed.

(** One direction of the exchange, with [src] short of the committed
    quantity of [t]. *)
Lemma transfer_hands_over (src dst : ref) (st : Store) (pre post : dict Q)
      (t : string) (q : Q) (stacks : list Item) :
  src <> dst ->
  NoDup (dict_keys (pre ++ (t, q) :: post)) ->
  NoDup (dict_keys (items (st src))) ->
  dict_get (items (st src)) t = Some stacks ->
  Forall (fun s => 0 <= quantity s) stacks ->
  0 < stacks_quantity stacks ->
  stacks_quantity stacks < q ->
  handed_over src dst st (transfer src dst st pre)
              (transfer src dst st (pre ++ (t, q) :: post)) t q.
Proof.
  intros Hne Hkeys Hnd Hget Hpos Hsome Hshort.
  destruct (keys_split_absent pre post t q Hkeys) as [Hpre Hpost].
  set (st_at := transfer src dst st pre).
  assert (Hat_src : dict_get (items (st_at src)) t = Some stacks).
  { unfold st_at. rewrite (transfer_keeps_entry src dst pre t Hpre). exact Hget. }
  assert (Hat_dst : dict_get (items (st_at dst)) t = dict_get (items (st dst)) t).
  { unfold st_at. apply (transfer_keeps_entry src dst pre t Hpre). }
  assert (Hat_nd : NoDup (dict_keys (items (st_at src)))).
  { unfold st_at. apply transfer_keeps_NoDup. exact Hnd. }
  assert (Hat_cap : capacity (st_at dst) = capacity (st dst)).
  { unfold st_at. apply transfer_keeps_capacity. }
  destruct (remove_all_of_it (st_at src) t q stacks Hat_nd Hat_src Hpos
                             Hsome Hshort)
    as (moved & Hmoved & Htype & Hqty & Hgone).
  assert (Hsplit : transfer src dst st (pre ++ (t, q) :: post)
                   = transfer src dst (transfer_one src dst st_at (t, q)) post).
  { unfold transfer, st_at. rewrite fold_left_app. reflexivity. }
  assert (Hstep_src : dict_get (items (transfer_one src dst st_at (t, q) src)) t
                      = None).
  { unfold transfer_one. cbn [fst snd].
    destruct (remove (st_at src) t q) as [removed src_inv] eqn:E.
    cbn [fst snd] in Hmoved, Hgone. subst removed.
    rewrite store_set_other by exact Hne.
    rewrite store_set_same. exact Hgone. }
  assert (Hstep_dst : transfer_one src dst st_at (t, q) dst
                      = snd (add (st_at dst) moved)).
  { unfold transfer_one. cbn [fst snd].
    destruct (remove (st_at src) t q) as [removed src_inv] eqn:E.
    cbn [fst] in Hmoved. subst removed.
    rewrite store_set_same.
    rewrite store_set_other by (intros E'; apply Hne; symmetry; exact E').
    reflexivity. }
  assert (Hafter_dst : dict_get (items (transfer src dst st (pre ++ (t, q) :: post)
                                                 dst)) t
                       = dict_get (items (snd (add (st_at dst) moved))) t).
  { rewrite Hsplit, (transfer_keeps_entry src dst post t Hpost), Hstep_dst.
    reflexivity. }
  exists moved.
  split.
  { rewrite <- Hmoved. apply remove_result_from_stacks.
    rewrite Hget, Hat_src. reflexivity. }
  split; [exact Htype|].
  split.
  { unfold total_of. rewrite Hget. exact Hqty. }
  split; [lra|].
  split.
  { rewrite Hsplit, (transfer_keeps_entry src dst post t Hpost).
    exact Hstep_src. }
  split; [exact Hat_dst|].
  split; [exact Hat_cap|].
  split; [exact Hafter_dst|].
  intros Hnone Hfits. rewrite Hafter_dst.
  unfold add. rewrite Hfits. cbn [snd]. unfold store.
  rewrite Htype, Hat_dst, Hnone. cbn [get_or merge_into app set_items items].
  apply StockFacts.dict_get_set_eq.
Qed.

(** The entries for [t] and the capacity of the receiving side are all
    that [handed_over] reads of the store before the trade, and the
    entries for [t] all it reads of the store after it. *)
Lemma handed_over_ext (src dst : ref) (st1 st2 st_at st1' st2' : Store)
      (t : string) (q : Q) :
  dict_get (items (st1 src)) t = dict_get (items (st2 src)) t ->
  dict_get (items (st1 dst)) t = dict_get (items (st2 dst)) t ->
  capacity (st1 dst) = capacity (st2 dst) ->
  dict_get (items (st1' src)) t = dict_get (items (st2' src)) t ->
  dict_get (items (st1' dst)) t = dict_get (items (st2' dst)) t ->
  handed_over src dst st1 st_at st1' t q ->
  handed_over src dst st2 st_at st2' t q.
Proof.
  intros Hsrc Hdst Hcap Hsrc' Hdst'
         (moved & Hmoved & Htype & Hqty & Hless & Hgone & Hat & Hatcap
          & Hend & Halone).
  exists moved.
  split.
  { rewrite <- Hmoved. apply remove_result_from_stacks. symmetry. exact Hsrc. }
  split; [exact Htype|].
  split.
  { unfold total_of in *. rewrite <- Hsrc. exact Hqty. }
  split; [exact Hless|].
  split; [rewrite <- Hsrc'; exact Hgone|].
  split; [rewrite <- Hdst; exact Hat|].
  split; [rewrite <- Hcap; exact Hatcap|].
  split; [rewrite <- Hdst'; exact Hend|].
  intros Hnone Hfits. rewrite <- Hdst'. apply Halone; [|exact Hfits].
  rewrite Hdst. exact Hnone.
Qed.


(** C10.  When both sides hold at least 99% of every quantity committed,
    the trade returns True and is recorded with the committed quantities
    in full.  For an item of which the giving side, offerer or target,
    holds less than the committed quantity, the transfer hands over all
    that side holds and no more: the giving inventory ends with no entry
    for the item, and the receiving inventory ends with what [add] makes
    of an item of that smaller quantity. *)
Theorem execute_trade_tolerance_moves_less
        (sys : TradeSystem) (offer : TradeOffer) (st : Store)
        (offerer_inv target_inv : ref) (day : Z) :
  offerer_inv <> target_inv ->
  NoDup (dict_keys (offering offer)) ->
  NoDup (dict_keys (requesting offer)) ->
  NoDup (dict_keys (items (st offerer_inv))) ->
  NoDup (dict_keys (items (st target_inv))) ->
  holds_all (st offerer_inv) (offering offer) = true ->
  holds_all (st target_inv) (requesting offer) = true ->
  let result := execute_trade sys offer st offerer_inv target_inv day in
  let st' := snd (fst result) in
  fst (fst result) = true
  /\ daily_trades (snd result)
     = daily_trades sys
       ++ [mkRecord day (offerer_id offer) (target_id offer)
                    (offering offer) (requesting offer)]
  /\ (forall pre t q post,
         offering offer = pre ++ (t, q) :: post ->
         ~ In t (dict_keys (requesting offer)) ->
         Forall (fun s => 0 <= quantity s)
                (get_or (dict_get (items (st offerer_inv)) t) []) ->
         total_of (st offerer_inv) t < q ->
         handed_over offerer_inv target_inv st
                     (transfer offerer_inv target_inv st pre) st' t q)
  /\ (forall pre t q post,
         requesting offer = pre ++ (t, q) :: post ->
         ~ In t (dict_keys (offering offer)) ->
         Forall (fun s => 0 <= quantity s)
                (get_or (dict_get (items (st target_inv)) t) []) ->
         total_of (st target_inv) t < q ->
         handed_over target_inv offerer_inv st
                     (transfer target_inv offerer_inv
                               (transfer offerer_inv target_inv st
                                         (offering offer)) pre)
                     st' t q).
Proof.
  intros Hne Hoffkeys Hreqkeys Hnd_off Hnd_tgt Hoff Hreq result st'.
  assert (Hrun : result
                 = (true,
                    transfer target_inv offerer_inv
                             (transfer offerer_inv target_inv st (offering offer))
                             (requesting offer),
                    mkTradeSystem
                      (daily_trades sys
                       ++ [mkRecord day (offerer_id offer) (target_id offer)
                                    (offering offer) (requesting offer)])
                      (total_trades sys + 1)%Z
                      (total_items_exchanged sys
                       + (Qsum (dict_values (offering offer))
                          + Qsum (dict_values (requesting offer)))))).
  { unfold result, execute_trade. rewrite Hoff, Hreq. reflexivity. }
  assert (Hst' : st' = transfer target_inv offerer_inv
                                (transfer offerer_inv target_inv st (offering offer))
                                (requesting offer)).
  { unfold st'. rewrite Hrun. reflexivity. }
  split; [rewrite Hrun; reflexivity|].
  split; [rewrite Hrun; reflexivity|].
  set (st1 := transfer offerer_inv target_inv st (offering offer)) in *.
  split.
  - intros pre t q post Hsplit Hnot Hpos Hshort.
    assert (Hin : In (t, q) (offering offer)).
    { rewrite Hsplit. apply in_or_app. right. left. reflexivity. }
    pose proof (holds_all_in _ _ t q Hoff Hin) as Hlo.
    destruct (short_side_holds_some _ t q Hlo Hshort)
      as (stacks & Hget & Htot & Hsome).
    rewrite Hget in Hpos. cbn [get_or] in Hpos.
    rewrite Htot in Hshort.
    pose proof (transfer_hands_over offerer_inv target_inv st pre post t q
                                    stacks Hne) as Hgo.
    rewrite <- Hsplit in Hgo. fold st1 in Hgo.
    specialize (Hgo Hoffkeys Hnd_off Hget Hpos Hsome Hshort).
    rewrite Hst'.
    refine (handed_over_ext offerer_inv target_inv st st _ st1 _ t q
                            eq_refl eq_refl eq_refl _ _ Hgo).
    + symmetry. apply (transfer_keeps_entry target_inv offerer_inv _ t Hnot).
    + symmetry. apply (transfer_keeps_entry target_inv offerer_inv _ t Hnot).
  - intros pre t q post Hsplit Hnot Hpos Hshort.
    assert (Hin : In (t, q) (requesting offer)).
    { rewrite Hsplit. apply in_or_app. right. left. reflexivity. }
    pose proof (holds_all_in _ _ t q Hreq Hin) as Hlo.
    destruct (short_side_holds_some _ t q Hlo Hshort)
      as (stacks & Hget & Htot & Hsome).
    rewrite Hget in Hpos. cbn [get_or] in Hpos.
    rewrite Htot in Hshort.
    assert (Hentry : forall r, dict_get (items (st1 r)) t
                               = dict_get (items (st r)) t).
    { intros r. unfold st1.
      apply (transfer_keeps_entry offerer_inv target_inv _ t Hnot). }
    assert (Hne' : target_inv <> offerer_inv)
      by (intros E; apply Hne; symmetry; exact E).
    pose proof (transfer_hands_over target_inv offerer_inv st1 pre post t q
                                    stacks Hne') as Hgo.
    rewrite <- Hsplit in Hgo.
    assert (Hnd1 : NoDup (dict_keys (items (st1 target_inv)))).
    { unfold st1. apply transfer_keeps_NoDup. exact Hnd_tgt. }
    assert (Hget1 : dict_get (items (st1 target_inv)) t = Some stacks).
    { rewrite Hentry. exact Hget. }
    specialize (Hgo Hreqkeys Hnd1 Hget1 Hpos Hsome Hshort).
    rewrite Hst'.
    refine (handed_over_ext target_inv offerer_inv st1 st _ _ _ t q
                            (Hentry _) (Hentry _) _ eq_refl eq_refl Hgo).
    unfold st1. apply transfer_keeps_capacity.
Qed.


(** Two family stores.  The first holds four units of timber and 0.995
    units of grain, the second 2.98 units of stone. *)
Definition timber_and_grain : Inventory :=
  snd (add (snd (add (mkInventory [] 200.0 "family")
                     (create_item "timber" 4 0.5)))
           (create_item "grain" 0.995 0.5)).

Definition some_stone : Inventory :=
  snd (add (mkInventory [] 200.0 "family") (create_item "stone" 2.98 0.5)).

Definition trading_stores : Store :=
  fun r => match r with
           | O => timber_and_grain
           | _ => some_stone
           end.

(** Two units of timber and one of grain against three of stone: the
    grain and the stone are held to within the tolerance only. *)
Definition barter : TradeOffer :=
  mkOffer [("timber", 2); ("grain", 1)] [("stone", 3)] 1 2.

Lemma execute_trade_tolerance_moves_less_witness :
  let result := execute_trade ExecutionFacts.no_trades barter trading_stores
                              0%nat 1%nat 7 in
  fst (fst result) = true
  /\ daily_trades (snd result)
     = [mkRecord 7 1 2 [("timber", 2); ("grain", 1)] [("stone", 3)]]
  /\ dict_get (items (snd (fst result) 0%nat)) "grain" = None
  /\ (exists moved,
         dict_get (items (snd (fst result) 1%nat)) "grain" = Some [moved]
         /\ quantity moved == 0.995)
  /\ dict_get (items (snd (fst result) 1%nat)) "stone" = None
  /\ (exists moved,
         dict_get (items (snd (fst result) 0%nat)) "stone" = Some [moved]
         /\ quantity moved == 2.98).
Proof.
  assert (Hne : 0%nat <> 1%nat) by discriminate.
  assert (Hoffkeys : NoDup (dict_keys (offering barter))).
  { cbn. constructor; [intros [H|[]]; discriminate H|].
    constructor; [intros [] | constructor]. }
  assert (Hreqkeys : NoDup (dict_keys (requesting barter))).
  { cbn. constructor; [intros [] | constructor]. }
  assert (Hnd0 : NoDup (dict_keys (items (trading_stores 0%nat)))).
  { vm_compute. constructor; [intros [H|[]]; discriminate H|].
    constructor; [intros [] | constructor]. }
  assert (Hnd1 : NoDup (dict_keys (items (trading_stores 1%nat)))).
  { vm_compute. constructor; [intros [] | constructor]. }
  destruct (execute_trade_tolerance_moves_less
              ExecutionFacts.no_trades barter trading_stores 0%nat 1%nat 7
              Hne Hoffkeys Hreqkeys Hnd0 Hnd1 eq_refl eq_refl)
    as (Hok & Hrec & Hgive & Htake).
  cbv zeta.
  split; [exact Hok|]. split; [exact Hrec|].
  destruct (Hgive [("timber", 2)] "grain" 1 [] eq_refl)
    as (grain & Hgrain & _ & Hgq & _ & Hgone & _ & _ & _ & Hgalone).
  { cbn. intros [H|[]]. discriminate H. }
  { vm_compute. constructor; [discriminate | constructor]. }
  { vm_compute. reflexivity. }
  destruct (Htake [] "stone" 3 [] eq_refl)
    as (stone & Hstone & _ & Hsq & _ & Hsgone & _ & _ & _ & Hsalone).
  { cbn. intros [H|[H|[]]]; discriminate H. }
  { vm_compute. constructor; [discriminate | constructor]. }
  { vm_compute. reflexivity. }
  split; [exact Hgone|].
  split.
  { exists grain. split.
    - apply Hgalone; [reflexivity|].
      vm_compute in Hgrain. inversion Hgrain; subst grain.
      vm_compute. reflexivity.
    - rewrite Hgq. vm_compute. reflexivity. }
  split; [exact Hsgone|].
  exists stone. split.
  - apply Hsalone; [reflexivity|].
    vm_compute in Hstone. inversion Hstone; subst stone.
    vm_compute. reflexivity.
  - rewrite Hsq. vm_compute. reflexivity.
Defined.

End TransferFacts.

(* ===================================================================== *)
(** ** agents/needs.py: urgency and the aggregate queries *)

Module NeedQueries.
Import Config Needs.

(** [max(iterable, key=...)]: the first element with the largest key;
    [None] stands for the [ValueError] on an empty iterable. *)
Definition max_by {A : Type} (key : A -> Q) (l : list A) : option A :=
  fold_left (fun best x =>
               match best with
               | None => Some x
               | Some b => if Qlt_bool (key b) (key x) then Some x else best
               end) l None.

(** Names of needs that are survival-critical (a set literal, taken in
    the order written). *)
Definition _SURVIVAL_NEEDS : list string :=
  [ "hunger"; "thirst"; "rest"; "health"; "warmth" ].

(** Weighted average of all satisfactions. *)
Definition overall_wellbeing (ns : NeedSystem) : Q :=
  let total_weight := Qsum (map weight (dict_values (needs ns))) in
  if Qeq_bool total_weight 0 then 0.5
  else
    let weighted := Qsum (map (fun n => satisfaction n * weight n)
                              (dict_values (needs ns))) in
    weighted / total_weight.

(** Are any survival needs below the critical threshold? *)
Definition survival_critical (ns : NeedSystem) : bool :=
  existsb (fun name => match dict_get (needs ns) name with
                       | Some n => is_critical n
                       | None => false
                       end) _SURVIVAL_NEEDS.

Section Urgency.
Variable exp : Q -> Q.

(** Urgency score: higher when satisfaction is lower. *)
Definition urgency (n : Need) : Q :=
  let deficit := 1.0 - satisfaction n in
  if String.eqb (urgency_curve n) "exponential"
  then weight n * (exp (deficit * 3) - 1) / (exp 3 - 1)
  else weight n * deficit.

Definition get_most_urgent (ns : NeedSystem) : option Need :=
  max_by urgency (dict_values (needs ns)).

(** The survival needs below 0.5, as [most_urgent_survival] lists them. *)
Definition urgent_survival_needs (ns : NeedSystem) : list Need :=
  flat_map (fun name => match dict_get (needs ns) name with
                        | Some n => if Qlt_bool (satisfaction n) 0.5 then [n] else []
                        | None => []
                        end) _SURVIVAL_NEEDS.

(** The most urgent survival need, or [None] if none are urgent. *)
Definition most_urgent_survival (ns : NeedSystem) : option Need :=
  match urgent_survival_needs ns with
  | [] => None
  | survival => max_by urgency survival
  end.
End Urgency.

End NeedQueries.

Module NeedQueryFacts.
Import Config Needs NeedQueries.

Lemma max_by_member {A : Type} (key : A -> Q) (l : list A) :
  forall best,
    match fold_left (fun best x =>
                       match best with
                       | None => Some x
                       | Some b => if Qlt_bool (key b) (key x) then Some x else best
                       end) l best with
    | Some r => In r l \/ best = Some r
    | None => l = [] /\ best = None
    end.
Proof.
  induction l as [|x l IH]; intros best; cbn [fold_left].
  - destruct best; [right; reflexivity | split; reflexivity].
  - specialize (IH (match best with
                    | None => Some x
                    | Some b => if Qlt_bool (key b) (key x) then Some x else best
                    end)).
    destruct (fold_left _ l _) as [r|].
    + destruct IH as [Hin|Hbest]; [left; right; exact Hin|].
      destruct best as [b|].
      * destruct (Qlt_bool (key b) (key x)).
        -- inversion Hbest; subst. left. left. reflexivity.
        -- right. exact Hbest.
      * inversion Hbest; subst. left. left. reflexivity.
    + destruct IH as [_ Hbest]. destruct best as [b|].
      * destruct (Qlt_bool (key b) (key x)); discriminate.
      * discriminate.
Qed.

Lemma max_by_some {A : Type} (key : A -> Q) (l : list A) :
  l <> [] -> exists r, max_by key l = Some r /\ In r l.
Proof.
  intros Hne. unfold max_by.
  pose proof (max_by_member key l None) as H.
  destruct (fold_left _ l None) as [r|].
  - exists r. split; [reflexivity|]. destruct H as [H|H]; [exact H | discriminate].
  - destruct H as [H _]. contradiction.
Qed.

(** X8.  Whenever a survival need is below the critical threshold,
    [most_urgent_survival] names a need: one of the five survival needs of
    the system, with satisfaction below 0.5. *)
Theorem critical_need_has_most_urgent (exp : Q -> Q) (ns : NeedSystem) :
  survival_critical ns = true ->
  exists n name,
    most_urgent_survival exp ns = Some n
    /\ In name _SURVIVAL_NEEDS
    /\ dict_get (needs ns) name = Some n
    /\ satisfaction n < 0.5.
Proof.
  intros Hcrit. unfold survival_critical in Hcrit.
  apply existsb_exists in Hcrit. destruct Hcrit as (nm & Hnm & Hc).
  destruct (dict_get (needs ns) nm) as [c|] eqn:Hget; [|discriminate].
  unfold is_critical, SURVIVAL_CRITICAL_THRESHOLD in Hc. qbool.
  assert (Hin : In c (urgent_survival_needs ns)).
  { unfold urgent_survival_needs. apply in_flat_map. exists nm.
    split; [exact Hnm|]. rewrite Hget.
    assert (E : Qlt_bool (satisfaction c) 0.5 = true) by (apply Qlt_bool_true; lra).
    rewrite E. left. reflexivity. }
  assert (Hne : urgent_survival_needs ns <> []).
  { intro H. rewrite H in Hin. destruct Hin. }
  destruct (max_by_some (urgency exp) _ Hne) as (r & Hmax & Hr).
  unfold urgent_survival_needs in Hr. apply in_flat_map in Hr.
  destruct Hr as (name & Hname & Hr).
  destruct (dict_get (needs ns) name) as [n|] eqn:Hn; [|destruct Hr].
  destruct (Qlt_bool (satisfaction n) 0.5) eqn:En; [|destruct Hr].
  destruct Hr as [<-|[]]. qbool.
  exists n, name. split.
  - unfold most_urgent_survival.
    destruct (urgent_survival_needs ns) eqn:Eu; [contradiction | exact Hmax].
  - split; [exact Hname|]. split; [exact Hn | exact En].
Qed.

Lemma weighted_bounds (l : list Need) :
  Forall (fun n => in_unit_range n /\ 0 <= weight n) l ->
  0 <= Qsum (map (fun n => satisfaction n * weight n) l)
  /\ Qsum (map (fun n => satisfaction n * weight n) l) <= Qsum (map weight l)
  /\ 0 <= Qsum (map weight l).
Proof.
  induction 1 as [|n l [[Hlo Hhi] Hw] _ IH]; cbn [map].
  - change (Qsum []) with 0. repeat split; apply Qle_refl.
  - rewrite !Qsum_cons. destruct IH as (H1 & H2 & H3).
    assert (0 <= satisfaction n * weight n) by (apply Qmult_le_0_compat; assumption).
    assert (satisfaction n * weight n <= weight n) by nra.
    repeat split; lra.
Qed.

(** X9.  With every satisfaction within [0, 1] and no negative weight,
    [overall_wellbeing] lies within [0, 1]. *)
Theorem overall_wellbeing_in_unit_range (ns : NeedSystem) :
  Forall (fun n => in_unit_range n /\ 0 <= weight n) (dict_values (needs ns)) ->
  0 <= overall_wellbeing ns /\ overall_wellbeing ns <= 1.
Proof.
  intros Hall. destruct (weighted_bounds _ Hall) as (H1 & H2 & H3).
  unfold overall_wellbeing.
  destruct (Qeq_bool (Qsum (map weight (dict_values (needs ns)))) 0) eqn:E.
  - split; vm_compute; discriminate.
  - apply Qeq_bool_neq in E.
    assert (Hpos : 0 < Qsum (map weight (dict_values (needs ns)))).
    { apply Qle_lt_or_eq in H3. destruct H3 as [H3|H3]; [exact H3|].
      exfalso. apply E. symmetry. exact H3. }
    split.
    + apply Qle_shift_div_l; [exact Hpos|]. lra.
    + apply Qle_shift_div_r; [exact Hpos|]. lra.
Qed.

(** *** The nightly decay, need by need *)

Lemma daily_decay_lookup (ns : NeedSystem) (wm sq : Q) (hs wp : bool) (nm : string) :
  dict_get (needs (daily_decay ns wm sq hs wp)) nm
  = match dict_get (needs ns) nm with
    | Some n => match decay_modifier nm wm sq hs wp with
                | Some m => Some (decay n m)
                | None => Some n
                end
    | None => None
    end.
Proof.
  unfold daily_decay. cbn [needs].
  induction (needs ns) as [|[k n] d IH]; cbn [map dict_get fst snd].
  - reflexivity.
  - destruct (decay_modifier k wm sq hs wp) as [m|] eqn:Em; cbn [dict_get fst snd];
      destruct (String.eqb_spec k nm) as [->|Hne]; try exact IH.
    + rewrite Em. reflexivity.
    + rewrite Em. reflexivity.
Qed.

(** X10.  The nightly decay never raises a need: with non-negative
    satisfactions, decay rates and warmth modifier, every satisfaction
    after [daily_decay] is at most what it was; health is not touched at
    all, and social and purpose keep their value on a day with social
    interaction, respectively productive work. *)
Theorem daily_decay_only_lowers (ns : NeedSystem) (wm sq : Q) (hs wp : bool)
        (nm : string) :
  0 <= wm ->
  Forall (fun n => 0 <= satisfaction n /\ 0 <= decay_rate n) (dict_values (needs ns)) ->
  satisfaction_of (daily_decay ns wm sq hs wp) nm <= satisfaction_of ns nm
  /\ (nm = "health" ->
      dict_get (needs (daily_decay ns wm sq hs wp)) nm = dict_get (needs ns) nm)
  /\ (nm = "social" -> hs = true ->
      satisfaction_of (daily_decay ns wm sq hs wp) nm == satisfaction_of ns nm)
  /\ (nm = "purpose" -> wp = true ->
      satisfaction_of (daily_decay ns wm sq hs wp) nm == satisfaction_of ns nm).
Proof.
  intros Hwm Hall. unfold satisfaction_of. rewrite daily_decay_lookup.
  destruct (dict_get (needs ns) nm) as [n|] eqn:Hget.
  - assert (Hn : 0 <= satisfaction n /\ 0 <= decay_rate n).
    { rewrite Forall_forall in Hall. apply Hall.
      unfold dict_values. clear Hall. revert Hget.
      induction (needs ns) as [|[k v] d IH]; cbn [dict_get map snd]; [discriminate|].
      destruct (String.eqb k nm); intros H.
      - inversion H; subst. left. reflexivity.
      - right. apply IH. exact H. }
    destruct Hn as [Hs Hr].
    assert (Hzero : forall m, m == 0 -> satisfaction (decay n m) == satisfaction n).
    { intros m Hm. unfold decay. cbn [satisfaction set_satisfaction].
      rewrite Hm. rewrite Q.max_r by lra. ring. }
    split; [|split; [|split]].
    + destruct (decay_modifier nm wm sq hs wp) as [m|] eqn:Em; [|apply Qle_refl].
      pose proof (NeedFacts.decay_modifier_nonneg _ _ _ _ _ _ Hwm Em) as Hm.
      unfold decay. cbn [satisfaction set_satisfaction].
      assert (0 <= decay_rate n * m) by (apply Qmult_le_0_compat; assumption).
      apply Q.max_lub; lra.
    + intros ->. reflexivity.
    + intros -> ->. cbn. apply Hzero. reflexivity.
    + intros -> ->. cbn. apply Hzero. reflexivity.
  - split; [apply Qle_refl|]. split; [reflexivity|].
    split; intros; reflexivity.
Qed.


(** A villager whose hunger satisfaction has fallen to 0.1. *)
Definition starving : NeedSystem :=
  Agent.needs (Agent.with_hunger ValuationFacts.sample_villager 0.1).

Lemma critical_need_has_most_urgent_witness :
  exists n,
    most_urgent_survival ValuationFacts.sample_exp starving = Some n
    /\ satisfaction n < 0.5.
Proof.
  destruct (critical_need_has_most_urgent ValuationFacts.sample_exp starving eq_refl)
    as (n & name & H1 & _ & _ & H4).
  exists n. split; [exact H1 | exact H4].
Defined.

Lemma overall_wellbeing_in_unit_range_witness :
  0 <= overall_wellbeing new_need_system /\ overall_wellbeing new_need_system <= 1.
Proof.
  apply overall_wellbeing_in_unit_range.
  repeat (constructor; [split; [split|]; vm_compute; discriminate|]).
  constructor.
Defined.

Lemma daily_decay_only_lowers_witness :
  satisfaction_of (daily_decay new_need_system 1 0.5 false false) "hunger"
  <= satisfaction_of new_need_system "hunger".
Proof.
  refine (proj1 (daily_decay_only_lowers new_need_system 1 0.5 false false
                                         "hunger" _ _)).
  - vm_compute. discriminate.
  - repeat (constructor; [split; vm_compute; discriminate|]).
    constructor.
Defined.

End NeedQueryFacts.

(* ===================================================================== *)
(** ** economy/trade.py: judging an offer *)

Module Bargain.
Import Config Inv Agent Trade.

Section Evaluation.
Variable exp : Q -> Q.

(** Value of a bundle of goods to a villager. *)
Definition bundle_value (villager : Villager) (villager_inv : Inventory)
           (bundle : dict Q) : Q :=
  Qsum (map (fun kv => subjective_value exp villager (fst kv) (snd kv)
                                        (Some villager_inv)) bundle).

(** Require at least this ratio of receive/give to accept. *)
Definition acceptance_threshold (villager : Villager) (trust : Q) : Q :=
  let trust_bonus := trust * TRADE_TRUST_WEIGHT in
  let agreeableness :=
    (empathy (traits villager) + sociability (traits villager)) / 200.0 in
  let personality_bonus := agreeableness * TRADE_PERSONALITY_MARGIN in
  Qmax 0.5 (1.0 - trust_bonus - personality_bonus).

(** [TradeSystem.evaluate_offer]: would accepting this trade improve the
    villager's situation? *)
Definition evaluate_offer (villager : Villager) (offer : TradeOffer)
           (villager_inv : Inventory) (trust : Q) : bool :=
  let receive_value := bundle_value villager villager_inv (offering offer) in
  let give_value := bundle_value villager villager_inv (requesting offer) in
  if Qle_bool give_value 0 then Qlt_bool 0 receive_value
  else
    let threshold := acceptance_threshold villager trust in
    let ratio := receive_value / Qmax 0.01 give_value in
    Qle_bool threshold ratio.
End Evaluation.

End Bargain.

Module BargainFacts.
Import Config Inv Agent Trade Bargain.

Lemma subjective_value_floor (exp : Q -> Q) (v : Villager) (t : string) (q : Q)
      (f : option Inventory) :
  0.01 <= subjective_value exp v t q f.
Proof. unfold subjective_value. apply Q.le_max_l. Qed.

Lemma bundle_value_nonneg (exp : Q -> Q) (v : Villager) (inv : Inventory)
      (bundle : dict Q) :
  0 <= bundle_value exp v inv bundle.
Proof.
  unfold bundle_value. induction bundle as [|kv rest IH]; cbn [map].
  - apply Qle_refl.
  - rewrite Qsum_cons.
    pose proof (subjective_value_floor exp v (fst kv) (snd kv) (Some inv)). lra.
Qed.

Lemma bundle_value_positive (exp : Q -> Q) (v : Villager) (inv : Inventory)
      (bundle : dict Q) :
  bundle <> [] -> 0.01 <= bundle_value exp v inv bundle.
Proof.
  intros Hne. destruct bundle as [|kv rest]; [contradiction|].
  unfold bundle_value. cbn [map]. rewrite Qsum_cons.
  pose proof (subjective_value_floor exp v (fst kv) (snd kv) (Some inv)).
  pose proof (bundle_value_nonneg exp v inv rest) as Hrest.
  unfold bundle_value in Hrest. lra.
Qed.

Lemma acceptance_threshold_antitone (v : Villager) (trust trust' : Q) :
  trust <= trust' ->
  acceptance_threshold v trust' <= acceptance_threshold v trust.
Proof.
  intros Hle. unfold acceptance_threshold, TRADE_TRUST_WEIGHT.
  apply Q.max_le_compat_l. lra.
Qed.

(** X11.  More trust never turns an acceptance into a refusal: an offer
    the villager accepts at some trust level is accepted at every higher
    one. *)
Theorem evaluate_offer_monotone_in_trust
        (exp : Q -> Q) (villager : Villager) (offer : TradeOffer)
        (villager_inv : Inventory) (trust trust' : Q) :
  trust <= trust' ->
  evaluate_offer exp villager offer villager_inv trust = true ->
  evaluate_offer exp villager offer villager_inv trust' = true.
Proof.
  intros Hle. unfold evaluate_offer.
  destruct (Qle_bool (bundle_value exp villager villager_inv (requesting offer)) 0);
    [trivial|].
  intros Hacc. apply Qle_bool_iff in Hacc. apply Qle_bool_iff.
  apply Qle_trans with (acceptance_threshold villager trust);
    [apply acceptance_threshold_antitone; exact Hle | exact Hacc].
Qed.

(** X12.  An offer that asks for nothing is accepted exactly when it
    offers something; an offer that asks for something is never accepted
    when what it offers is worth less than half of what it asks, in the
    receiver's own valuation, whatever the trust and the personality. *)
Theorem evaluate_offer_gift_and_floor
        (exp : Q -> Q) (villager : Villager) (offer : TradeOffer)
        (villager_inv : Inventory) (trust : Q) :
  (requesting offer = [] ->
   evaluate_offer exp villager offer villager_inv trust
   = match offering offer with [] => false | _ => true end)
  /\ (requesting offer <> [] ->
      evaluate_offer exp villager offer villager_inv trust = true ->
      bundle_value exp villager villager_inv (requesting offer) * 0.5
      <= bundle_value exp villager villager_inv (offering offer)).
Proof.
  split.
  - intros Hreq. unfold evaluate_offer. rewrite Hreq.
    change (bundle_value exp villager villager_inv []) with 0.
    change (Qle_bool 0 0) with true. cbv iota.
    destruct (offering offer) as [|kv rest] eqn:Eo.
    + reflexivity.
    + apply Qlt_bool_true.
      assert (Hne : kv :: rest <> []) by discriminate.
      pose proof (bundle_value_positive exp villager villager_inv _ Hne). lra.
  - intros Hreq. unfold evaluate_offer.
    pose proof (bundle_value_positive exp villager villager_inv _ Hreq) as Hgive.
    set (give := bundle_value exp villager villager_inv (requesting offer)) in *.
    set (receive := bundle_value exp villager villager_inv (offering offer)).
    destruct (Qle_bool give 0) eqn:Eg; qbool; [exfalso; lra|].
    intros Hacc. apply Qle_bool_iff in Hacc.
    assert (Hthr : 0.5 <= acceptance_threshold villager trust)
      by (unfold acceptance_threshold; apply Q.le_max_l).
    assert (Hmax : Qmax 0.01 give == give) by (apply Q.max_r; lra).
    rewrite Hmax in Hacc.
    assert (Hratio : 0.5 <= receive / give) by lra.
    assert (Hback : receive == receive / give * give) by (field; lra).
    assert (Hmul : 0.5 * give <= receive / give * give)
      by (apply Qmult_le_compat_r; lra).
    lra.
Qed.


Lemma evaluate_offer_monotone_in_trust_witness :
  evaluate_offer ValuationFacts.sample_exp OfferFacts.stone_owner
                 (mkOffer [("timber", 1)] [("stone", 1)] 1 2)
                 OfferFacts.stone_estimate 1 = true.
Proof.
  apply (evaluate_offer_monotone_in_trust
           ValuationFacts.sample_exp OfferFacts.stone_owner
           (mkOffer [("timber", 1)] [("stone", 1)] 1 2)
           OfferFacts.stone_estimate 0 1).
  - vm_compute. discriminate.
  - vm_compute. reflexivity.
Defined.

End BargainFacts.

(* ===================================================================== *)
(** ** Barter: what can be offered *)

Module SurplusFacts.
Import Config Inv Agent Trade.

Lemma in_dict_set {V : Type} (d : dict V) (k : string) (v : V) (kv : string * V) :
  In kv (dict_set d k v) -> kv = (k, v) \/ In kv d.
Proof.
  induction d as [|[k' v'] d IH]; cbn [dict_set]; intros Hin.
  - destruct Hin as [<-|[]]. left. reflexivity.
  - destruct (String.eqb_spec k' k) as [->|Hne].
    + destruct Hin as [<-|Hin]; [left; reflexivity | right; right; exact Hin].
    + destruct Hin as [<-|Hin]; [right; left; reflexivity|].
      destruct (IH Hin) as [H|H]; [left; exact H | right; right; exact H].
Qed.

Lemma in_dict_get {V : Type} (d : dict V) (k : string) (v : V) :
  NoDup (dict_keys d) -> In (k, v) d -> dict_get d k = Some v.
Proof.
  induction d as [|[k' v'] d IH]; cbn [dict_keys map fst dict_get];
    intros Hnd Hin; [destruct Hin|].
  inversion Hnd as [|? ? Hnin Hrest]; subst.
  destruct Hin as [Heq|Hin].
  - inversion Heq; subst. rewrite String.eqb_refl. reflexivity.
  - destruct (String.eqb_spec k' k) as [->|Hne].
    + exfalso. apply Hnin. change (In (fst (k, v)) (map fst d)).
      apply in_map. exact Hin.
    + apply IH; assumption.
Qed.

(** Every surplus entry is positive and covered by the stacks of its
    item type. *)
Definition covered (all : dict (list Item)) (surplus : dict Q) : Prop :=
  forall t q, In (t, q) surplus ->
              0 < q /\ exists stacks, In (t, stacks) all /\ q <= stacks_quantity stacks.

Lemma covered_set (all : dict (list Item)) (surplus : dict Q)
      (t : string) (stacks : list Item) (q : Q) :
  covered all surplus ->
  In (t, stacks) all -> 0 < q -> q <= stacks_quantity stacks ->
  covered all (dict_set surplus t q).
Proof.
  intros Hcov Hin Hq Hle t' q' Hin'.
  apply in_dict_set in Hin'. destruct Hin' as [Heq|Hold].
  - inversion Heq; subst. split; [exact Hq|]. exists stacks. split; assumption.
  - apply Hcov. exact Hold.
Qed.

Lemma surplus_loop_covered (all : dict (list Item)) (its : dict (list Item)) :
  forall (remaining : Q) (surplus : dict Q),
    (forall kv, In kv its -> In kv all) ->
    0 <= remaining ->
    covered all surplus ->
    covered all (surplus_loop its remaining surplus).
Proof.
  induction its as [|[t stacks] rest IH]; intros remaining surplus Hsub Hrem Hcov;
    cbn [surplus_loop].
  - exact Hcov.
  - assert (Hin : In (t, stacks) all) by (apply Hsub; left; reflexivity).
    assert (Hsub' : forall kv, In kv rest -> In kv all)
      by (intros kv H; apply Hsub; right; exact H).
    destruct (Qle_bool (stacks_quantity stacks) 0.01) eqn:Esmall; qbool.
    + apply IH; assumption.
    + set (food_val := get_or (cat_food_value (catalog t)) 0.0).
      destruct (Qlt_bool 0 food_val) eqn:Efood; qbool.
      * assert (Hm : 0 < Qmax 0.01 food_val)
          by (apply Qlt_le_trans with 0.01; [reflexivity | apply Q.le_max_l]).
        assert (Hneeded : 0 <= remaining / Qmax 0.01 food_val).
        { apply Qle_shift_div_l; [exact Hm | lra]. }
        assert (Hcost : remaining / Qmax 0.01 food_val * food_val <= remaining).
        { assert (Hfv : food_val <= Qmax 0.01 food_val) by apply Q.le_max_r.
          assert (Heq : remaining == remaining / Qmax 0.01 food_val * Qmax 0.01 food_val)
            by (field; lra).
          assert (remaining / Qmax 0.01 food_val * food_val
                  <= remaining / Qmax 0.01 food_val * Qmax 0.01 food_val)
            by (rewrite !(Qmult_comm (remaining / Qmax 0.01 food_val));
                apply Qmult_le_compat_r; assumption).
          lra. }
        apply IH; [exact Hsub' | |].
        -- assert (Hmin : Qmin (stacks_quantity stacks) (remaining / Qmax 0.01 food_val)
                          <= remaining / Qmax 0.01 food_val) by apply Q.le_min_r.
           assert (Qmin (stacks_quantity stacks) (remaining / Qmax 0.01 food_val) * food_val
                   <= remaining / Qmax 0.01 food_val * food_val)
             by (apply Qmult_le_compat_r; lra).
           lra.
        -- destruct (Qlt_bool 0.5 _) eqn:Eex; qbool; [|exact Hcov].
           apply (covered_set all surplus t stacks); try assumption; lra.
      * destruct (truthy (cat_tool_type (catalog t))).
        -- apply IH; [exact Hsub' | exact Hrem |].
           destruct (Qlt_bool 1 (stacks_quantity stacks)) eqn:E1; qbool; [|exact Hcov].
           apply (covered_set all surplus t stacks); try assumption; lra.
        -- apply IH; [exact Hsub' | exact Hrem |].
           destruct (Qlt_bool 5 (stacks_quantity stacks)) eqn:E5; qbool; [|exact Hcov].
           apply (covered_set all surplus t stacks); try assumption; lra.
Qed.

Lemma get_surplus_covered (villager : Villager) (inv : Inventory) :
  covered (items inv) (_get_surplus villager inv).
Proof.
  unfold _get_surplus. apply surplus_loop_covered.
  - intros kv H. exact H.
  - vm_compute. discriminate.
  - intros t q [].
Qed.

Lemma surplus_within_holdings_aux (villager : Villager) (inv : Inventory)
      (t : string) (q : Q) :
  NoDup (dict_keys (items inv)) ->
  In (t, q) (_get_surplus villager inv) ->
  0 < q /\ q <= total_of inv t.
Proof.
  intros Hnd Hin.
  destruct (get_surplus_covered villager inv t q Hin) as (Hq & stacks & Hst & Hle).
  unfold total_of. rewrite (in_dict_get _ _ _ Hnd Hst).
  split; assumption.
Qed.

(** X13.  A surplus lists what is held: every item type [_get_surplus]
    reports is one the inventory holds, with a positive quantity; for an
    item type without food value (a tool or a material, of which one or
    five units are kept back) the quantity is at most the inventory's
    total of that type. *)
Theorem surplus_is_held (villager : Villager) (inv : Inventory)
        (t : string) (q : Q) :
  NoDup (dict_keys (items inv)) ->
  In (t, q) (_get_surplus villager inv) ->
  dict_mem (items inv) t = true
  /\ 0 < q
  /\ (get_or (cat_food_value (catalog t)) 0.0 <= 0 -> q <= total_of inv t).
Proof.
  intros Hnd Hin.
  destruct (get_surplus_covered villager inv t q Hin) as (Hq & stacks & Hst & Hle).
  pose proof (in_dict_get _ _ _ Hnd Hst) as Hget.
  unfold dict_mem, total_of. rewrite Hget.
  split; [reflexivity|]. split; [exact Hq|]. intros _. exact Hle.
Qed.

(** *** The offered side of a generated offer *)

(** Every offered quantity is positive and at most the surplus of its
    item type. *)
Definition drawn_from (my_surplus offered : dict Q) : Prop :=
  forall t q, In (t, q) offered ->
              0 < q /\ exists s, In (t, s) my_surplus /\ q <= s.

Lemma drawn_from_set (my_surplus offered : dict Q) (t : string) (s q : Q) :
  drawn_from my_surplus offered ->
  In (t, s) my_surplus -> 0 < q -> q <= s ->
  drawn_from my_surplus (dict_set offered t q).
Proof.
  intros Hd Hin Hq Hle t' q' Hin'.
  apply in_dict_set in Hin'. destruct Hin' as [Heq|Hold].
  - inversion Heq; subst. split; [exact Hq|]. exists s. split; assumption.
  - apply Hd. exact Hold.
Qed.

Lemma offer_matching_drawn (exp : Q -> Q) (partner : Villager) (pie : Inventory)
      (my_surplus wanted : dict Q) :
  drawn_from my_surplus (fst (offer_matching exp partner pie my_surplus wanted)).
Proof.
  unfold offer_matching.
  assert (Hgen : forall (l : dict Q) (acc : dict Q * Q),
             (forall kv, In kv l -> In kv my_surplus) ->
             drawn_from my_surplus (fst acc) ->
             drawn_from my_surplus
               (fst (fold_left
                       (fun acc kv =>
                          match dict_get wanted (fst kv) with
                          | Some w =>
                              let offer_qty := Qmin (snd kv) w in
                              if Qlt_bool 0.01 offer_qty then
                                (dict_set (fst acc) (fst kv) offer_qty,
                                 snd acc + subjective_value exp partner (fst kv)
                                                            offer_qty (Some pie))
                              else acc
                          | None => acc
                          end) l acc))).
  { induction l as [|[t s] l IH]; intros acc Hsub Hacc; cbn [fold_left].
    - exact Hacc.
    - apply IH; [intros kv H; apply Hsub; right; exact H|].
      cbn [fst snd]. destruct (dict_get wanted t) as [w|]; [|exact Hacc].
      cbv zeta. destruct (Qlt_bool 0.01 (Qmin s w)) eqn:E; qbool; [|exact Hacc].
      cbn [fst]. apply (drawn_from_set my_surplus (fst acc) t s).
      + exact Hacc.
      + apply Hsub. left. reflexivity.
      + lra.
      + apply Q.le_min_l. }
  apply Hgen; [intros kv H; exact H | intros t q []].
Qed.

Lemma max_key_member (d : dict Q) (best : string * Q) :
  max_key d = Some best -> In best d.
Proof.
  unfold max_key.
  assert (Hgen : forall (l : list (string * Q)) (acc : option (string * Q))
                        (r : string * Q),
             fold_left (fun best kv =>
                          match best with
                          | None => Some kv
                          | Some b => if Qlt_bool (snd b) (snd kv) then Some kv else best
                          end) l acc = Some r ->
             In r l \/ acc = Some r).
  { induction l as [|x l IH]; intros acc r; cbn [fold_left]; intros H.
    - right. exact H.
    - apply IH in H. destruct H as [H|H]; [left; right; exact H|].
      destruct acc as [b|].
      + destruct (Qlt_bool (snd b) (snd x)).
        * inversion H; subst. left. left. reflexivity.
        * right. exact H.
      + inversion H; subst. left. left. reflexivity. }
  intros H. apply Hgen in H. destruct H as [H|H]; [exact H | discriminate].
Qed.

Lemma offer_largest_drawn (exp : Q -> Q) (partner : Villager) (pie : Inventory)
      (my_surplus : dict Q) (acc : dict Q * Q) :
  drawn_from my_surplus (fst acc) ->
  drawn_from my_surplus (fst (offer_largest exp partner pie my_surplus acc)).
Proof.
  intros Hacc. unfold offer_largest.
  destruct (fst acc) as [|kv0 more] eqn:Efst; [|rewrite Efst; exact Hacc].
  destruct (max_key my_surplus) as [best|] eqn:Emax; [|rewrite Efst; exact Hacc].
  cbv zeta.
  destruct (Qlt_bool 0.01 (Qmin (snd best) (snd best * 0.5))) eqn:E; qbool;
    [|rewrite Efst; exact Hacc].
  cbn [fst]. intros t q Hin. cbn [dict_set] in Hin. destruct Hin as [Heq|[]].
  inversion Heq; subst. split; [lra|].
  exists (snd best). split.
  - apply max_key_member in Emax. destruct best; exact Emax.
  - apply Q.le_min_l.
Qed.

Lemma holds_all_true (inv : Inventory) (committed : dict Q) :
  (forall t q, In (t, q) committed -> q * 0.99 <= total_of inv t) ->
  holds_all inv committed = true.
Proof.
  induction committed as [|[t q] rest IH]; intros Hall; cbn [holds_all].
  - reflexivity.
  - assert (E : Qlt_bool (total_of inv t) (q * 0.99) = false).
    { apply Qlt_bool_false. apply Hall. left. reflexivity. }
    rewrite E. apply IH. intros t' q' H. apply Hall. right. exact H.
Qed.

(** X14.  What [generate_offer] offers is drawn from the proposer's own
    surplus: the offer is not empty, every offered quantity is positive
    and of an item type the proposer holds, and the offer passes the
    proposer's side of the verification of [execute_trade] against the
    inventory it was generated from. *)
Theorem generated_offer_is_backed
        (exp : Q -> Q) (villager partner : Villager)
        (villager_inv partner_inv_estimate : Inventory)
        (relationship_trust : Q) (offer : TradeOffer) :
  NoDup (dict_keys (items villager_inv)) ->
  generate_offer exp villager partner villager_inv partner_inv_estimate
                 relationship_trust = Some offer ->
  (forall t q, In (t, q) (offering offer) ->
               0 < q /\ dict_mem (items villager_inv) t = true)
  /\ holds_all villager_inv (offering offer) = true
  /\ offering offer <> [].
Proof.
  intros Hnd Hgen. unfold generate_offer in Hgen.
  destruct (negotiate exp villager partner villager_inv partner_inv_estimate)
    as [n|] eqn:Hneg; [|discriminate].
  inversion Hgen; subst offer. cbn [offering]. clear Hgen.
  unfold negotiate in Hneg.
  destruct (_get_surplus villager villager_inv) as [|s0 srest] eqn:Esur;
    [discriminate|].
  rewrite <- Esur in Hneg.
  set (offered := offer_largest exp partner partner_inv_estimate
                    (_get_surplus villager villager_inv)
                    (offer_matching exp partner partner_inv_estimate
                       (_get_surplus villager villager_inv)
                       (_get_deficits partner partner_inv_estimate))) in *.
  assert (Hdrawn : drawn_from (_get_surplus villager villager_inv) (fst offered))
    by (apply offer_largest_drawn, offer_matching_drawn).
  destruct (fst offered) as [|o0 orest] eqn:Eoff; [discriminate|].
  destruct (Qlt_bool (snd offered) 0.1); [discriminate|].
  assert (Hoffering : neg_offering n = o0 :: orest).
  { destruct (fst (match fst (request_deficits exp villager villager_inv
                                  partner_inv_estimate
                                  (_get_deficits villager villager_inv)) with
                   | [] => _
                   | _ :: _ => _
                   end)); [discriminate|].
    inversion Hneg; subst n. reflexivity. }
  rewrite Hoffering.
  assert (Hbound : forall t q, In (t, q) (o0 :: orest) ->
                               0 < q /\ q <= total_of villager_inv t).
  { intros t q Hin. destruct (Hdrawn t q Hin) as (Hq & s & Hs & Hle).
    destruct (surplus_within_holdings_aux villager villager_inv t s Hnd Hs)
      as (_ & Htot).
    split; [exact Hq | lra]. }
  split; [|split; [|discriminate]].
  { intros t q Hin. destruct (Hbound t q Hin) as [Hq Hle].
    split; [exact Hq|].
    unfold dict_mem. unfold total_of in Hle.
    destruct (dict_get (items villager_inv) t); [reflexivity|].
    exfalso. revert Hq. apply Qle_not_lt.
    apply (Qle_trans _ _ _ Hle). discriminate. }
  apply holds_all_true. intros t q Hin.
  destruct (Hbound t q Hin) as [Hq Hle]. lra.
Qed.


Lemma surplus_is_held_witness :
  dict_mem (items OfferFacts.timber_stock) "timber" = true
  /\ 0 < 5
  /\ (get_or (cat_food_value (catalog "timber")) 0.0 <= 0 ->
      5 <= total_of OfferFacts.timber_stock "timber").
Proof.
  apply (surplus_is_held OfferFacts.timber_owner OfferFacts.timber_stock
                         "timber" 5).
  - vm_compute. constructor; [intros [] | constructor].
  - vm_compute. left. reflexivity.
Defined.

Lemma generated_offer_is_backed_witness :
  exists offer,
    generate_offer ValuationFacts.sample_exp OfferFacts.timber_owner
                   OfferFacts.stone_owner OfferFacts.timber_stock
                   OfferFacts.stone_estimate 0 = Some offer
    /\ holds_all OfferFacts.timber_stock (offering offer) = true
    /\ offering offer <> [].
Proof.
  destruct (generate_offer ValuationFacts.sample_exp OfferFacts.timber_owner
                           OfferFacts.stone_owner OfferFacts.timber_stock
                           OfferFacts.stone_estimate 0) as [offer|] eqn:E.
  - assert (Hk : NoDup (dict_keys (items OfferFacts.timber_stock))).
    { vm_compute. constructor; [intros [] | constructor]. }
    destruct (generated_offer_is_backed _ _ _ _ _ _ _ Hk E) as (_ & H2 & H3).
    exists offer. split; [reflexivity|]. split; [exact H2 | exact H3].
  - vm_compute in E. discriminate.
Defined.

End SurplusFacts.

(* ===================================================================== *)
(** ** Families: membership and identifiers *)

Module HouseholdFacts.
Import Agent Families.

Lemma in_remove_first (vid m : Z) (ids : list Z) :
  NoDup ids -> (In m (remove_first vid ids) <-> In m ids /\ m <> vid).
Proof.
  induction ids as [|x rest IH]; cbn [remove_first]; intros Hnd.
  - split; [intros [] | intros [[] _]].
  - inversion Hnd as [|? ? Hnin Hrest]; subst.
    destruct (Z.eqb_spec x vid) as [->|Hne].
    + split.
      * intros Hin. split; [right; exact Hin|]. intros ->. contradiction.
      * intros [[Heq|Hin] Hm]; [congruence | exact Hin].
    + cbn [In]. rewrite (IH Hrest). split.
      * intros [Heq|[Hin Hm]]; [subst; split; [left; reflexivity | exact Hne]|].
        split; [right; exact Hin | exact Hm].
      * intros [[Heq|Hin] Hm]; [left; exact Heq | right; split; assumption].
Qed.

Lemma NoDup_remove_first (vid : Z) (ids : list Z) :
  NoDup ids -> NoDup (remove_first vid ids).
Proof.
  induction ids as [|x rest IH]; cbn [remove_first]; intros Hnd; [constructor|].
  inversion Hnd as [|? ? Hnin Hrest]; subst.
  destruct (x =? vid)%Z; [exact Hrest|].
  constructor; [|apply IH; exact Hrest].
  intros Hin. apply in_remove_first in Hin; [|exact Hrest]. apply Hnin, Hin.
Qed.

(** X15.  [add_member] keeps the member list free of duplicates, makes
    the villager a member, and adding a member twice is the same as
    adding once. *)
Theorem add_member_no_duplicates (f : Family) (vid : Z) :
  NoDup (member_ids f) ->
  NoDup (member_ids (add_member f vid))
  /\ In vid (member_ids (add_member f vid))
  /\ add_member (add_member f vid) vid = add_member f vid.
Proof.
  intros Hnd.
  assert (Hin : In vid (member_ids (add_member f vid)))
    by (apply FamilyFacts.add_member_ids; right; reflexivity).
  split; [|split; [exact Hin|]].
  - unfold add_member.
    destruct (is_member vid (member_ids f)) eqn:E; cbn [negb member_ids];
      [exact Hnd|].
    apply NoDup_app; [exact Hnd | repeat constructor; intros [] |].
    intros x Hx [<-|[]].
    apply FamilyFacts.is_member_In in Hx. congruence.
  - apply FamilyFacts.is_member_In in Hin.
    unfold add_member at 1. rewrite Hin. reflexivity.
Qed.

(** X16.  [remove_member] on a duplicate-free family takes out exactly
    that villager, and while members remain the head of household is one
    of them: a departing head is replaced by the first remaining member. *)
Theorem remove_member_keeps_head (f : Family) (vid : Z) :
  NoDup (member_ids f) ->
  In (head_of_household f) (member_ids f) ->
  (forall m, In m (member_ids (remove_member f vid))
             <-> In m (member_ids f) /\ m <> vid)
  /\ NoDup (member_ids (remove_member f vid))
  /\ (member_ids (remove_member f vid) <> [] ->
      In (head_of_household (remove_member f vid))
         (member_ids (remove_member f vid))).
Proof.
  intros Hnd Hhead.
  pose proof (FamilyFacts.remove_member_ids f vid) as Hids.
  split; [|split].
  - intros m. rewrite Hids. apply in_remove_first. exact Hnd.
  - rewrite Hids. apply NoDup_remove_first. exact Hnd.
  - rewrite Hids. intros Hne. unfold remove_member. cbn [head_of_household].
    assert (Hsame : (if is_member vid (member_ids f)
                     then remove_first vid (member_ids f)
                     else member_ids f) = remove_first vid (member_ids f)).
    { destruct (is_member vid (member_ids f)) eqn:E; [reflexivity|].
      symmetry. apply FamilyFacts.remove_first_absent. exact E. }
    rewrite Hsame.
    destruct (remove_first vid (member_ids f)) as [|first more] eqn:Er;
      [contradiction|].
    destruct (Z.eqb_spec (head_of_household f) vid) as [Heq|Hneq].
    + left. reflexivity.
    + rewrite <- Er. apply in_remove_first; [exact Hnd|]. split; assumption.
Qed.

(** Every family is stored under its own identifier, and every
    identifier in use is below the next one to be handed out. *)
Definition identifiers_fresh (fm : FamilyManager) : Prop :=
  forall k fam, In (k, fam) (families fm) -> fam_id fam = k /\ (k < _next_id fm)%Z.

Lemma in_idict_set {V : Type} (d : idict V) (k : Z) (v : V) (kv : Z * V) :
  In kv (idict_set d k v) -> kv = (k, v) \/ In kv d.
Proof.
  induction d as [|[k' v'] d IH]; cbn [idict_set]; intros Hin.
  - destruct Hin as [<-|[]]. left. reflexivity.
  - destruct (Z.eqb_spec k' k) as [->|Hne].
    + destruct Hin as [<-|Hin]; [left; reflexivity | right; right; exact Hin].
    + destruct Hin as [<-|Hin]; [right; left; reflexivity|].
      destruct (IH Hin) as [H|H]; [left; exact H | right; right; exact H].
Qed.

Lemma idict_set_fresh_keys {V : Type} (d : idict V) (k : Z) (v : V) :
  ~ In k (map fst d) -> map fst (idict_set d k v) = map fst d ++ [k].
Proof.
  induction d as [|[k' v'] d IH]; cbn [idict_set map fst app]; intros Hnin.
  - reflexivity.
  - destruct (Z.eqb_spec k' k) as [->|Hne].
    + exfalso. apply Hnin. left. reflexivity.
    + cbn [map fst]. rewrite IH; [reflexivity|].
      intro H. apply Hnin. right. exact H.
Qed.

(** X17.  [create_family] hands out identifiers that never collide: when
    all identifiers in use are below [_next_id], the new family is stored
    under a new key with the founding members (the first as head), every
    existing family stays as it was, and the identifiers remain unique
    and below the new [_next_id]. *)
Theorem create_family_fresh_identifier
        (fm : FamilyManager) (founding_members : list Z) (home : Z * Z) :
  NoDup (map fst (families fm)) ->
  identifiers_fresh fm ->
  let fam := fst (create_family fm founding_members home) in
  let fm' := snd (create_family fm founding_members home) in
  idict_get (families fm') (fam_id fam) = Some fam
  /\ fam_id fam = _next_id fm
  /\ member_ids fam = founding_members
  /\ head_of_household fam = hd (-1)%Z founding_members
  /\ (forall k, k <> fam_id fam ->
                idict_get (families fm') k = idict_get (families fm) k)
  /\ NoDup (map fst (families fm'))
  /\ identifiers_fresh fm'.
Proof.
  intros Hnd Hfresh. cbv zeta. unfold create_family.
  cbn [fst snd families fam_id member_ids head_of_household _next_id].
  assert (Hnew : ~ In (_next_id fm) (map fst (families fm))).
  { intros Hin. apply in_map_iff in Hin. destruct Hin as ([k fam] & Hk & Hin).
    cbn [fst] in Hk. subst k. destruct (Hfresh _ _ Hin) as [_ Hlt]. lia. }
  split; [apply FamilyFacts.idict_get_set_same|].
  split; [reflexivity|]. split; [reflexivity|].
  split; [destruct founding_members; reflexivity|].
  split; [intros k Hk; apply FamilyFacts.idict_get_set_other;
          intro H; apply Hk; symmetry; exact H|].
  split.
  - rewrite idict_set_fresh_keys by exact Hnew.
    apply NoDup_app; [exact Hnd | repeat constructor; intros [] |].
    intros x Hx [<-|[]]. contradiction.
  - intros k fam Hin. cbn [families _next_id] in *.
    apply in_idict_set in Hin. destruct Hin as [Heq|Hold].
    + inversion Heq; subst. cbn [fam_id]. split; [reflexivity | lia].
    + destruct (Hfresh _ _ Hold) as [Hid Hlt]. split; [exact Hid | lia].
Qed.


Lemma add_member_no_duplicates_witness :
  NoDup (member_ids (add_member FamilyFacts.brides_family 3))
  /\ In 3%Z (member_ids (add_member FamilyFacts.brides_family 3))
  /\ add_member (add_member FamilyFacts.brides_family 3) 3
     = add_member FamilyFacts.brides_family 3.
Proof.
  apply add_member_no_duplicates.
  cbn. constructor; [intros [H|[]]; discriminate H|].
  constructor; [intros [] | constructor].
Defined.

Lemma remove_member_keeps_head_witness :
  NoDup (member_ids (remove_member FamilyFacts.brides_family 2))
  /\ (member_ids (remove_member FamilyFacts.brides_family 2) <> [] ->
      In (head_of_household (remove_member FamilyFacts.brides_family 2))
         (member_ids (remove_member FamilyFacts.brides_family 2))).
Proof.
  refine (proj2 (remove_member_keeps_head FamilyFacts.brides_family 2 _ _)).
  - cbn. constructor; [intros [H|[]]; discriminate H|].
    constructor; [intros [] | constructor].
  - cbn. left. reflexivity.
Defined.

Lemma create_family_fresh_identifier_witness :
  fam_id (fst (create_family FamilyFacts.two_families [7%Z; 8%Z] (40, 40)%Z)) = 2%Z
  /\ identifiers_fresh
       (snd (create_family FamilyFacts.two_families [7%Z; 8%Z] (40, 40)%Z)).
Proof.
  assert (Hk : NoDup (map fst (families FamilyFacts.two_families))).
  { cbn. constructor; [intros [H|[]]; discriminate H|].
    constructor; [intros [] | constructor]. }
  assert (Hf : identifiers_fresh FamilyFacts.two_families).
  { intros k fam [H|[H|[]]]; inversion H; subst; cbn; split; (reflexivity || lia). }
  destruct (create_family_fresh_identifier FamilyFacts.two_families
              [7%Z; 8%Z] (40, 40)%Z Hk Hf)
    as (_ & H2 & _ & _ & _ & _ & H7).
  split; [exact H2 | exact H7].
Defined.

End HouseholdFacts.

(* ===================================================================== *)
(** ** agents/decision.py: choosing among the candidates *)

Module Selection.

Definition SATISFICE_THRESHOLD : Q := 0.6.

(** A planned activity for a time slot in the day. *)
Record ActivityPlan := mkPlan {
  activity_name : string;
  target_resource_id : option Z;
  target_villager_id : option Z;
  planned_hours : Q;
  target_position : option (Z * Z)
}.

(** [candidates.sort(key=lambda x: x[0], reverse=True)]: by score,
    highest first, candidates of equal score in their original order. *)
Fixpoint insert_desc (c : Q * ActivityPlan) (l : list (Q * ActivityPlan))
  : list (Q * ActivityPlan) :=
  match l with
  | [] => [c]
  | d :: l' => if Qle_bool (fst d) (fst c) then c :: l else d :: insert_desc c l'
  end.

Definition sort_desc (candidates : list (Q * ActivityPlan))
  : list (Q * ActivityPlan) :=
  fold_right insert_desc [] candidates.

(** The satisficing loop: the first candidate whose score clears the
    threshold or the ambition-adjusted threshold. *)
Fixpoint first_good_enough (candidates : list (Q * ActivityPlan)) (ambition : Q)
  : option ActivityPlan :=
  match candidates with
  | [] => None
  | (score, plan) :: rest =>
      if Qle_bool SATISFICE_THRESHOLD score then Some plan
      else
        let adjusted_threshold :=
          SATISFICE_THRESHOLD * (0.7 + 0.6 * ambition / 100) in
        if Qle_bool adjusted_threshold score then Some plan
        else first_good_enough rest ambition
  end.

(** The end of [_pick_next_activity], from [if not candidates] on: no
    candidate gives [None]; otherwise sort, satisfice, and fall back on
    the best candidate. *)
Definition choose (candidates : list (Q * ActivityPlan)) (ambition : Q)
  : option ActivityPlan :=
  match candidates with
  | [] => None
  | _ =>
      let ranked := sort_desc candidates in
      match first_good_enough ranked ambition with
      | Some plan => Some plan
      | None => match ranked with
                | best :: _ => Some (snd best)
                | [] => None
                end
      end
  end.

End Selection.

Module SelectionFacts.
Import Selection.

(** The head dominates the rest. *)
Fixpoint descending (l : list (Q * ActivityPlan)) : Prop :=
  match l with
  | [] => True
  | c :: rest => Forall (fun d => fst d <= fst c) rest /\ descending rest
  end.

Lemma insert_desc_perm (c : Q * ActivityPlan) (l : list (Q * ActivityPlan)) :
  Permutation (insert_desc c l) (c :: l).
Proof.
  induction l as [|d l IH]; cbn [insert_desc]; [apply Permutation_refl|].
  destruct (Qle_bool (fst d) (fst c)); [apply Permutation_refl|].
  apply perm_trans with (d :: c :: l); [apply perm_skip; exact IH | apply perm_swap].
Qed.

Lemma sort_desc_perm (l : list (Q * ActivityPlan)) : Permutation (sort_desc l) l.
Proof.
  induction l as [|c l IH]; cbn [sort_desc fold_right]; [apply perm_nil|].
  apply perm_trans with (c :: sort_desc l);
    [apply insert_desc_perm | apply perm_skip; exact IH].
Qed.

Lemma insert_desc_descending (c : Q * ActivityPlan) (l : list (Q * ActivityPlan)) :
  descending l -> descending (insert_desc c l).
Proof.
  induction l as [|d l IH]; cbn [insert_desc descending].
  - intros _. split; [constructor | exact I].
  - intros [Hd Hrest].
    destruct (Qle_bool (fst d) (fst c)) eqn:E; qbool; cbn [descending].
    + split; [|split; assumption].
      constructor; [exact E|].
      apply Forall_forall. intros x Hx. rewrite Forall_forall in Hd.
      apply Qle_trans with (fst d); [apply Hd; exact Hx | exact E].
    + split; [|apply IH; exact Hrest].
      apply (Permutation_Forall (Permutation_sym (insert_desc_perm c l))).
      constructor; [apply Qlt_le_weak; exact E | exact Hd].
Qed.

Lemma sort_desc_descending (l : list (Q * ActivityPlan)) : descending (sort_desc l).
Proof.
  induction l as [|c l IH]; cbn [sort_desc fold_right]; [exact I|].
  apply insert_desc_descending. exact IH.
Qed.

(** Below both bars at some score, below them at every lower score. *)
Lemma first_good_enough_none (l : list (Q * ActivityPlan)) (ambition top : Q) :
  Forall (fun d => fst d <= top) l ->
  Qle_bool SATISFICE_THRESHOLD top = false ->
  Qle_bool (SATISFICE_THRESHOLD * (0.7 + 0.6 * ambition / 100)) top = false ->
  first_good_enough l ambition = None.
Proof.
  intros Hall H1 H2. qbool.
  induction Hall as [|[score plan] l Hs _ IH]; cbn [first_good_enough]; [reflexivity|].
  cbn [fst] in Hs.
  assert (E1 : Qle_bool SATISFICE_THRESHOLD score = false)
    by (apply Qle_bool_false; lra).
  assert (E2 : Qle_bool (SATISFICE_THRESHOLD * (0.7 + 0.6 * ambition / 100)) score
               = false) by (apply Qle_bool_false; lra).
  rewrite E1. cbv zeta. rewrite E2. exact IH.
Qed.

(** X19.  Whatever the thresholds and the ambition, the choice among
    candidates is the top of the ranking: [choose] returns a plan exactly
    when there is a candidate, and then it is the plan of the first
    candidate of the descending sort, whose score no candidate exceeds. *)
Theorem choose_takes_top_candidate
        (candidates : list (Q * ActivityPlan)) (ambition : Q) :
  candidates <> [] ->
  exists best rest,
    sort_desc candidates = best :: rest
    /\ choose candidates ambition = Some (snd best)
    /\ In best candidates
    /\ forall c, In c candidates -> fst c <= fst best.
Proof.
  intros Hne.
  pose proof (sort_desc_perm candidates) as Hperm.
  pose proof (sort_desc_descending candidates) as Hdesc.
  destruct (sort_desc candidates) as [|best rest] eqn:Es.
  - apply Permutation_nil in Hperm. contradiction.
  - exists best, rest. split; [reflexivity|].
    destruct Hdesc as [Htop _].
    split; [|split].
    + unfold choose. destruct candidates as [|c0 more]; [contradiction|].
      rewrite Es. destruct best as [score plan]. cbn [first_good_enough snd].
      destruct (Qle_bool SATISFICE_THRESHOLD score) eqn:E1; [reflexivity|].
      cbv zeta.
      destruct (Qle_bool (SATISFICE_THRESHOLD * (0.7 + 0.6 * ambition / 100)) score)
        eqn:E2; [reflexivity|].
      rewrite (first_good_enough_none rest ambition score Htop E1 E2). reflexivity.
    + apply (Permutation_in _ Hperm). left. reflexivity.
    + intros c Hc. apply (Permutation_in _ (Permutation_sym Hperm)) in Hc.
      destruct Hc as [<-|Hc]; [apply Qle_refl|].
      rewrite Forall_forall in Htop. apply Htop. exact Hc.
Qed.


(** Two candidates, both under the satisficing threshold. *)
Definition weak_candidates : list (Q * ActivityPlan) :=
  [ (0.1, mkPlan "idle" None None 1 None);
    (0.3, mkPlan "gather_wood" (Some 4%Z) None 4 (Some (41, 40)%Z)) ].

Lemma choose_takes_top_candidate_witness :
  exists best rest,
    sort_desc weak_candidates = best :: rest
    /\ choose weak_candidates 50 = Some (snd best)
    /\ forall c, In c weak_candidates -> fst c <= fst best.
Proof.
  destruct (choose_takes_top_candidate weak_candidates 50)
    as (best & rest & H1 & H2 & _ & H4).
  - discriminate.
  - exists best, rest. split; [exact H1|]. split; [exact H2 | exact H4].
Defined.

End SelectionFacts.

(* ===================================================================== *)
(** ** Decision engine: what an admitted activity guarantees *)

Module GateFacts.
Import Inv Agent Decision.

(** X20.  An activity the gates admit fits the time left (unless it has
    no fixed duration), is in season, and, when it draws on a resource,
    targets the node the world reports: a node that is not depleted and
    whose round trip plus the activity fits the remaining hours. *)
Theorem admitted_activity_is_feasible
        (villager : Villager) (activity : Activity) (world_state : WorldState)
        (remaining_hours : Q) (feasible : Feasible) :
  evaluate_gates villager activity world_state remaining_hours = Some feasible ->
  (base_hours activity <= remaining_hours \/ base_hours activity <= 0)
  /\ (forall seasons, required_season activity = Some seasons ->
                      In (season world_state) seasons)
  /\ match resource_type activity with
     | None => feas_target_resource_id feasible = None
               /\ feas_travel_hours feasible == 0
     | Some rt =>
         exists node,
           find_resource world_state (current_position villager) rt = Some node
           /\ 0 < current_abundance node
           /\ feas_target_resource_id feasible = Some (node_id node)
           /\ feas_travel_hours feasible
              = estimate_travel world_state (current_position villager) (position node)
           /\ feas_travel_hours feasible * 2 + base_hours activity <= remaining_hours
     end.
Proof.
  unfold evaluate_gates.
  destruct (Qlt_bool remaining_hours (base_hours activity)
            && Qlt_bool 0 (base_hours activity)) eqn:Etime; [discriminate|].
  destruct (required_season activity) as [seasons|] eqn:Eseason.
  - destruct (negb (existsb (String.eqb (season world_state)) seasons)) eqn:Ein;
      [discriminate|].
    intros H. split; [|split].
    + apply andb_false_iff in Etime. destruct Etime as [E|E]; qbool; [left | right]; exact E.
    + intros s Hs. inversion Hs; subst.
      apply negb_false_iff in Ein. apply existsb_exists in Ein.
      destruct Ein as (x & Hx & Heq). apply String.eqb_eq in Heq. subst. exact Hx.
    + revert H.
      destruct (match required_tools activity with
                | [] => Some 1.0
                | _ :: _ => _
                end) as [tq|]; [|discriminate].
      destruct (resource_type activity) as [rt|].
      * destruct (find_resource world_state (current_position villager) rt)
          as [node|]; [|discriminate].
        destruct (Qle_bool (current_abundance node) 0) eqn:Eab; [discriminate|].
        destruct (Qlt_bool remaining_hours
                    (estimate_travel world_state (current_position villager)
                                     (position node) * 2 + base_hours activity))
          eqn:Etr; [intros H; discriminate H|].
        intros H. inversion H; subst. cbn [feas_target_resource_id feas_travel_hours].
        qbool. exists node.
        split; [reflexivity|]. split; [exact Eab|]. split; [reflexivity|].
        split; [reflexivity | exact Etr].
      * intros H. inversion H; subst. cbn. split; reflexivity.
  - intros H. split; [|split].
    + apply andb_false_iff in Etime. destruct Etime as [E|E]; qbool; [left | right]; exact E.
    + intros s Hs. discriminate.
    + revert H.
      destruct (match required_tools activity with
                | [] => Some 1.0
                | _ :: _ => _
                end) as [tq|]; [|discriminate].
      destruct (resource_type activity) as [rt|].
      * destruct (find_resource world_state (current_position villager) rt)
          as [node|]; [|discriminate].
        destruct (Qle_bool (current_abundance node) 0) eqn:Eab; [discriminate|].
        destruct (Qlt_bool remaining_hours
                    (estimate_travel world_state (current_position villager)
                                     (position node) * 2 + base_hours activity))
          eqn:Etr; [intros H; discriminate H|].
        intros H. inversion H; subst. cbn [feas_target_resource_id feas_travel_hours].
        qbool. exists node.
        split; [reflexivity|]. split; [exact Eab|]. split; [reflexivity|].
        split; [reflexivity | exact Etr].
      * intros H. inversion H; subst. cbn. split; reflexivity.
Qed.


Lemma admitted_activity_is_feasible_witness :
  exists feasible,
    evaluate_gates DecisionFacts.builder DecisionFacts.build_shelter
                   DecisionFacts.summer_world 10 = Some feasible
    /\ (base_hours DecisionFacts.build_shelter <= 10
        \/ base_hours DecisionFacts.build_shelter <= 0)
    /\ feas_target_resource_id feasible = None.
Proof.
  destruct (evaluate_gates DecisionFacts.builder DecisionFacts.build_shelter
                           DecisionFacts.summer_world 10) as [feasible|] eqn:E.
  - destruct (admitted_activity_is_feasible _ _ _ _ _ E) as (H1 & _ & H3).
    exists feasible. split; [reflexivity|]. split; [exact H1|].
    exact (proj1 H3).
  - vm_compute in E. discriminate.
Defined.

End GateFacts.

(* ===================================================================== *)
(** ** core/clock.py *)

Module Clock.

Definition DAYS_PER_SEASON : Z := 90.
Definition DAYS_PER_YEAR : Z := 360.
Definition SEASONS : list string := [ "spring"; "summer"; "autumn"; "winter" ].
Definition DAYLIGHT_HOURS : dict Q :=
  [ ("spring", 13.0); ("summer", 16.0); ("autumn", 12.0); ("winter", 10.0) ].

(** Manages simulation time. *)
Record SimClock := mkClock { day : Z }.

Definition new_clock : SimClock := mkClock 0.

(** [SEASONS[i]] *)
Definition season_at (i : Z) : string := nth (Z.to_nat i) SEASONS "".

(** [SEASONS.index(s)] *)
Fixpoint index_in (s : string) (l : list string) : Z :=
  match l with
  | [] => 0
  | x :: rest => if String.eqb x s then 0 else 1 + index_in s rest
  end.

Definition year (c : SimClock) : Z := day c / DAYS_PER_YEAR.
Definition day_of_year (c : SimClock) : Z := day c mod DAYS_PER_YEAR.
Definition day_of_season (c : SimClock) : Z := day_of_year c mod DAYS_PER_SEASON.

Definition season_index (c : SimClock) : Z :=
  (day_of_year c / DAYS_PER_SEASON) mod Z.of_nat (List.length SEASONS).

Definition season (c : SimClock) : string := season_at (season_index c).

(** Advance the clock by one day. *)
Definition advance (c : SimClock) : SimClock := mkClock (day c + 1).

Definition is_planting_season (c : SimClock) : bool := String.eqb (season c) "spring".
Definition is_harvest_season (c : SimClock) : bool := String.eqb (season c) "autumn".

Definition hours_of (s : string) : Q :=
  match dict_get DAYLIGHT_HOURS s with Some h => h | None => 0 end.

(** Hours of daylight, interpolated linearly within the season toward
    the next one. *)
Definition daylight_hours (c : SimClock) : Q :=
  let s := season c in
  let day_frac := inject_Z (day_of_season c) / inject_Z DAYS_PER_SEASON in
  let current_hours := hours_of s in
  let next_season :=
    season_at ((index_in s SEASONS + 1) mod Z.of_nat (List.length SEASONS)) in
  let next_hours := hours_of next_season in
  current_hours + (next_hours - current_hours) * day_frac.

End Clock.

Module ClockFacts.
Import Clock.

Lemma season_index_range (c : SimClock) : (0 <= season_index c < 4)%Z.
Proof. unfold season_index. cbn [List.length SEASONS]. apply Z.mod_pos_bound. lia. Qed.

Lemma day_of_season_range (c : SimClock) : (0 <= day_of_season c < 90)%Z.
Proof. unfold day_of_season, DAYS_PER_SEASON. apply Z.mod_pos_bound. lia. Qed.

Lemma day_of_year_range (c : SimClock) : (0 <= day_of_year c < 360)%Z.
Proof. unfold day_of_year, DAYS_PER_YEAR. apply Z.mod_pos_bound. lia. Qed.

Lemma season_index_quotient (c : SimClock) :
  season_index c = (day_of_year c / 90)%Z.
Proof.
  unfold season_index, DAYS_PER_SEASON. cbn [List.length SEASONS].
  pose proof (day_of_year_range c) as Hr.
  apply Z.mod_small. split.
  - apply Z.div_pos; lia.
  - apply Z.div_lt_upper_bound; lia.
Qed.

(** X21.  The clock splits a day count into year, season and day of the
    season without loss: [day = 360*year + 90*season_index +
    day_of_season] with the season index within 0..3 and the day of the
    season within 0..89; the season is one of the four names, and the
    calendar repeats every 360 days. *)
Theorem clock_decomposes_day (c : SimClock) :
  day c = (360 * year c + 90 * season_index c + day_of_season c)%Z
  /\ (0 <= season_index c < 4)%Z
  /\ (0 <= day_of_season c < 90)%Z
  /\ In (season c) SEASONS
  /\ season (mkClock (day c + 360)) = season c
  /\ day_of_season (mkClock (day c + 360)) = day_of_season c
  /\ year (mkClock (day c + 360)) = (year c + 1)%Z.
Proof.
  pose proof (season_index_range c) as Hs.
  split; [|split; [exact Hs|split; [apply day_of_season_range|]]].
  - rewrite season_index_quotient.
    unfold year, day_of_season, day_of_year, DAYS_PER_YEAR, DAYS_PER_SEASON.
    pose proof (Z.div_mod (day c) 360 ltac:(lia)) as H1.
    pose proof (Z.div_mod (day c mod 360) 90 ltac:(lia)) as H2.
    lia.
  - split.
    + unfold season, season_at.
      assert (Hk : season_index c = 0%Z \/ season_index c = 1%Z
                   \/ season_index c = 2%Z \/ season_index c = 3%Z) by lia.
      destruct Hk as [-> | [-> | [-> | ->]]]; cbn; tauto.
    + assert (Hdoy : day_of_year (mkClock (day c + 360)) = day_of_year c).
      { unfold day_of_year, DAYS_PER_YEAR. cbn [day].
        replace (day c + 360)%Z with (day c + 1 * 360)%Z by lia.
        apply Z.mod_add. lia. }
      split; [|split].
      * unfold season, season_index. rewrite Hdoy. reflexivity.
      * unfold day_of_season. rewrite Hdoy. reflexivity.
      * unfold year, DAYS_PER_YEAR. cbn [day].
        replace (day c + 360)%Z with (day c + 1 * 360)%Z by lia.
        rewrite Z.div_add by lia. reflexivity.
Qed.

Lemma daylight_by_index (c : SimClock) (k : Z) (cur next : Q) :
  season_index c = k ->
  hours_of (season_at k) = cur ->
  hours_of (season_at ((index_in (season_at k) SEASONS + 1)
                       mod Z.of_nat (List.length SEASONS))) = next ->
  daylight_hours c
  = cur + (next - cur) * (inject_Z (day_of_season c) / inject_Z DAYS_PER_SEASON).
Proof.
  intros Hk Hcur Hnext. unfold daylight_hours, season. rewrite Hk, Hcur, Hnext.
  reflexivity.
Qed.

(** X22.  Daylight is always between the shortest and the longest
    seasonal value, 10 and 16 hours, and on the first day of a season it
    is exactly that season's value. *)
Theorem daylight_hours_range (c : SimClock) :
  10 <= daylight_hours c /\ daylight_hours c <= 16
  /\ (day_of_season c = 0%Z -> daylight_hours c == hours_of (season c)).
Proof.
  pose proof (season_index_range c) as Hs.
  pose proof (day_of_season_range c) as Hd.
  set (f := inject_Z (day_of_season c) / inject_Z DAYS_PER_SEASON).
  assert (Hf : 0 <= f /\ f < 1).
  { unfold f, DAYS_PER_SEASON. split.
    - apply Qle_shift_div_l; [reflexivity|].
      unfold Qle. cbn [Qnum Qden inject_Z Qmult]. lia.
    - apply Qlt_shift_div_r; [reflexivity|].
      unfold Qlt. cbn [Qnum Qden inject_Z Qmult]. lia. }
  assert (Hzero : day_of_season c = 0%Z -> f == 0).
  { intros H0. unfold f. rewrite H0. reflexivity. }
  assert (Hk : season_index c = 0%Z \/ season_index c = 1%Z
               \/ season_index c = 2%Z \/ season_index c = 3%Z) by lia.
  destruct Hf as [Hf0 Hf1].
  destruct Hk as [Hk | [Hk | [Hk | Hk]]];
    unfold season; rewrite Hk;
    [ rewrite (daylight_by_index c 0 13.0 16.0 Hk eq_refl eq_refl)
    | rewrite (daylight_by_index c 1 16.0 12.0 Hk eq_refl eq_refl)
    | rewrite (daylight_by_index c 2 12.0 10.0 Hk eq_refl eq_refl)
    | rewrite (daylight_by_index c 3 10.0 13.0 Hk eq_refl eq_refl) ];
    fold f;
    (split; [lra|]; split; [lra|]; intros H0; rewrite (Hzero H0); reflexivity).
Qed.

End ClockFacts.

(* ===================================================================== *)
(** ** social/relationships.py *)

Module Relationships.

(** core/config.py *)
Definition RELATIONSHIP_DECAY_RATE : Q := 0.001.
Definition TRUST_GAIN_PER_POSITIVE : Q := 0.05.
Definition TRUST_LOSS_PER_NEGATIVE : Q := 0.10.

(** Pairwise relationship between two villagers. *)
Record Relationship := mkRelationship {
  villager_a_id : Z;
  villager_b_id : Z;
  trust : Q;
  affinity : Q;
  familiarity : Q;
  interaction_count : Z;
  last_interaction_day : Z
}.

Definition new_relationship (a b : Z) : Relationship :=
  mkRelationship a b 0.0 0.0 0.0 0 0.

Definition set_last_interaction_day (r : Relationship) (d : Z) : Relationship :=
  mkRelationship (villager_a_id r) (villager_b_id r) (trust r) (affinity r)
                 (familiarity r) (interaction_count r) d.

(** Record a positive interaction.  Trust gains are slow. *)
Definition positive_interaction (r : Relationship) (magnitude : Q) : Relationship :=
  mkRelationship (villager_a_id r) (villager_b_id r)
    (Qmin 1.0 (trust r + TRUST_GAIN_PER_POSITIVE * magnitude))
    (Qmin 1.0 (affinity r + 0.03 * magnitude))
    (Qmin 1.0 (familiarity r + 0.02))
    (interaction_count r + 1)
    (last_interaction_day r).

(** Record a negative interaction.  Trust losses are fast. *)
Definition negative_interaction (r : Relationship) (magnitude : Q) : Relationship :=
  mkRelationship (villager_a_id r) (villager_b_id r)
    (Qmax (-1.0) (trust r - TRUST_LOSS_PER_NEGATIVE * magnitude))
    (Qmax (-1.0) (affinity r - 0.06 * magnitude))
    (familiarity r)
    (interaction_count r + 1)
    (last_interaction_day r).

(** Relationships fade without interaction. *)
Definition daily_decay (r : Relationship) (current_day : Z) : Relationship :=
  let days_since := (current_day - last_interaction_day r)%Z in
  if (0 <? days_since)%Z then
    let decay := RELATIONSHIP_DECAY_RATE * inject_Z days_since in
    mkRelationship (villager_a_id r) (villager_b_id r)
      (if Qlt_bool 0 (trust r) then Qmax 0.0 (trust r - decay * 0.1) else trust r)
      (affinity r * Qmax 0.0 (1.0 - decay))
      (familiarity r * Qmax 0.0 (1.0 - decay * 0.5))
      (interaction_count r)
      (last_interaction_day r)
  else r.

(** Canonical key for a pair of villagers. *)
Definition _pair_key (a b : Z) : Z * Z := (Z.min a b, Z.max a b).

Definition key_eqb (k1 k2 : Z * Z) : bool :=
  (fst k1 =? fst k2)%Z && (snd k1 =? snd k2)%Z.

Definition pdict := list ((Z * Z) * Relationship).

Fixpoint pdict_get (d : pdict) (k : Z * Z) : option Relationship :=
  match d with
  | [] => None
  | (k', v) :: d' => if key_eqb k' k then Some v else pdict_get d' k
  end.

Fixpoint pdict_set (d : pdict) (k : Z * Z) (v : Relationship) : pdict :=
  match d with
  | [] => [(k, v)]
  | (k', v') :: d' =>
      if key_eqb k' k then (k', v) :: d' else (k', v') :: pdict_set d' k v
  end.

(** Manages all pairwise relationships. *)
Record RelationshipManager := mkRelations { _relationships : pdict }.

Definition new_manager : RelationshipManager := mkRelations [].

Definition get_or_create (rm : RelationshipManager) (a_id b_id : Z)
  : RelationshipManager * Relationship :=
  let key := _pair_key a_id b_id in
  match pdict_get (_relationships rm) key with
  | Some r => (rm, r)
  | None =>
      let r := new_relationship (fst key) (snd key) in
      (mkRelations (pdict_set (_relationships rm) key r), r)
  end.

(** [villager_id in key] *)
Definition in_key (villager_id : Z) (key : Z * Z) : bool :=
  (fst key =? villager_id)%Z || (snd key =? villager_id)%Z.

Definition other_of (villager_id : Z) (key : Z * Z) : Z :=
  if (fst key =? villager_id)%Z then snd key else fst key.

Definition get_all_for (rm : RelationshipManager) (villager_id : Z)
  : list Relationship :=
  map snd (filter (fun kr => in_key villager_id (fst kr)) (_relationships rm)).

(** IDs of villagers this person considers a friend. *)
Definition get_friends (rm : RelationshipManager) (villager_id : Z)
           (min_affinity : Q) : list Z :=
  map (fun kr => other_of villager_id (fst kr))
      (filter (fun kr => in_key villager_id (fst kr)
                         && Qle_bool min_affinity (affinity (snd kr)))
              (_relationships rm)).

(** IDs of villagers this person trusts. *)
Definition get_trusted (rm : RelationshipManager) (villager_id : Z)
           (min_trust : Q) : list Z :=
  map (fun kr => other_of villager_id (fst kr))
      (filter (fun kr => in_key villager_id (fst kr)
                         && Qle_bool min_trust (trust (snd kr)))
              (_relationships rm)).

(** Decay all relationships that have not been interacted with. *)
Definition daily_decay_all (rm : RelationshipManager) (current_day : Z)
  : RelationshipManager :=
  mkRelations (map (fun kr => (fst kr, daily_decay (snd kr) current_day))
                   (_relationships rm)).

(** Record an interaction between two villagers.  The relationship
    object is the one held by the dictionary, so the changes land under
    the pair's key. *)
Definition record_interaction (rm : RelationshipManager) (a_id b_id : Z)
           (positive : bool) (magnitude : Q) (day : Z) : RelationshipManager :=
  let '(rm1, rel) := get_or_create rm a_id b_id in
  let rel1 := set_last_interaction_day rel day in
  let rel2 := if positive then positive_interaction rel1 magnitude
              else negative_interaction rel1 magnitude in
  mkRelations (pdict_set (_relationships rm1) (_pair_key a_id b_id) rel2).

(** The documented ranges of the three scores. *)
Definition in_bounds (r : Relationship) : Prop :=
  (-1 <= trust r /\ trust r <= 1)
  /\ (-1 <= affinity r /\ affinity r <= 1)
  /\ (0 <= familiarity r /\ familiarity r <= 1).

Definition all_in_bounds (rm : RelationshipManager) : Prop :=
  Forall (fun kr => in_bounds (snd kr)) (_relationships rm).

End Relationships.

Module RelationshipFacts.
Import Relationships.

Lemma key_eqb_refl (k : Z * Z) : key_eqb k k = true.
Proof. unfold key_eqb. rewrite !Z.eqb_refl. reflexivity. Qed.

Lemma key_eqb_eq (k1 k2 : Z * Z) : key_eqb k1 k2 = true <-> k1 = k2.
Proof.
  unfold key_eqb. destruct k1 as [a b], k2 as [c d]. cbn [fst snd].
  rewrite andb_true_iff, !Z.eqb_eq. split.
  - intros [-> ->]. reflexivity.
  - intros H. inversion H. split; reflexivity.
Qed.

Lemma pair_key_sym (a b : Z) : _pair_key a b = _pair_key b a.
Proof. unfold _pair_key. rewrite Z.min_comm, Z.max_comm. reflexivity. Qed.

Lemma pdict_get_set_same (d : pdict) (k : Z * Z) (v : Relationship) :
  pdict_get (pdict_set d k v) k = Some v.
Proof.
  induction d as [|[k' v'] d IH]; cbn [pdict_set pdict_get].
  - rewrite key_eqb_refl. reflexivity.
  - destruct (key_eqb k' k) eqn:E; cbn [pdict_get]; rewrite E; [reflexivity | exact IH].
Qed.

Lemma pdict_get_set_other (d : pdict) (k k0 : Z * Z) (v : Relationship) :
  k0 <> k -> pdict_get (pdict_set d k v) k0 = pdict_get d k0.
Proof.
  intros Hne. induction d as [|[k' v'] d IH]; cbn [pdict_set pdict_get].
  - destruct (key_eqb k k0) eqn:E; [|reflexivity].
    apply key_eqb_eq in E. congruence.
  - destruct (key_eqb k' k) eqn:E; cbn [pdict_get].
    + destruct (key_eqb k' k0) eqn:E0; [|reflexivity].
      apply key_eqb_eq in E. apply key_eqb_eq in E0. congruence.
    + destruct (key_eqb k' k0); [reflexivity | exact IH].
Qed.

Lemma pdict_set_forall (P : Relationship -> Prop) (d : pdict) (k : Z * Z)
      (v : Relationship) :
  Forall (fun kr => P (snd kr)) d -> P v ->
  Forall (fun kr => P (snd kr)) (pdict_set d k v).
Proof.
  intros Hd Hv. induction Hd as [|[k' v'] d Hx Hd IH]; cbn [pdict_set].
  - constructor; [exact Hv | constructor].
  - destruct (key_eqb k' k); constructor; try assumption.
Qed.

Lemma pdict_get_forall (P : Relationship -> Prop) (d : pdict) (k : Z * Z)
      (v : Relationship) :
  Forall (fun kr => P (snd kr)) d -> pdict_get d k = Some v -> P v.
Proof.
  intros Hd. induction Hd as [|[k' v'] d Hx Hd IH]; cbn [pdict_get].
  - discriminate.
  - destruct (key_eqb k' k); [|exact IH].
    intros H. inversion H; subst. exact Hx.
Qed.

Lemma new_relationship_in_bounds (a b : Z) : in_bounds (new_relationship a b).
Proof. unfold in_bounds, new_relationship. cbn. repeat split; discriminate. Qed.

Lemma positive_interaction_in_bounds (r : Relationship) (m : Q) :
  0 <= m -> in_bounds r -> in_bounds (positive_interaction r m).
Proof.
  intros Hm [[Ht0 Ht1] [[Ha0 Ha1] [Hf0 Hf1]]].
  unfold in_bounds, positive_interaction, TRUST_GAIN_PER_POSITIVE.
  cbn [trust affinity familiarity].
  split; [|split]; split.
  - apply Q.min_glb; lra.
  - eapply Qle_trans; [apply Q.le_min_l | lra].
  - apply Q.min_glb; lra.
  - eapply Qle_trans; [apply Q.le_min_l | lra].
  - apply Q.min_glb; lra.
  - eapply Qle_trans; [apply Q.le_min_l | lra].
Qed.

Lemma negative_interaction_in_bounds (r : Relationship) (m : Q) :
  0 <= m -> in_bounds r -> in_bounds (negative_interaction r m).
Proof.
  intros Hm [[Ht0 Ht1] [[Ha0 Ha1] [Hf0 Hf1]]].
  unfold in_bounds, negative_interaction, TRUST_LOSS_PER_NEGATIVE.
  cbn [trust affinity familiarity].
  split; [|split]; split; try assumption.
  - eapply Qle_trans; [|apply Q.le_max_l]. lra.
  - apply Q.max_lub; lra.
  - eapply Qle_trans; [|apply Q.le_max_l]. lra.
  - apply Q.max_lub; lra.
Qed.

Lemma unit_factor (x : Q) : 0 <= Qmax 0.0 (1.0 - x) /\ (0 <= x -> Qmax 0.0 (1.0 - x) <= 1).
Proof.
  split.
  - eapply Qle_trans; [|apply Q.le_max_l]. lra.
  - intros Hx. apply Q.max_lub; lra.
Qed.

Lemma daily_decay_in_bounds (r : Relationship) (d : Z) :
  in_bounds r -> in_bounds (daily_decay r d).
Proof.
  intros Hb. unfold daily_decay.
  destruct (0 <? d - last_interaction_day r)%Z eqn:E; [|exact Hb].
  apply Z.ltb_lt in E.
  destruct Hb as [[Ht0 Ht1] [[Ha0 Ha1] [Hf0 Hf1]]].
  set (decay := RELATIONSHIP_DECAY_RATE * inject_Z (d - last_interaction_day r)).
  assert (Hdec : 0 <= decay).
  { unfold decay, RELATIONSHIP_DECAY_RATE. apply Qmult_le_0_compat; [lra|].
    unfold Qle. cbn [Qnum Qden inject_Z]. lia. }
  unfold in_bounds. cbn [trust affinity familiarity].
  destruct (unit_factor decay) as [Hu0 Hu1]. specialize (Hu1 Hdec).
  destruct (unit_factor (decay * 0.5)) as [Hv0 Hv1].
  assert (Hv1' : Qmax 0.0 (1.0 - decay * 0.5) <= 1) by (apply Hv1; lra).
  split; [|split]; split.
  - destruct (Qlt_bool 0 (trust r)); [|exact Ht0].
    eapply Qle_trans; [|apply Q.le_max_l]. lra.
  - destruct (Qlt_bool 0 (trust r)); [|exact Ht1].
    apply Q.max_lub; lra.
  - nra.
  - nra.
  - nra.
  - nra.
Qed.

(** X23.  The three scores of every stored relationship stay in their
    documented ranges (trust and affinity in [-1,1], familiarity in
    [0,1]) when an interaction of non-negative magnitude is recorded and
    when the daily decay is applied to all relationships. *)
Theorem relationship_scores_stay_in_range
        (rm : RelationshipManager) (a_id b_id : Z) (positive : bool)
        (magnitude : Q) (day : Z) :
  0 <= magnitude -> all_in_bounds rm ->
  all_in_bounds (record_interaction rm a_id b_id positive magnitude day)
  /\ all_in_bounds (daily_decay_all rm day).
Proof.
  intros Hm Hall. split.
  - unfold record_interaction, get_or_create.
    destruct (pdict_get (_relationships rm) (_pair_key a_id b_id)) as [r|] eqn:Eg.
    + assert (Hr : in_bounds r) by exact (pdict_get_forall in_bounds _ _ _ Hall Eg).
      unfold all_in_bounds. cbn [_relationships].
      apply pdict_set_forall; [exact Hall|].
      destruct positive;
        [apply positive_interaction_in_bounds | apply negative_interaction_in_bounds];
        try exact Hm; exact Hr.
    + unfold all_in_bounds. cbn [_relationships].
      apply pdict_set_forall.
      * apply pdict_set_forall; [exact Hall | apply new_relationship_in_bounds].
      * destruct positive;
          [apply positive_interaction_in_bounds | apply negative_interaction_in_bounds];
          try exact Hm; apply new_relationship_in_bounds.
  - unfold all_in_bounds, daily_decay_all. cbn [_relationships].
    unfold all_in_bounds in Hall.
    induction Hall as [|[k r] d Hx Hd IH]; cbn [map]; constructor.
    + cbn [snd fst]. apply daily_decay_in_bounds. exact Hx.
    + exact IH.
Qed.

(** X24.  Relationships are unordered: recording an interaction between
    a and b is the same as recording it between b and a, and afterwards
    a lookup in either order finds one relationship, dated on the day of
    the interaction, without changing the manager. *)
Theorem record_interaction_is_symmetric
        (rm : RelationshipManager) (a_id b_id : Z) (positive : bool)
        (magnitude : Q) (day : Z) :
  let rm' := record_interaction rm a_id b_id positive magnitude day in
  record_interaction rm b_id a_id positive magnitude day = rm'
  /\ get_or_create rm' a_id b_id = get_or_create rm' b_id a_id
  /\ fst (get_or_create rm' a_id b_id) = rm'
  /\ last_interaction_day (snd (get_or_create rm' a_id b_id)) = day
  /\ interaction_count (snd (get_or_create rm' a_id b_id))
     = (interaction_count (snd (get_or_create rm a_id b_id)) + 1)%Z.
Proof.
  cbn zeta.
  assert (Hsym : forall m, get_or_create m b_id a_id = get_or_create m a_id b_id).
  { intros m. unfold get_or_create. rewrite (pair_key_sym b_id a_id). reflexivity. }
  split; [|split; [|split; [|split]]].
  - unfold record_interaction. rewrite Hsym, (pair_key_sym b_id a_id). reflexivity.
  - rewrite Hsym. reflexivity.
  - unfold record_interaction.
    destruct (get_or_create rm a_id b_id) as [rm1 rel].
    unfold get_or_create at 1. cbn [_relationships].
    rewrite pdict_get_set_same. reflexivity.
  - unfold record_interaction.
    destruct (get_or_create rm a_id b_id) as [rm1 rel].
    unfold get_or_create. cbn [_relationships].
    rewrite pdict_get_set_same. cbn [snd].
    destruct positive; reflexivity.
  - unfold record_interaction.
    destruct (get_or_create rm a_id b_id) as [rm1 rel]. cbn [snd].
    unfold get_or_create. cbn [_relationships].
    rewrite pdict_get_set_same. cbn [snd].
    destruct positive; reflexivity.
Qed.

(** X25.  Trust is lost at least as fast as it is gained: a positive
    interaction followed by a negative one of the same magnitude never
    leaves trust or affinity above where it started. *)
Theorem trust_loss_outweighs_gain (r : Relationship) (magnitude : Q) :
  0 <= magnitude -> -1 <= trust r -> -1 <= affinity r ->
  let r' := negative_interaction (positive_interaction r magnitude) magnitude in
  trust r' <= trust r
  /\ affinity r' <= affinity r.
Proof.
  intros Hm Ht Ha. cbn zeta.
  unfold negative_interaction, positive_interaction,
    TRUST_GAIN_PER_POSITIVE, TRUST_LOSS_PER_NEGATIVE.
  cbn [trust affinity].
  pose proof (Q.le_min_r 1.0 (trust r + 0.05 * magnitude)) as H1.
  pose proof (Q.le_min_r 1.0 (affinity r + 0.03 * magnitude)) as H2.
  split; apply Q.max_lub; lra.
Qed.


Lemma relationship_scores_stay_in_range_witness :
  all_in_bounds (record_interaction new_manager 1 2 true 1 5)
  /\ all_in_bounds (daily_decay_all new_manager 5).
Proof.
  apply relationship_scores_stay_in_range.
  - vm_compute. discriminate.
  - constructor.
Defined.

Lemma trust_loss_outweighs_gain_witness :
  trust (negative_interaction (positive_interaction (new_relationship 1 2) 1) 1)
  <= trust (new_relationship 1 2).
Proof.
  refine (proj1 (trust_loss_outweighs_gain (new_relationship 1 2) 1 _ _ _));
    vm_compute; discriminate.
Defined.

End RelationshipFacts.

(* ===================================================================== *)
(** ** agents/memory.py *)

Module Experience.
Import Agent.

(** core/config.py *)
Definition INTELLIGENCE_LEARNING_BONUS : Q := 0.5.

Definition xp_for (success : bool) (intelligence : Q) : Q :=
  (if success then 1.0 else 0.3)
  * (1.0 + INTELLIGENCE_LEARNING_BONUS * (intelligence / 100.0)).

Definition experience_of (m : Memory) (activity : string) : Q :=
  match dict_get (skill_experience m) activity with
  | Some x => x
  | None => 0.0
  end.

(** Gain XP from performing an activity.  Returns the memory and the XP
    gained. *)
Definition add_experience (m : Memory) (activity : string) (success : bool)
           (intelligence : Q) : Memory * Q :=
  let xp_gain := xp_for success intelligence in
  (mkMemory (dict_set (skill_experience m) activity
                      (experience_of m activity + xp_gain)),
   xp_gain).

(** One remembered interaction: (day, event_type, sentiment_change). *)
Definition Interaction : Type := Z * string * Q.

(** [history[-n:]] *)
Definition last_n {A : Type} (n : nat) (l : list A) : list A :=
  skipn (List.length l - n) l.

Definition history_of (h : Families.idict (list Interaction)) (villager_id : Z)
  : list Interaction :=
  match Families.idict_get h villager_id with
  | Some l => l
  | None => []
  end.

(** Record an interaction with another villager, on the
    [interaction_history] dictionary of the memory.  The appended list is
    the one the dictionary holds; past twenty entries it is replaced by
    its last twenty. *)
Definition add_interaction (h : Families.idict (list Interaction))
           (villager_id day : Z) (event_type : string) (sentiment_change : Q)
  : Families.idict (list Interaction) :=
  let h1 := match Families.idict_get h villager_id with
            | Some _ => h
            | None => Families.idict_set h villager_id []
            end in
  let history := history_of h1 villager_id ++ [(day, event_type, sentiment_change)] in
  let h2 := Families.idict_set h1 villager_id history in
  if (20 <? List.length history)%nat
  then Families.idict_set h2 villager_id (last_n 20 history)
  else h2.

End Experience.

Module ExperienceFacts.
Import Agent Experience.

Lemma xp_for_positive (success : bool) (intelligence : Q) :
  0 <= intelligence -> 0 < xp_for success intelligence.
Proof.
  intros Hi. unfold xp_for, INTELLIGENCE_LEARNING_BONUS.
  assert (H : 0 <= intelligence / 100.0).
  { apply Qle_shift_div_l; [reflexivity | lra]. }
  destruct success; nra.
Qed.

(** X26.  Practice only adds experience: the activity's stored XP grows
    by exactly the returned gain, which is positive for a non-negative
    intelligence; a failed attempt earns three tenths of a successful one;
    the XP of every other activity is untouched. *)
Theorem add_experience_accumulates
        (m : Memory) (activity : string) (success : bool) (intelligence : Q) :
  0 <= intelligence ->
  let '(m', gain) := add_experience m activity success intelligence in
  experience_of m' activity = experience_of m activity + gain
  /\ 0 < gain
  /\ xp_for false intelligence == 0.3 * xp_for true intelligence
  /\ (forall other, other <> activity ->
        experience_of m' other = experience_of m other).
Proof.
  intros Hi. unfold add_experience.
  split; [|split; [|split]].
  - unfold experience_of at 1. cbn [skill_experience].
    rewrite StockFacts.dict_get_set_eq. reflexivity.
  - apply xp_for_positive. exact Hi.
  - unfold xp_for. ring.
  - intros other Hne. unfold experience_of. cbn [skill_experience].
    rewrite StockFacts.dict_get_set_other by (intros E; apply Hne; symmetry; exact E).
    reflexivity.
Qed.

(** X27.  Practice never lowers a skill: for any non-decreasing [exp],
    the skill level computed after [add_experience] is at least the level
    before, whatever the outcome of the attempt. *)
Theorem practice_never_lowers_skill
        (exp : Q -> Q) (m : Memory) (activity : string) (success : bool)
        (intelligence : Q) :
  (forall x y, x <= y -> exp x <= exp y) ->
  0 <= intelligence ->
  skill_level exp m activity intelligence
  <= skill_level exp (fst (add_experience m activity success intelligence))
                 activity intelligence.
Proof.
  intros Hmono Hi.
  pose proof (xp_for_positive success intelligence Hi) as Hgain.
  unfold add_experience. cbn [fst]. unfold skill_level. cbn [skill_experience].
  rewrite StockFacts.dict_get_set_eq.
  fold (experience_of m activity).
  set (old := experience_of m activity) in *.
  set (rate := Config.SKILL_LEARNING_RATE * (1.0 + 0.5 * (intelligence / 100.0))).
  assert (Hrate : 0 < rate).
  { unfold rate, Config.SKILL_LEARNING_RATE.
    assert (H : 0 <= intelligence / 100.0)
      by (apply Qle_shift_div_l; [reflexivity | lra]).
    nra. }
  assert (Harg : - (old + xp_for success intelligence) / rate <= - old / rate).
  { apply Qle_shift_div_l; [exact Hrate|].
    assert (E : - (old + xp_for success intelligence) / rate * rate
                == - (old + xp_for success intelligence)) by (field; lra).
    rewrite E. lra. }
  pose proof (Hmono _ _ Harg) as He.
  lra.
Qed.

Lemma last_n_length {A : Type} (n : nat) (l : list A) :
  (List.length (last_n n l) <= n)%nat.
Proof. unfold last_n. rewrite length_skipn. lia. Qed.

Lemma last_n_short {A : Type} (n : nat) (l : list A) :
  (List.length l <= n)%nat -> last_n n l = l.
Proof.
  intros H. unfold last_n.
  replace (List.length l - n)%nat with 0%nat by lia. reflexivity.
Qed.

Lemma last_n_keeps_last {A : Type} (n : nat) (l : list A) (x : A) :
  (0 < n)%nat -> exists front, last_n n (l ++ [x]) = front ++ [x].
Proof.
  intros Hn. unfold last_n. rewrite length_app. cbn [List.length].
  rewrite skipn_app.
  replace (List.length l + 1 - n - List.length l)%nat with 0%nat by lia.
  cbn [skipn]. eexists. reflexivity.
Qed.

(** X28.  The memory of interactions with one villager is capped: after
    [add_interaction] that villager's history holds at most twenty
    entries and ends with the new one; while the history was shorter than
    twenty it is the old history with the new entry appended; the
    histories of all other villagers are untouched. *)
Theorem add_interaction_keeps_last_twenty
        (h : Families.idict (list Interaction)) (villager_id day : Z)
        (event_type : string) (sentiment_change : Q) :
  let entry := (day, event_type, sentiment_change) in
  let h' := add_interaction h villager_id day event_type sentiment_change in
  (List.length (history_of h' villager_id) <= 20)%nat
  /\ (exists front, history_of h' villager_id = front ++ [entry])
  /\ ((List.length (history_of h villager_id) < 20)%nat ->
      history_of h' villager_id = history_of h villager_id ++ [entry])
  /\ (forall other, other <> villager_id ->
        history_of h' other = history_of h other).
Proof.
  cbn zeta. unfold add_interaction.
  set (h1 := match Families.idict_get h villager_id with
             | Some _ => h
             | None => Families.idict_set h villager_id []
             end).
  assert (H1 : history_of h1 villager_id = history_of h villager_id).
  { unfold h1, history_of.
    destruct (Families.idict_get h villager_id) eqn:E.
    - rewrite E. reflexivity.
    - rewrite FamilyFacts.idict_get_set_same. reflexivity. }
  assert (H1o : forall other, other <> villager_id ->
                  history_of h1 other = history_of h other).
  { intros other Hne. unfold h1, history_of.
    destruct (Families.idict_get h villager_id) eqn:E; [reflexivity|].
    rewrite FamilyFacts.idict_get_set_other by (intros Eo; apply Hne; symmetry; exact Eo). reflexivity. }
  rewrite H1.
  set (entry := (day, event_type, sentiment_change)).
  set (history := history_of h villager_id ++ [entry]).
  assert (Hlen : List.length history = S (List.length (history_of h villager_id))).
  { unfold history. rewrite length_app. cbn [List.length]. lia. }
  destruct (20 <? List.length history)%nat eqn:E.
  - apply Nat.ltb_lt in E.
    assert (Hg : history_of
                   (Families.idict_set
                      (Families.idict_set h1 villager_id history)
                      villager_id (last_n 20 history)) villager_id
                 = last_n 20 history).
    { unfold history_of. rewrite FamilyFacts.idict_get_set_same. reflexivity. }
    rewrite Hg.
    split; [apply last_n_length|].
    split; [apply last_n_keeps_last; lia|].
    split; [intros Hlt; lia|].
    intros other Hne. unfold history_of.
    rewrite !FamilyFacts.idict_get_set_other by (intros Eo; apply Hne; symmetry; exact Eo).
    exact (H1o other Hne).
  - apply Nat.ltb_ge in E.
    assert (Hg : history_of (Families.idict_set h1 villager_id history) villager_id
                 = history).
    { unfold history_of. rewrite FamilyFacts.idict_get_set_same. reflexivity. }
    rewrite Hg.
    split; [exact E|].
    split; [exists (history_of h villager_id); reflexivity|].
    split; [intros _; reflexivity|].
    intros other Hne. unfold history_of.
    rewrite FamilyFacts.idict_get_set_other by (intros Eo; apply Hne; symmetry; exact Eo).
    exact (H1o other Hne).
Qed.


Lemma add_experience_accumulates_witness :
  experience_of (fst (add_experience (mkMemory []) "farming" true 50)) "farming"
  = experience_of (mkMemory []) "farming"
    + snd (add_experience (mkMemory []) "farming" true 50).
Proof.
  refine (proj1 (add_experience_accumulates (mkMemory []) "farming" true 50 _)).
  vm_compute. discriminate.
Defined.

Lemma practice_never_lowers_skill_witness :
  skill_level (fun x => 1 + x) (mkMemory []) "farming" 50
  <= skill_level (fun x => 1 + x)
                 (fst (add_experience (mkMemory []) "farming" false 50))
                 "farming" 50.
Proof.
  apply (practice_never_lowers_skill (fun x => 1 + x)).
  - intros x y H. lra.
  - vm_compute. discriminate.
Defined.

End ExperienceFacts.

(* ===================================================================== *)
(** ** agents/needs.py: a need system over time *)

Module NeedLifecycle.
Import Needs.

(** The two ways a need system changes: the nightly [daily_decay] and a
    [satisfy] of one need by name. *)
Inductive event :=
| Night (warmth_modifier shelter_quality : Q)
        (had_social_interaction was_productive : bool)
| Relief (need_name : string) (amount : Q).

Definition apply_event (ns : NeedSystem) (e : event) : NeedSystem :=
  match e with
  | Night wm sq hs wp => daily_decay ns wm sq hs wp
  | Relief need_name amount => system_satisfy ns need_name amount
  end.

Definition run (ns : NeedSystem) (es : list event) : NeedSystem :=
  fold_left apply_event es ns.

Definition well_signed_event (e : event) : Prop :=
  match e with
  | Night wm _ _ _ => 0 <= wm
  | Relief _ amount => 0 <= amount
  end.

Definition healthy (ns : NeedSystem) : Prop :=
  Forall (fun kv => in_unit_range (snd kv) /\ 0 <= decay_rate (snd kv)) (needs ns).

End NeedLifecycle.

Module NeedLifecycleFacts.
Import Needs NeedLifecycle.

Lemma new_need_system_healthy : healthy new_need_system.
Proof.
  unfold healthy.
  repeat (constructor; [split; [split|]; vm_compute; discriminate|]).
  constructor.
Qed.

Lemma healthy_lookup (ns : NeedSystem) (nm : string) (n : Need) :
  healthy ns -> dict_get (needs ns) nm = Some n ->
  in_unit_range n /\ 0 <= decay_rate n.
Proof.
  unfold healthy. intros H. induction H as [|[k v] d Hx Hd IH]; cbn [dict_get].
  - discriminate.
  - destruct (String.eqb k nm); [|exact IH].
    intros E. inversion E; subst. exact Hx.
Qed.

Lemma dict_set_forall {V : Type} (P : V -> Prop) (d : dict V) (k : string) (v : V) :
  Forall (fun kv => P (snd kv)) d -> P v ->
  Forall (fun kv => P (snd kv)) (dict_set d k v).
Proof.
  intros Hd Hv. induction Hd as [|[k' v'] d Hx Hd IH]; cbn [dict_set].
  - constructor; [exact Hv | constructor].
  - destruct (String.eqb k' k); constructor; try assumption.
Qed.

Lemma apply_event_healthy (ns : NeedSystem) (e : event) :
  well_signed_event e -> healthy ns -> healthy (apply_event ns e).
Proof.
  intros He Hns. destruct e as [wm sq hs wp | nm amount]; cbn [apply_event].
  - unfold healthy, daily_decay. cbn [needs]. cbn [well_signed_event] in He.
    unfold healthy in Hns.
    induction Hns as [|[k n] d [Hrange Hrate] Hd IH]; cbn [map]; constructor.
    + cbn [fst snd].
      destruct (decay_modifier k wm sq hs wp) as [m|] eqn:E; cbn [snd];
        [|split; assumption].
      cbn [snd] in Hrange, Hrate. split.
      * apply (NeedFacts.well_signed_call_keeps_range n (Decay m) Hrange).
        cbn [NeedFacts.well_signed]. apply Qmult_le_0_compat; [exact Hrate|].
        exact (NeedFacts.decay_modifier_nonneg _ _ _ _ _ _ He E).
      * exact Hrate.
    + exact IH.
  - unfold system_satisfy. cbn [well_signed_event] in He.
    destruct (dict_get (needs ns) nm) as [n|] eqn:E; [|exact Hns].
    destruct (healthy_lookup ns nm n Hns E) as [Hrange Hrate].
    unfold healthy. cbn [needs].
    apply (dict_set_forall (fun n => in_unit_range n /\ 0 <= decay_rate n)).
    + exact Hns.
    + split; [|exact Hrate].
      exact (NeedFacts.well_signed_call_keeps_range n (Satisfy amount) Hrange He).
Qed.

Lemma run_healthy (es : list event) :
  forall ns, Forall well_signed_event es -> healthy ns -> healthy (run ns es).
Proof.
  unfold run. induction es as [|e es IH]; intros ns Hes Hns; cbn [fold_left].
  - exact Hns.
  - inversion Hes; subst. apply IH; [assumption|].
    apply apply_event_healthy; assumption.
Qed.

(** X29.  Whatever sequence of nights (with a non-negative warmth
    modifier) and reliefs (with a non-negative amount) a freshly created need
    system goes through, every one of its needs keeps a satisfaction
    between 0 and 1 and its decay rate, and no need is added or lost. *)
Theorem fresh_need_system_stays_in_range (es : list event) :
  Forall well_signed_event es ->
  Forall (fun kv => in_unit_range (snd kv)) (needs (run new_need_system es))
  /\ map (fun kv => (fst kv, decay_rate (snd kv))) (needs (run new_need_system es))
     = map (fun kv => (fst kv, decay_rate (snd kv))) (needs new_need_system).
Proof.
  intros Hes. split.
  - pose proof (run_healthy es new_need_system Hes new_need_system_healthy) as H.
    unfold healthy in H. revert H. apply Forall_impl. intros kv [Hr _]. exact Hr.
  - clear Hes. unfold run. generalize new_need_system.
    induction es as [|e es IH]; intros ns; cbn [fold_left]; [reflexivity|].
    rewrite IH. clear IH.
    destruct e as [wm sq hs wp | nm amount]; cbn [apply_event].
    + unfold daily_decay. cbn [needs]. rewrite map_map.
      apply map_ext. intros [k n]. cbn [fst snd].
      destruct (decay_modifier k wm sq hs wp); reflexivity.
    + unfold system_satisfy.
      destruct (dict_get (needs ns) nm) as [n|] eqn:E; [|reflexivity].
      cbn [needs]. revert E. induction (needs ns) as [|[k v] d IHd];
        cbn [dict_get dict_set map]; [discriminate|].
      destruct (String.eqb k nm) eqn:Ek.
      * intros H. inversion H; subst. cbn [map fst snd]. reflexivity.
      * intros H. cbn [map fst snd]. rewrite (IHd H). reflexivity.
Qed.

Lemma fresh_need_system_stays_in_range_witness :
  Forall (fun kv => in_unit_range (snd kv))
         (needs (run new_need_system
                     [Night 1.5 0.2 false true; Relief "hunger" 0.4;
                      Night 1 0.2 true false])).
Proof.
  refine (proj1 (fresh_need_system_stays_in_range
                   [Night 1.5 0.2 false true; Relief "hunger" 0.4;
                    Night 1 0.2 true false] _)).
  repeat (constructor; [vm_compute; discriminate|]). constructor.
Defined.

End NeedLifecycleFacts.

(* ===================================================================== *)
(** ** simulation/metrics.py: the Gini coefficient and the order of its input *)

Module GiniDifferenceFacts.
Import Metrics.

Local Abbreviation qn n := (inject_Z (Z.of_nat n)).

Lemma ascending_tail (x : Q) (l : list Q) : ascending (x :: l) -> ascending l.
Proof. intros H. inversion H; subst; [constructor | assumption]. Qed.

Lemma ascending_head_least (l : list Q) :
  forall x, ascending (x :: l) -> Forall (fun y => x <= y) l.
Proof.
  induction l as [|y l IH]; intros x H; [constructor|].
  inversion H as [| |? ? ? Hxy Hrest]; subst.
  constructor; [exact Hxy|].
  specialize (IH y Hrest).
  apply Forall_forall. intros z Hz. rewrite Forall_forall in IH.
  apply Qle_trans with y; [exact Hxy | apply IH; exact Hz].
Qed.

(** The sum of the absolute differences over all ordered pairs of
    values. *)
Definition pair_abs_sum (l : list Q) : Q :=
  Qsum (map (fun x => Qsum (map (fun y => Qabs (x - y)) l)) l).

Lemma Qsum_map_ext (f g : Q -> Q) (l : list Q) :
  (forall x, In x l -> f x == g x) -> Qsum (map f l) == Qsum (map g l).
Proof.
  induction l as [|x l IH]; intros H; cbn [map]; [reflexivity|].
  rewrite !Qsum_cons.
  assert (H1 : f x == g x) by (apply H; left; reflexivity).
  assert (H2 : Qsum (map f l) == Qsum (map g l))
    by (apply IH; intros y Hy; apply H; right; exact Hy).
  lra.
Qed.

Lemma Qsum_map_plus (f g : Q -> Q) (l : list Q) :
  Qsum (map (fun x => f x + g x) l) == Qsum (map f l) + Qsum (map g l).
Proof.
  induction l as [|x l IH]; cbn [map]; [reflexivity|].
  rewrite !Qsum_cons. lra.
Qed.

Lemma weighted_from_shift (l : list Q) :
  forall i : nat, weighted_from (S i) l == weighted_from i l + Qsum l.
Proof.
  induction l as [|x l IH]; intros i; cbn [weighted_from].
  - reflexivity.
  - rewrite Qsum_cons. pose proof (IH (S i)) as H.
    pose proof (MetricsFacts.qn_succ i) as Hs.
    assert (E : (qn (S i) + 1) * x == (qn i + 1) * x + x).
    { setoid_replace (qn (S i)) with (qn i + 1) by exact Hs. ring. }
    lra.
Qed.

Lemma differences_from_least (x : Q) (l : list Q) :
  Forall (fun y => x <= y) l ->
  Qsum (map (fun y => Qabs (x - y)) l) == Qsum l - qn (List.length l) * x
  /\ Qsum (map (fun z => Qabs (z - x)) l) == Qsum l - qn (List.length l) * x.
Proof.
  intros H. induction H as [|y l Hy Hl [IH1 IH2]].
  - cbn. split; reflexivity.
  - cbn [map List.length]. rewrite !Qsum_cons.
    pose proof (MetricsFacts.qn_succ (List.length l)) as Hs.
    assert (E : qn (S (List.length l)) * x == qn (List.length l) * x + x).
    { setoid_replace (qn (S (List.length l))) with (qn (List.length l) + 1)
        by exact Hs. ring. }
    assert (A1 : Qabs (x - y) == y - x).
    { rewrite Qabs_neg by lra. ring. }
    assert (A2 : Qabs (y - x) == y - x).
    { rewrite Qabs_pos by lra. reflexivity. }
    split; lra.
Qed.

Lemma pair_abs_sum_cons (x : Q) (l : list Q) :
  pair_abs_sum (x :: l)
  == Qsum (map (fun y => Qabs (x - y)) l)
     + Qsum (map (fun z => Qabs (z - x)) l)
     + pair_abs_sum l.
Proof.
  unfold pair_abs_sum. cbn [map]. rewrite !Qsum_cons.
  assert (E0 : Qabs (x - x) == 0).
  { setoid_replace (x - x) with 0 by ring. reflexivity. }
  pose proof (Qsum_map_plus (fun z => Qabs (z - x))
                            (fun z => Qsum (map (fun y => Qabs (z - y)) l)) l) as Hp.
  cbv beta in Hp.
  assert (Hext : Qsum (map (fun z => Qsum (Qabs (z - x)
                                           :: map (fun y => Qabs (z - y)) l)) l)
                 == Qsum (map (fun z => Qabs (z - x)
                                        + Qsum (map (fun y => Qabs (z - y)) l)) l)).
  { apply Qsum_map_ext. intros z _. rewrite Qsum_cons. reflexivity. }
  lra.
Qed.

Lemma ascending_pair_abs_sum (l : list Q) :
  ascending l ->
  pair_abs_sum l
  == 4 * weighted_from 0 l - 2 * (qn (List.length l) + 1) * Qsum l.
Proof.
  induction l as [|x l IH]; intros Hasc.
  - cbn. reflexivity.
  - pose proof (IH (ascending_tail x l Hasc)) as IHl.
    pose proof (ascending_head_least l x Hasc) as Hleast.
    destruct (differences_from_least x l Hleast) as [D1 D2].
    rewrite pair_abs_sum_cons.
    cbn [weighted_from List.length]. rewrite Qsum_cons.
    pose proof (weighted_from_shift l 0) as Hw.
    pose proof (MetricsFacts.qn_succ (List.length l)) as Hs.
    set (n := qn (List.length l)) in *.
    set (T := Qsum l) in *.
    set (W := weighted_from 0 l) in *.
    set (W1 := weighted_from 1 l) in *.
    set (P := pair_abs_sum l) in *.
    set (A := Qsum (map (fun y => Qabs (x - y)) l)) in *.
    set (B := Qsum (map (fun z => Qabs (z - x)) l)) in *.
    setoid_replace (qn (S (List.length l))) with (n + 1) by exact Hs.
    change (inject_Z (Z.of_nat 0)) with 0.
    rewrite D1, D2, IHl, Hw. ring.
Qed.

Lemma pair_abs_sum_perm (l l' : list Q) :
  Permutation l l' -> pair_abs_sum l == pair_abs_sum l'.
Proof.
  intros Hp. unfold pair_abs_sum.
  apply Qeq_trans
    with (Qsum (map (fun x => Qsum (map (fun y => Qabs (x - y)) l)) l')).
  - apply MetricsFacts.Qsum_perm. apply Permutation_map. exact Hp.
  - apply Qsum_map_ext. intros x _.
    apply MetricsFacts.Qsum_perm. apply Permutation_map. exact Hp.
Qed.

(** Over exact rationals the rank-weighted formula is the mean absolute
    difference of the values, a form in which the order of the values
    plainly does not matter. *)
Lemma gini_mean_difference (values : list Q) :
  ~ Qsum values == 0 ->
  gini_coefficient values
  == pair_abs_sum values / (2 * qn (List.length values) * Qsum values).
Proof.
  intros Hsum.
  assert (Hne : values <> []).
  { intros ->. apply Hsum. reflexivity. }
  rewrite (MetricsFacts.gini_is_rank_weighted values Hne Hsum).
  unfold rank_weighted_formula.
  rewrite <- (MetricsFacts.weighted_is_rank_sum (sorted values)).
  rewrite (pair_abs_sum_perm values (sorted values))
    by (apply Permutation_sym; apply MetricsFacts.sorted_perm).
  rewrite (ascending_pair_abs_sum (sorted values) (MetricsFacts.sorted_ascending values)).
  rewrite MetricsFacts.sorted_length.
  pose proof (MetricsFacts.Qsum_perm _ _ (MetricsFacts.sorted_perm values)) as HT.
  assert (Hn : ~ qn (List.length values) == 0).
  { destruct values as [|v rest]; [contradiction Hne; reflexivity|].
    apply MetricsFacts.qn_succ_nonzero. }
  set (n := qn (List.length values)) in *.
  set (W := weighted_from 0 (sorted values)).
  rewrite HT.
  set (T := Qsum values) in *.
  field. split; assumption.
Qed.

(** X30.  The Gini coefficient does not depend on the order in which the
    values are given. *)
Theorem gini_coefficient_order_independent (values values' : list Q) :
  Permutation values values' ->
  gini_coefficient values == gini_coefficient values'.
Proof.
  intros Hp.
  pose proof (MetricsFacts.Qsum_perm _ _ Hp) as HT.
  destruct (Qeq_dec (Qsum values) 0) as [Hz | Hnz].
  - assert (Hz' : Qsum values' == 0) by (rewrite <- HT; exact Hz).
    assert (G0 : forall l, Qsum l == 0 -> gini_coefficient l == 0).
    { intros l Hl. unfold gini_coefficient.
      destruct (match l with [] => true | _ => false end
                || forallb (fun v => Qeq_bool v 0) l); [reflexivity|].
      cbv zeta.
      assert (Hs : Qeq_bool (Qsum (sorted l)) 0 = true).
      { apply Qeq_bool_iff.
        rewrite (MetricsFacts.Qsum_perm _ _ (MetricsFacts.sorted_perm l)). exact Hl. }
      rewrite Hs. reflexivity. }
    rewrite (G0 values Hz), (G0 values' Hz'). reflexivity.
  - assert (Hnz' : ~ Qsum values' == 0) by (rewrite <- HT; exact Hnz).
    rewrite (gini_mean_difference values Hnz), (gini_mean_difference values' Hnz').
    rewrite (pair_abs_sum_perm _ _ Hp), HT, (Permutation_length Hp).
    reflexivity.
Qed.

Lemma gini_coefficient_order_independent_witness :
  gini_coefficient [3; 1; 2] == gini_coefficient [1; 2; 3].
Proof.
  apply gini_coefficient_order_independent.
  apply Permutation_sym.
  apply (perm_trans (l' := [1; 3; 2])).
  - apply perm_skip. apply perm_swap.
  - apply perm_swap.
Defined.

End GiniDifferenceFacts.
